(** * MyNews: the feed-to-HTML pipeline of [mynews/build.py]

    A shallow embedding of [build.py] (fetch, normalise, sort, render) and
    of the Python library functions it calls, followed by the properties of
    the pipeline.

    Python strings are sequences of Unicode code points: a character is a
    code point in [N], a string is a list of them, [len] is [length]. *)

From Stdlib Require Import List NArith ZArith Arith Lia Bool Ascii.
From Stdlib Require String DecimalString.
Import String.StringSyntax.
From Stdlib Require Import Permutation Sorted.
From Equations Require Import Equations.
Import ListNotations.

Delimit Scope string_scope with string.
Bind Scope string_scope with String.string.
Local Open Scope list_scope.

(** ** Python [str] *)

Module Py.

Definition char := N.
Definition str := list char.

(** An ASCII literal. *)
Definition lit (s : String.string) : str :=
  map N_of_ascii (String.list_ascii_of_string s).

Definition SPACE : char := 32%N.

(** [c.isspace()], which is also what [\s] matches in a [str] pattern and
    what [str.strip()] removes. *)
Definition isspace (c : char) : bool :=
  ((9 <=? c) && (c <=? 13) || (28 <=? c) && (c <=? 32)
   || (c =? 133) || (c =? 160) || (c =? 5760)
   || (8192 <=? c) && (c <=? 8202)
   || (c =? 8232) || (c =? 8233) || (c =? 8239) || (c =? 8287)
   || (c =? 12288))%N.

(** [c in s] for a one-character [c]. *)
Definition contains (c : char) (s : str) : bool := existsb (N.eqb c) s.

(** [s[:n]] and [s[n:]] for [n >= 0]. *)
Definition slice_to (n : nat) (s : str) : str := firstn n s.
Definition slice_from (n : nat) (s : str) : str := skipn n s.

(** [s.rfind(c)] for a one-character [c]: the index of its last occurrence. *)
Fixpoint rfind (c : char) (s : str) : option nat :=
  match s with
  | [] => None
  | x :: r =>
      match rfind c r with
      | Some i => Some (S i)
      | None => if (x =? c)%N then Some 0 else None
      end
  end.

(** [s.rsplit(sep, 1)] for a one-character [sep]: split at the last [sep]. *)
Definition rsplit1 (sep : char) (s : str) : list str :=
  match rfind sep s with
  | Some i => [slice_to i s; slice_from (S i) s]
  | None => [s]
  end.

(** [l[0]] on a list that [rsplit] returned (never empty). *)
Definition item0 (l : list str) : str := nth 0 l [].

(** Stripping from the left and from the right the characters that
    satisfy [p]. *)
Fixpoint lstrip_by (p : char -> bool) (s : str) : str :=
  match s with
  | [] => []
  | c :: r => if p c then lstrip_by p r else s
  end.

Definition rstrip_by (p : char -> bool) (s : str) : str :=
  rev (lstrip_by p (rev s)).

(** [s.lstrip()], [s.rstrip()], [s.strip()]: whitespace is removed. *)
Definition lstrip (s : str) : str := lstrip_by isspace s.
Definition rstrip (s : str) : str := rstrip_by isspace s.
Definition strip (s : str) : str := rstrip (lstrip s).

(** [s.rstrip(chars)]. *)
Definition rstrip_chars (chars : str) (s : str) : str :=
  rstrip_by (fun c => contains c chars) s.

(** [s.replace(c, by)] for a one-character [c]. *)
Definition replace (c : char) (by_ : str) (s : str) : str :=
  flat_map (fun x => if (x =? c)%N then by_ else [x]) s.

(** [l.sort(key=key, reverse=True)]. The sort is stable, and with
    [reverse=True] elements with equal keys still keep their original
    order: an element goes before the first one whose key is not greater. *)
Fixpoint insert_reverse {A} (key : A -> Z) (x : A) (l : list A) : list A :=
  match l with
  | [] => [x]
  | y :: r =>
      if (key x <? key y)%Z then y :: insert_reverse key x r else x :: l
  end.

Definition sort_reverse {A} (key : A -> Z) (l : list A) : list A :=
  fold_right (insert_reverse key) [] l.

End Py.

Import Py.

(** ** Python [re] *)

Module Re.

(** The longest prefix of [s] whose characters satisfy [p], and the rest:
    what a greedy [[class]*] consumes. *)
Fixpoint span (p : char -> bool) (s : str) : str * str :=
  match s with
  | [] => ([], [])
  | c :: r =>
      if p c then let (run, rest) := span p r in (c :: run, rest)
      else ([], s)
  end.

(** [re.sub(pattern, repl, s)] for a pattern that cannot match the empty
    string. [match_at t] is the attempt to match the pattern at the start
    of [t]: the length of the match, if there is one. The scan replaces the
    leftmost match by [repl] of the matched text and goes on after it; a
    character at which the pattern does not match is copied. *)
Equations? sub (match_at : str -> option nat) (repl : str -> str) (s : str)
  : str by wf (length s) lt :=
  sub match_at repl [] := [];
  sub match_at repl (c :: r) with match_at (c :: r) := {
    | Some (S k) := repl (firstn (S k) (c :: r)) ++ sub match_at repl (skipn k r);
    | _ := c :: sub match_at repl r }.
Proof.
  all: try (simpl; lia).
  rewrite length_skipn. simpl. lia.
Qed.

(** The texts that [sub] replaces: the matches of the same scan, from left
    to right. *)
Equations? matches (match_at : str -> option nat) (s : str)
  : list str by wf (length s) lt :=
  matches match_at [] := [];
  matches match_at (c :: r) with match_at (c :: r) := {
    | Some (S k) := firstn (S k) (c :: r) :: matches match_at (skipn k r);
    | _ := matches match_at r }.
Proof.
  all: try (simpl; lia).
  rewrite length_skipn. simpl. lia.
Qed.

(** The pattern [<[^>]+>] at the start of [s]. After [<] the greedy class
    takes every character up to the next [>] or the end of the string;
    giving characters back cannot help, since the one after a shorter run
    is not [>]. *)
Definition match_tag (s : str) : option nat :=
  match s with
  | c :: r =>
      if (c =? 60)%N then
        match span (fun x => negb (x =? 62)%N) r with
        | ((_ :: _) as run, _ :: _) => Some (length run + 2)
        | _ => None
        end
      else None
  | [] => None
  end.

(** The pattern [\s+] at the start of [s]. *)
Definition match_spaces (s : str) : option nat :=
  match fst (span isspace s) with
  | [] => None
  | run => Some (length run)
  end.

End Re.

(** ** Python [html] *)

Module Html.

Import Re.

Local Open Scope string_scope.
Local Open Scope N_scope.

(** [html.escape(s, quote=True)]. *)
Definition escape (s : str) : str :=
  let s := replace 38 (lit "&amp;") s in (* Must be done first! *)
  let s := replace 60 (lit "&lt;") s in
  let s := replace 62 (lit "&gt;") s in
  let s := replace 34 (lit "&quot;") s in
  let s := replace 39 (lit "&#x27;") s in
  s.

(** [_invalid_charrefs]. *)
Definition invalid_charrefs : list (N * char) := [
  (0x00, 0xfffd); (0x0d, 0x000d); (0x80, 0x20ac); (0x81, 0x0081);
  (0x82, 0x201a); (0x83, 0x0192); (0x84, 0x201e); (0x85, 0x2026);
  (0x86, 0x2020); (0x87, 0x2021); (0x88, 0x02c6); (0x89, 0x2030);
  (0x8a, 0x0160); (0x8b, 0x2039); (0x8c, 0x0152); (0x8d, 0x008d);
  (0x8e, 0x017d); (0x8f, 0x008f); (0x90, 0x0090); (0x91, 0x2018);
  (0x92, 0x2019); (0x93, 0x201c); (0x94, 0x201d); (0x95, 0x2022);
  (0x96, 0x2013); (0x97, 0x2014); (0x98, 0x02dc); (0x99, 0x2122);
  (0x9a, 0x0161); (0x9b, 0x203a); (0x9c, 0x0153); (0x9d, 0x009d);
  (0x9e, 0x017e); (0x9f, 0x0178)
].

(** [_invalid_codepoints]. *)
Definition invalid_codepoints : list N := [
  0x1; 0x2; 0x3; 0x4; 0x5; 0x6; 0x7; 0x8; 0xe; 0xf; 0x10; 0x11; 0x12; 0x13;
  0x14; 0x15; 0x16; 0x17; 0x18; 0x19; 0x1a; 0x1b; 0x1c; 0x1d; 0x1e; 0x1f;
  0x7f; 0x80; 0x81; 0x82; 0x83; 0x84; 0x85; 0x86; 0x87; 0x88; 0x89; 0x8a;
  0x8b; 0x8c; 0x8d; 0x8e; 0x8f; 0x90; 0x91; 0x92; 0x93; 0x94; 0x95; 0x96;
  0x97; 0x98; 0x99; 0x9a; 0x9b; 0x9c; 0x9d; 0x9e; 0x9f; 0xfdd0; 0xfdd1;
  0xfdd2; 0xfdd3; 0xfdd4; 0xfdd5; 0xfdd6; 0xfdd7; 0xfdd8; 0xfdd9; 0xfdda;
  0xfddb; 0xfddc; 0xfddd; 0xfdde; 0xfddf; 0xfde0; 0xfde1; 0xfde2; 0xfde3;
  0xfde4; 0xfde5; 0xfde6; 0xfde7; 0xfde8; 0xfde9; 0xfdea; 0xfdeb; 0xfdec;
  0xfded; 0xfdee; 0xfdef; 0xb; 0xfffe; 0xffff; 0x1fffe; 0x1ffff; 0x2fffe;
  0x2ffff; 0x3fffe; 0x3ffff; 0x4fffe; 0x4ffff; 0x5fffe; 0x5ffff; 0x6fffe;
  0x6ffff; 0x7fffe; 0x7ffff; 0x8fffe; 0x8ffff; 0x9fffe; 0x9ffff; 0xafffe;
  0xaffff; 0xbfffe; 0xbffff; 0xcfffe; 0xcffff; 0xdfffe; 0xdffff; 0xefffe;
  0xeffff; 0xffffe; 0xfffff; 0x10fffe; 0x10ffff
].

(** [html.entities.html5]: the named character references of HTML 5, each
    with the code points it stands for. *)
Definition html5 : list (String.string * str) := [
  ("Aacute", [193]); ("aacute", [225]); ("Aacute;", [193]);
  ("aacute;", [225]); ("Abreve;", [258]); ("abreve;", [259]); ("ac;", [8766]);
  ("acd;", [8767]); ("acE;", [8766; 819]); ("Acirc", [194]); ("acirc", [226]);
  ("Acirc;", [194]); ("acirc;", [226]); ("acute", [180]); ("acute;", [180]);
  ("Acy;", [1040]); ("acy;", [1072]); ("AElig", [198]); ("aelig", [230]);
  ("AElig;", [198]); ("aelig;", [230]); ("af;", [8289]); ("Afr;", [120068]);
  ("afr;", [120094]); ("Agrave", [192]); ("agrave", [224]);
  ("Agrave;", [192]); ("agrave;", [224]); ("alefsym;", [8501]);
  ("aleph;", [8501]); ("Alpha;", [913]); ("alpha;", [945]); ("Amacr;", [256]);
  ("amacr;", [257]); ("amalg;", [10815]); ("AMP", [38]); ("amp", [38]);
  ("AMP;", [38]); ("amp;", [38]); ("And;", [10835]); ("and;", [8743]);
  ("andand;", [10837]); ("andd;", [10844]); ("andslope;", [10840]);
  ("andv;", [10842]); ("ang;", [8736]); ("ange;", [10660]);
  ("angle;", [8736]); ("angmsd;", [8737]); ("angmsdaa;", [10664]);
  ("angmsdab;", [10665]); ("angmsdac;", [10666]); ("angmsdad;", [10667]);
  ("angmsdae;", [10668]); ("angmsdaf;", [10669]); ("angmsdag;", [10670]);
  ("angmsdah;", [10671]); ("angrt;", [8735]); ("angrtvb;", [8894]);
  ("angrtvbd;", [10653]); ("angsph;", [8738]); ("angst;", [197]);
  ("angzarr;", [9084]); ("Aogon;", [260]); ("aogon;", [261]);
  ("Aopf;", [120120]); ("aopf;", [120146]); ("ap;", [8776]);
  ("apacir;", [10863]); ("apE;", [10864]); ("ape;", [8778]);
  ("apid;", [8779]); ("apos;", [39]); ("ApplyFunction;", [8289]);
  ("approx;", [8776]); ("approxeq;", [8778]); ("Aring", [197]);
  ("aring", [229]); ("Aring;", [197]); ("aring;", [229]); ("Ascr;", [119964]);
  ("ascr;", [119990]); ("Assign;", [8788]); ("ast;", [42]);
  ("asymp;", [8776]); ("asympeq;", [8781]); ("Atilde", [195]);
  ("atilde", [227]); ("Atilde;", [195]); ("atilde;", [227]); ("Auml", [196]);
  ("auml", [228]); ("Auml;", [196]); ("auml;", [228]); ("awconint;", [8755]);
  ("awint;", [10769]); ("backcong;", [8780]); ("backepsilon;", [1014]);
  ("backprime;", [8245]); ("backsim;", [8765]); ("backsimeq;", [8909]);
  ("Backslash;", [8726]); ("Barv;", [10983]); ("barvee;", [8893]);
  ("Barwed;", [8966]); ("barwed;", [8965]); ("barwedge;", [8965]);
  ("bbrk;", [9141]); ("bbrktbrk;", [9142]); ("bcong;", [8780]);
  ("Bcy;", [1041]); ("bcy;", [1073]); ("bdquo;", [8222]); ("becaus;", [8757]);
  ("Because;", [8757]); ("because;", [8757]); ("bemptyv;", [10672]);
  ("bepsi;", [1014]); ("bernou;", [8492]); ("Bernoullis;", [8492]);
  ("Beta;", [914]); ("beta;", [946]); ("beth;", [8502]); ("between;", [8812]);
  ("Bfr;", [120069]); ("bfr;", [120095]); ("bigcap;", [8898]);
  ("bigcirc;", [9711]); ("bigcup;", [8899]); ("bigodot;", [10752]);
  ("bigoplus;", [10753]); ("bigotimes;", [10754]); ("bigsqcup;", [10758]);
  ("bigstar;", [9733]); ("bigtriangledown;", [9661]);
  ("bigtriangleup;", [9651]); ("biguplus;", [10756]); ("bigvee;", [8897]);
  ("bigwedge;", [8896]); ("bkarow;", [10509]); ("blacklozenge;", [10731]);
  ("blacksquare;", [9642]); ("blacktriangle;", [9652]);
  ("blacktriangledown;", [9662]); ("blacktriangleleft;", [9666]);
  ("blacktriangleright;", [9656]); ("blank;", [9251]); ("blk12;", [9618]);
  ("blk14;", [9617]); ("blk34;", [9619]); ("block;", [9608]);
  ("bne;", [61; 8421]); ("bnequiv;", [8801; 8421]); ("bNot;", [10989]);
  ("bnot;", [8976]); ("Bopf;", [120121]); ("bopf;", [120147]);
  ("bot;", [8869]); ("bottom;", [8869]); ("bowtie;", [8904]);
  ("boxbox;", [10697]); ("boxDL;", [9559]); ("boxDl;", [9558]);
  ("boxdL;", [9557]); ("boxdl;", [9488]); ("boxDR;", [9556]);
  ("boxDr;", [9555]); ("boxdR;", [9554]); ("boxdr;", [9484]);
  ("boxH;", [9552]); ("boxh;", [9472]); ("boxHD;", [9574]);
  ("boxHd;", [9572]); ("boxhD;", [9573]); ("boxhd;", [9516]);
  ("boxHU;", [9577]); ("boxHu;", [9575]); ("boxhU;", [9576]);
  ("boxhu;", [9524]); ("boxminus;", [8863]); ("boxplus;", [8862]);
  ("boxtimes;", [8864]); ("boxUL;", [9565]); ("boxUl;", [9564]);
  ("boxuL;", [9563]); ("boxul;", [9496]); ("boxUR;", [9562]);
  ("boxUr;", [9561]); ("boxuR;", [9560]); ("boxur;", [9492]);
  ("boxV;", [9553]); ("boxv;", [9474]); ("boxVH;", [9580]);
  ("boxVh;", [9579]); ("boxvH;", [9578]); ("boxvh;", [9532]);
  ("boxVL;", [9571]); ("boxVl;", [9570]); ("boxvL;", [9569]);
  ("boxvl;", [9508]); ("boxVR;", [9568]); ("boxVr;", [9567]);
  ("boxvR;", [9566]); ("boxvr;", [9500]); ("bprime;", [8245]);
  ("Breve;", [728]); ("breve;", [728]); ("brvbar", [166]); ("brvbar;", [166]);
  ("Bscr;", [8492]); ("bscr;", [119991]); ("bsemi;", [8271]);
  ("bsim;", [8765]); ("bsime;", [8909]); ("bsol;", [92]); ("bsolb;", [10693]);
  ("bsolhsub;", [10184]); ("bull;", [8226]); ("bullet;", [8226]);
  ("bump;", [8782]); ("bumpE;", [10926]); ("bumpe;", [8783]);
  ("Bumpeq;", [8782]); ("bumpeq;", [8783]); ("Cacute;", [262]);
  ("cacute;", [263]); ("Cap;", [8914]); ("cap;", [8745]);
  ("capand;", [10820]); ("capbrcup;", [10825]); ("capcap;", [10827]);
  ("capcup;", [10823]); ("capdot;", [10816]);
  ("CapitalDifferentialD;", [8517]); ("caps;", [8745; 65024]);
  ("caret;", [8257]); ("caron;", [711]); ("Cayleys;", [8493]);
  ("ccaps;", [10829]); ("Ccaron;", [268]); ("ccaron;", [269]);
  ("Ccedil", [199]); ("ccedil", [231]); ("Ccedil;", [199]);
  ("ccedil;", [231]); ("Ccirc;", [264]); ("ccirc;", [265]);
  ("Cconint;", [8752]); ("ccups;", [10828]); ("ccupssm;", [10832]);
  ("Cdot;", [266]); ("cdot;", [267]); ("cedil", [184]); ("cedil;", [184]);
  ("Cedilla;", [184]); ("cemptyv;", [10674]); ("cent", [162]);
  ("cent;", [162]); ("CenterDot;", [183]); ("centerdot;", [183]);
  ("Cfr;", [8493]); ("cfr;", [120096]); ("CHcy;", [1063]); ("chcy;", [1095]);
  ("check;", [10003]); ("checkmark;", [10003]); ("Chi;", [935]);
  ("chi;", [967]); ("cir;", [9675]); ("circ;", [710]); ("circeq;", [8791]);
  ("circlearrowleft;", [8634]); ("circlearrowright;", [8635]);
  ("circledast;", [8859]); ("circledcirc;", [8858]); ("circleddash;", [8861]);
  ("CircleDot;", [8857]); ("circledR;", [174]); ("circledS;", [9416]);
  ("CircleMinus;", [8854]); ("CirclePlus;", [8853]); ("CircleTimes;", [8855]);
  ("cirE;", [10691]); ("cire;", [8791]); ("cirfnint;", [10768]);
  ("cirmid;", [10991]); ("cirscir;", [10690]);
  ("ClockwiseContourIntegral;", [8754]); ("CloseCurlyDoubleQuote;", [8221]);
  ("CloseCurlyQuote;", [8217]); ("clubs;", [9827]); ("clubsuit;", [9827]);
  ("Colon;", [8759]); ("colon;", [58]); ("Colone;", [10868]);
  ("colone;", [8788]); ("coloneq;", [8788]); ("comma;", [44]);
  ("commat;", [64]); ("comp;", [8705]); ("compfn;", [8728]);
  ("complement;", [8705]); ("complexes;", [8450]); ("cong;", [8773]);
  ("congdot;", [10861]); ("Congruent;", [8801]); ("Conint;", [8751]);
  ("conint;", [8750]); ("ContourIntegral;", [8750]); ("Copf;", [8450]);
  ("copf;", [120148]); ("coprod;", [8720]); ("Coproduct;", [8720]);
  ("COPY", [169]); ("copy", [169]); ("COPY;", [169]); ("copy;", [169]);
  ("copysr;", [8471]); ("CounterClockwiseContourIntegral;", [8755]);
  ("crarr;", [8629]); ("Cross;", [10799]); ("cross;", [10007]);
  ("Cscr;", [119966]); ("cscr;", [119992]); ("csub;", [10959]);
  ("csube;", [10961]); ("csup;", [10960]); ("csupe;", [10962]);
  ("ctdot;", [8943]); ("cudarrl;", [10552]); ("cudarrr;", [10549]);
  ("cuepr;", [8926]); ("cuesc;", [8927]); ("cularr;", [8630]);
  ("cularrp;", [10557]); ("Cup;", [8915]); ("cup;", [8746]);
  ("cupbrcap;", [10824]); ("CupCap;", [8781]); ("cupcap;", [10822]);
  ("cupcup;", [10826]); ("cupdot;", [8845]); ("cupor;", [10821]);
  ("cups;", [8746; 65024]); ("curarr;", [8631]); ("curarrm;", [10556]);
  ("curlyeqprec;", [8926]); ("curlyeqsucc;", [8927]); ("curlyvee;", [8910]);
  ("curlywedge;", [8911]); ("curren", [164]); ("curren;", [164]);
  ("curvearrowleft;", [8630]); ("curvearrowright;", [8631]);
  ("cuvee;", [8910]); ("cuwed;", [8911]); ("cwconint;", [8754]);
  ("cwint;", [8753]); ("cylcty;", [9005]); ("Dagger;", [8225]);
  ("dagger;", [8224]); ("daleth;", [8504]); ("Darr;", [8609]);
  ("dArr;", [8659]); ("darr;", [8595]); ("dash;", [8208]);
  ("Dashv;", [10980]); ("dashv;", [8867]); ("dbkarow;", [10511]);
  ("dblac;", [733]); ("Dcaron;", [270]); ("dcaron;", [271]); ("Dcy;", [1044]);
  ("dcy;", [1076]); ("DD;", [8517]); ("dd;", [8518]); ("ddagger;", [8225]);
  ("ddarr;", [8650]); ("DDotrahd;", [10513]); ("ddotseq;", [10871]);
  ("deg", [176]); ("deg;", [176]); ("Del;", [8711]); ("Delta;", [916]);
  ("delta;", [948]); ("demptyv;", [10673]); ("dfisht;", [10623]);
  ("Dfr;", [120071]); ("dfr;", [120097]); ("dHar;", [10597]);
  ("dharl;", [8643]); ("dharr;", [8642]); ("DiacriticalAcute;", [180]);
  ("DiacriticalDot;", [729]); ("DiacriticalDoubleAcute;", [733]);
  ("DiacriticalGrave;", [96]); ("DiacriticalTilde;", [732]);
  ("diam;", [8900]); ("Diamond;", [8900]); ("diamond;", [8900]);
  ("diamondsuit;", [9830]); ("diams;", [9830]); ("die;", [168]);
  ("DifferentialD;", [8518]); ("digamma;", [989]); ("disin;", [8946]);
  ("div;", [247]); ("divide", [247]); ("divide;", [247]);
  ("divideontimes;", [8903]); ("divonx;", [8903]); ("DJcy;", [1026]);
  ("djcy;", [1106]); ("dlcorn;", [8990]); ("dlcrop;", [8973]);
  ("dollar;", [36]); ("Dopf;", [120123]); ("dopf;", [120149]);
  ("Dot;", [168]); ("dot;", [729]); ("DotDot;", [8412]); ("doteq;", [8784]);
  ("doteqdot;", [8785]); ("DotEqual;", [8784]); ("dotminus;", [8760]);
  ("dotplus;", [8724]); ("dotsquare;", [8865]); ("doublebarwedge;", [8966]);
  ("DoubleContourIntegral;", [8751]); ("DoubleDot;", [168]);
  ("DoubleDownArrow;", [8659]); ("DoubleLeftArrow;", [8656]);
  ("DoubleLeftRightArrow;", [8660]); ("DoubleLeftTee;", [10980]);
  ("DoubleLongLeftArrow;", [10232]); ("DoubleLongLeftRightArrow;", [10234]);
  ("DoubleLongRightArrow;", [10233]); ("DoubleRightArrow;", [8658]);
  ("DoubleRightTee;", [8872]); ("DoubleUpArrow;", [8657]);
  ("DoubleUpDownArrow;", [8661]); ("DoubleVerticalBar;", [8741]);
  ("DownArrow;", [8595]); ("Downarrow;", [8659]); ("downarrow;", [8595]);
  ("DownArrowBar;", [10515]); ("DownArrowUpArrow;", [8693]);
  ("DownBreve;", [785]); ("downdownarrows;", [8650]);
  ("downharpoonleft;", [8643]); ("downharpoonright;", [8642]);
  ("DownLeftRightVector;", [10576]); ("DownLeftTeeVector;", [10590]);
  ("DownLeftVector;", [8637]); ("DownLeftVectorBar;", [10582]);
  ("DownRightTeeVector;", [10591]); ("DownRightVector;", [8641]);
  ("DownRightVectorBar;", [10583]); ("DownTee;", [8868]);
  ("DownTeeArrow;", [8615]); ("drbkarow;", [10512]); ("drcorn;", [8991]);
  ("drcrop;", [8972]); ("Dscr;", [119967]); ("dscr;", [119993]);
  ("DScy;", [1029]); ("dscy;", [1109]); ("dsol;", [10742]);
  ("Dstrok;", [272]); ("dstrok;", [273]); ("dtdot;", [8945]);
  ("dtri;", [9663]); ("dtrif;", [9662]); ("duarr;", [8693]);
  ("duhar;", [10607]); ("dwangle;", [10662]); ("DZcy;", [1039]);
  ("dzcy;", [1119]); ("dzigrarr;", [10239]); ("Eacute", [201]);
  ("eacute", [233]); ("Eacute;", [201]); ("eacute;", [233]);
  ("easter;", [10862]); ("Ecaron;", [282]); ("ecaron;", [283]);
  ("ecir;", [8790]); ("Ecirc", [202]); ("ecirc", [234]); ("Ecirc;", [202]);
  ("ecirc;", [234]); ("ecolon;", [8789]); ("Ecy;", [1069]); ("ecy;", [1101]);
  ("eDDot;", [10871]); ("Edot;", [278]); ("eDot;", [8785]); ("edot;", [279]);
  ("ee;", [8519]); ("efDot;", [8786]); ("Efr;", [120072]); ("efr;", [120098]);
  ("eg;", [10906]); ("Egrave", [200]); ("egrave", [232]); ("Egrave;", [200]);
  ("egrave;", [232]); ("egs;", [10902]); ("egsdot;", [10904]);
  ("el;", [10905]); ("Element;", [8712]); ("elinters;", [9191]);
  ("ell;", [8467]); ("els;", [10901]); ("elsdot;", [10903]);
  ("Emacr;", [274]); ("emacr;", [275]); ("empty;", [8709]);
  ("emptyset;", [8709]); ("EmptySmallSquare;", [9723]); ("emptyv;", [8709]);
  ("EmptyVerySmallSquare;", [9643]); ("emsp13;", [8196]); ("emsp14;", [8197]);
  ("emsp;", [8195]); ("ENG;", [330]); ("eng;", [331]); ("ensp;", [8194]);
  ("Eogon;", [280]); ("eogon;", [281]); ("Eopf;", [120124]);
  ("eopf;", [120150]); ("epar;", [8917]); ("eparsl;", [10723]);
  ("eplus;", [10865]); ("epsi;", [949]); ("Epsilon;", [917]);
  ("epsilon;", [949]); ("epsiv;", [1013]); ("eqcirc;", [8790]);
  ("eqcolon;", [8789]); ("eqsim;", [8770]); ("eqslantgtr;", [10902]);
  ("eqslantless;", [10901]); ("Equal;", [10869]); ("equals;", [61]);
  ("EqualTilde;", [8770]); ("equest;", [8799]); ("Equilibrium;", [8652]);
  ("equiv;", [8801]); ("equivDD;", [10872]); ("eqvparsl;", [10725]);
  ("erarr;", [10609]); ("erDot;", [8787]); ("Escr;", [8496]);
  ("escr;", [8495]); ("esdot;", [8784]); ("Esim;", [10867]);
  ("esim;", [8770]); ("Eta;", [919]); ("eta;", [951]); ("ETH", [208]);
  ("eth", [240]); ("ETH;", [208]); ("eth;", [240]); ("Euml", [203]);
  ("euml", [235]); ("Euml;", [203]); ("euml;", [235]); ("euro;", [8364]);
  ("excl;", [33]); ("exist;", [8707]); ("Exists;", [8707]);
  ("expectation;", [8496]); ("ExponentialE;", [8519]);
  ("exponentiale;", [8519]); ("fallingdotseq;", [8786]); ("Fcy;", [1060]);
  ("fcy;", [1092]); ("female;", [9792]); ("ffilig;", [64259]);
  ("fflig;", [64256]); ("ffllig;", [64260]); ("Ffr;", [120073]);
  ("ffr;", [120099]); ("filig;", [64257]); ("FilledSmallSquare;", [9724]);
  ("FilledVerySmallSquare;", [9642]); ("fjlig;", [102; 106]);
  ("flat;", [9837]); ("fllig;", [64258]); ("fltns;", [9649]);
  ("fnof;", [402]); ("Fopf;", [120125]); ("fopf;", [120151]);
  ("ForAll;", [8704]); ("forall;", [8704]); ("fork;", [8916]);
  ("forkv;", [10969]); ("Fouriertrf;", [8497]); ("fpartint;", [10765]);
  ("frac12", [189]); ("frac12;", [189]); ("frac13;", [8531]);
  ("frac14", [188]); ("frac14;", [188]); ("frac15;", [8533]);
  ("frac16;", [8537]); ("frac18;", [8539]); ("frac23;", [8532]);
  ("frac25;", [8534]); ("frac34", [190]); ("frac34;", [190]);
  ("frac35;", [8535]); ("frac38;", [8540]); ("frac45;", [8536]);
  ("frac56;", [8538]); ("frac58;", [8541]); ("frac78;", [8542]);
  ("frasl;", [8260]); ("frown;", [8994]); ("Fscr;", [8497]);
  ("fscr;", [119995]); ("gacute;", [501]); ("Gamma;", [915]);
  ("gamma;", [947]); ("Gammad;", [988]); ("gammad;", [989]);
  ("gap;", [10886]); ("Gbreve;", [286]); ("gbreve;", [287]);
  ("Gcedil;", [290]); ("Gcirc;", [284]); ("gcirc;", [285]); ("Gcy;", [1043]);
  ("gcy;", [1075]); ("Gdot;", [288]); ("gdot;", [289]); ("gE;", [8807]);
  ("ge;", [8805]); ("gEl;", [10892]); ("gel;", [8923]); ("geq;", [8805]);
  ("geqq;", [8807]); ("geqslant;", [10878]); ("ges;", [10878]);
  ("gescc;", [10921]); ("gesdot;", [10880]); ("gesdoto;", [10882]);
  ("gesdotol;", [10884]); ("gesl;", [8923; 65024]); ("gesles;", [10900]);
  ("Gfr;", [120074]); ("gfr;", [120100]); ("Gg;", [8921]); ("gg;", [8811]);
  ("ggg;", [8921]); ("gimel;", [8503]); ("GJcy;", [1027]); ("gjcy;", [1107]);
  ("gl;", [8823]); ("gla;", [10917]); ("glE;", [10898]); ("glj;", [10916]);
  ("gnap;", [10890]); ("gnapprox;", [10890]); ("gnE;", [8809]);
  ("gne;", [10888]); ("gneq;", [10888]); ("gneqq;", [8809]);
  ("gnsim;", [8935]); ("Gopf;", [120126]); ("gopf;", [120152]);
  ("grave;", [96]); ("GreaterEqual;", [8805]); ("GreaterEqualLess;", [8923]);
  ("GreaterFullEqual;", [8807]); ("GreaterGreater;", [10914]);
  ("GreaterLess;", [8823]); ("GreaterSlantEqual;", [10878]);
  ("GreaterTilde;", [8819]); ("Gscr;", [119970]); ("gscr;", [8458]);
  ("gsim;", [8819]); ("gsime;", [10894]); ("gsiml;", [10896]); ("GT", [62]);
  ("gt", [62]); ("GT;", [62]); ("Gt;", [8811]); ("gt;", [62]);
  ("gtcc;", [10919]); ("gtcir;", [10874]); ("gtdot;", [8919]);
  ("gtlPar;", [10645]); ("gtquest;", [10876]); ("gtrapprox;", [10886]);
  ("gtrarr;", [10616]); ("gtrdot;", [8919]); ("gtreqless;", [8923]);
  ("gtreqqless;", [10892]); ("gtrless;", [8823]); ("gtrsim;", [8819]);
  ("gvertneqq;", [8809; 65024]); ("gvnE;", [8809; 65024]); ("Hacek;", [711]);
  ("hairsp;", [8202]); ("half;", [189]); ("hamilt;", [8459]);
  ("HARDcy;", [1066]); ("hardcy;", [1098]); ("hArr;", [8660]);
  ("harr;", [8596]); ("harrcir;", [10568]); ("harrw;", [8621]);
  ("Hat;", [94]); ("hbar;", [8463]); ("Hcirc;", [292]); ("hcirc;", [293]);
  ("hearts;", [9829]); ("heartsuit;", [9829]); ("hellip;", [8230]);
  ("hercon;", [8889]); ("Hfr;", [8460]); ("hfr;", [120101]);
  ("HilbertSpace;", [8459]); ("hksearow;", [10533]); ("hkswarow;", [10534]);
  ("hoarr;", [8703]); ("homtht;", [8763]); ("hookleftarrow;", [8617]);
  ("hookrightarrow;", [8618]); ("Hopf;", [8461]); ("hopf;", [120153]);
  ("horbar;", [8213]); ("HorizontalLine;", [9472]); ("Hscr;", [8459]);
  ("hscr;", [119997]); ("hslash;", [8463]); ("Hstrok;", [294]);
  ("hstrok;", [295]); ("HumpDownHump;", [8782]); ("HumpEqual;", [8783]);
  ("hybull;", [8259]); ("hyphen;", [8208]); ("Iacute", [205]);
  ("iacute", [237]); ("Iacute;", [205]); ("iacute;", [237]); ("ic;", [8291]);
  ("Icirc", [206]); ("icirc", [238]); ("Icirc;", [206]); ("icirc;", [238]);
  ("Icy;", [1048]); ("icy;", [1080]); ("Idot;", [304]); ("IEcy;", [1045]);
  ("iecy;", [1077]); ("iexcl", [161]); ("iexcl;", [161]); ("iff;", [8660]);
  ("Ifr;", [8465]); ("ifr;", [120102]); ("Igrave", [204]); ("igrave", [236]);
  ("Igrave;", [204]); ("igrave;", [236]); ("ii;", [8520]);
  ("iiiint;", [10764]); ("iiint;", [8749]); ("iinfin;", [10716]);
  ("iiota;", [8489]); ("IJlig;", [306]); ("ijlig;", [307]); ("Im;", [8465]);
  ("Imacr;", [298]); ("imacr;", [299]); ("image;", [8465]);
  ("ImaginaryI;", [8520]); ("imagline;", [8464]); ("imagpart;", [8465]);
  ("imath;", [305]); ("imof;", [8887]); ("imped;", [437]);
  ("Implies;", [8658]); ("in;", [8712]); ("incare;", [8453]);
  ("infin;", [8734]); ("infintie;", [10717]); ("inodot;", [305]);
  ("Int;", [8748]); ("int;", [8747]); ("intcal;", [8890]);
  ("integers;", [8484]); ("Integral;", [8747]); ("intercal;", [8890]);
  ("Intersection;", [8898]); ("intlarhk;", [10775]); ("intprod;", [10812]);
  ("InvisibleComma;", [8291]); ("InvisibleTimes;", [8290]); ("IOcy;", [1025]);
  ("iocy;", [1105]); ("Iogon;", [302]); ("iogon;", [303]);
  ("Iopf;", [120128]); ("iopf;", [120154]); ("Iota;", [921]);
  ("iota;", [953]); ("iprod;", [10812]); ("iquest", [191]);
  ("iquest;", [191]); ("Iscr;", [8464]); ("iscr;", [119998]);
  ("isin;", [8712]); ("isindot;", [8949]); ("isinE;", [8953]);
  ("isins;", [8948]); ("isinsv;", [8947]); ("isinv;", [8712]);
  ("it;", [8290]); ("Itilde;", [296]); ("itilde;", [297]); ("Iukcy;", [1030]);
  ("iukcy;", [1110]); ("Iuml", [207]); ("iuml", [239]); ("Iuml;", [207]);
  ("iuml;", [239]); ("Jcirc;", [308]); ("jcirc;", [309]); ("Jcy;", [1049]);
  ("jcy;", [1081]); ("Jfr;", [120077]); ("jfr;", [120103]); ("jmath;", [567]);
  ("Jopf;", [120129]); ("jopf;", [120155]); ("Jscr;", [119973]);
  ("jscr;", [119999]); ("Jsercy;", [1032]); ("jsercy;", [1112]);
  ("Jukcy;", [1028]); ("jukcy;", [1108]); ("Kappa;", [922]);
  ("kappa;", [954]); ("kappav;", [1008]); ("Kcedil;", [310]);
  ("kcedil;", [311]); ("Kcy;", [1050]); ("kcy;", [1082]); ("Kfr;", [120078]);
  ("kfr;", [120104]); ("kgreen;", [312]); ("KHcy;", [1061]);
  ("khcy;", [1093]); ("KJcy;", [1036]); ("kjcy;", [1116]);
  ("Kopf;", [120130]); ("kopf;", [120156]); ("Kscr;", [119974]);
  ("kscr;", [120000]); ("lAarr;", [8666]); ("Lacute;", [313]);
  ("lacute;", [314]); ("laemptyv;", [10676]); ("lagran;", [8466]);
  ("Lambda;", [923]); ("lambda;", [955]); ("Lang;", [10218]);
  ("lang;", [10216]); ("langd;", [10641]); ("langle;", [10216]);
  ("lap;", [10885]); ("Laplacetrf;", [8466]); ("laquo", [171]);
  ("laquo;", [171]); ("Larr;", [8606]); ("lArr;", [8656]); ("larr;", [8592]);
  ("larrb;", [8676]); ("larrbfs;", [10527]); ("larrfs;", [10525]);
  ("larrhk;", [8617]); ("larrlp;", [8619]); ("larrpl;", [10553]);
  ("larrsim;", [10611]); ("larrtl;", [8610]); ("lat;", [10923]);
  ("lAtail;", [10523]); ("latail;", [10521]); ("late;", [10925]);
  ("lates;", [10925; 65024]); ("lBarr;", [10510]); ("lbarr;", [10508]);
  ("lbbrk;", [10098]); ("lbrace;", [123]); ("lbrack;", [91]);
  ("lbrke;", [10635]); ("lbrksld;", [10639]); ("lbrkslu;", [10637]);
  ("Lcaron;", [317]); ("lcaron;", [318]); ("Lcedil;", [315]);
  ("lcedil;", [316]); ("lceil;", [8968]); ("lcub;", [123]); ("Lcy;", [1051]);
  ("lcy;", [1083]); ("ldca;", [10550]); ("ldquo;", [8220]);
  ("ldquor;", [8222]); ("ldrdhar;", [10599]); ("ldrushar;", [10571]);
  ("ldsh;", [8626]); ("lE;", [8806]); ("le;", [8804]);
  ("LeftAngleBracket;", [10216]); ("LeftArrow;", [8592]);
  ("Leftarrow;", [8656]); ("leftarrow;", [8592]); ("LeftArrowBar;", [8676]);
  ("LeftArrowRightArrow;", [8646]); ("leftarrowtail;", [8610]);
  ("LeftCeiling;", [8968]); ("LeftDoubleBracket;", [10214]);
  ("LeftDownTeeVector;", [10593]); ("LeftDownVector;", [8643]);
  ("LeftDownVectorBar;", [10585]); ("LeftFloor;", [8970]);
  ("leftharpoondown;", [8637]); ("leftharpoonup;", [8636]);
  ("leftleftarrows;", [8647]); ("LeftRightArrow;", [8596]);
  ("Leftrightarrow;", [8660]); ("leftrightarrow;", [8596]);
  ("leftrightarrows;", [8646]); ("leftrightharpoons;", [8651]);
  ("leftrightsquigarrow;", [8621]); ("LeftRightVector;", [10574]);
  ("LeftTee;", [8867]); ("LeftTeeArrow;", [8612]);
  ("LeftTeeVector;", [10586]); ("leftthreetimes;", [8907]);
  ("LeftTriangle;", [8882]); ("LeftTriangleBar;", [10703]);
  ("LeftTriangleEqual;", [8884]); ("LeftUpDownVector;", [10577]);
  ("LeftUpTeeVector;", [10592]); ("LeftUpVector;", [8639]);
  ("LeftUpVectorBar;", [10584]); ("LeftVector;", [8636]);
  ("LeftVectorBar;", [10578]); ("lEg;", [10891]); ("leg;", [8922]);
  ("leq;", [8804]); ("leqq;", [8806]); ("leqslant;", [10877]);
  ("les;", [10877]); ("lescc;", [10920]); ("lesdot;", [10879]);
  ("lesdoto;", [10881]); ("lesdotor;", [10883]); ("lesg;", [8922; 65024]);
  ("lesges;", [10899]); ("lessapprox;", [10885]); ("lessdot;", [8918]);
  ("lesseqgtr;", [8922]); ("lesseqqgtr;", [10891]);
  ("LessEqualGreater;", [8922]); ("LessFullEqual;", [8806]);
  ("LessGreater;", [8822]); ("lessgtr;", [8822]); ("LessLess;", [10913]);
  ("lesssim;", [8818]); ("LessSlantEqual;", [10877]); ("LessTilde;", [8818]);
  ("lfisht;", [10620]); ("lfloor;", [8970]); ("Lfr;", [120079]);
  ("lfr;", [120105]); ("lg;", [8822]); ("lgE;", [10897]); ("lHar;", [10594]);
  ("lhard;", [8637]); ("lharu;", [8636]); ("lharul;", [10602]);
  ("lhblk;", [9604]); ("LJcy;", [1033]); ("ljcy;", [1113]); ("Ll;", [8920]);
  ("ll;", [8810]); ("llarr;", [8647]); ("llcorner;", [8990]);
  ("Lleftarrow;", [8666]); ("llhard;", [10603]); ("lltri;", [9722]);
  ("Lmidot;", [319]); ("lmidot;", [320]); ("lmoust;", [9136]);
  ("lmoustache;", [9136]); ("lnap;", [10889]); ("lnapprox;", [10889]);
  ("lnE;", [8808]); ("lne;", [10887]); ("lneq;", [10887]); ("lneqq;", [8808]);
  ("lnsim;", [8934]); ("loang;", [10220]); ("loarr;", [8701]);
  ("lobrk;", [10214]); ("LongLeftArrow;", [10229]);
  ("Longleftarrow;", [10232]); ("longleftarrow;", [10229]);
  ("LongLeftRightArrow;", [10231]); ("Longleftrightarrow;", [10234]);
  ("longleftrightarrow;", [10231]); ("longmapsto;", [10236]);
  ("LongRightArrow;", [10230]); ("Longrightarrow;", [10233]);
  ("longrightarrow;", [10230]); ("looparrowleft;", [8619]);
  ("looparrowright;", [8620]); ("lopar;", [10629]); ("Lopf;", [120131]);
  ("lopf;", [120157]); ("loplus;", [10797]); ("lotimes;", [10804]);
  ("lowast;", [8727]); ("lowbar;", [95]); ("LowerLeftArrow;", [8601]);
  ("LowerRightArrow;", [8600]); ("loz;", [9674]); ("lozenge;", [9674]);
  ("lozf;", [10731]); ("lpar;", [40]); ("lparlt;", [10643]);
  ("lrarr;", [8646]); ("lrcorner;", [8991]); ("lrhar;", [8651]);
  ("lrhard;", [10605]); ("lrm;", [8206]); ("lrtri;", [8895]);
  ("lsaquo;", [8249]); ("Lscr;", [8466]); ("lscr;", [120001]);
  ("Lsh;", [8624]); ("lsh;", [8624]); ("lsim;", [8818]); ("lsime;", [10893]);
  ("lsimg;", [10895]); ("lsqb;", [91]); ("lsquo;", [8216]);
  ("lsquor;", [8218]); ("Lstrok;", [321]); ("lstrok;", [322]); ("LT", [60]);
  ("lt", [60]); ("LT;", [60]); ("Lt;", [8810]); ("lt;", [60]);
  ("ltcc;", [10918]); ("ltcir;", [10873]); ("ltdot;", [8918]);
  ("lthree;", [8907]); ("ltimes;", [8905]); ("ltlarr;", [10614]);
  ("ltquest;", [10875]); ("ltri;", [9667]); ("ltrie;", [8884]);
  ("ltrif;", [9666]); ("ltrPar;", [10646]); ("lurdshar;", [10570]);
  ("luruhar;", [10598]); ("lvertneqq;", [8808; 65024]);
  ("lvnE;", [8808; 65024]); ("macr", [175]); ("macr;", [175]);
  ("male;", [9794]); ("malt;", [10016]); ("maltese;", [10016]);
  ("Map;", [10501]); ("map;", [8614]); ("mapsto;", [8614]);
  ("mapstodown;", [8615]); ("mapstoleft;", [8612]); ("mapstoup;", [8613]);
  ("marker;", [9646]); ("mcomma;", [10793]); ("Mcy;", [1052]);
  ("mcy;", [1084]); ("mdash;", [8212]); ("mDDot;", [8762]);
  ("measuredangle;", [8737]); ("MediumSpace;", [8287]);
  ("Mellintrf;", [8499]); ("Mfr;", [120080]); ("mfr;", [120106]);
  ("mho;", [8487]); ("micro", [181]); ("micro;", [181]); ("mid;", [8739]);
  ("midast;", [42]); ("midcir;", [10992]); ("middot", [183]);
  ("middot;", [183]); ("minus;", [8722]); ("minusb;", [8863]);
  ("minusd;", [8760]); ("minusdu;", [10794]); ("MinusPlus;", [8723]);
  ("mlcp;", [10971]); ("mldr;", [8230]); ("mnplus;", [8723]);
  ("models;", [8871]); ("Mopf;", [120132]); ("mopf;", [120158]);
  ("mp;", [8723]); ("Mscr;", [8499]); ("mscr;", [120002]);
  ("mstpos;", [8766]); ("Mu;", [924]); ("mu;", [956]); ("multimap;", [8888]);
  ("mumap;", [8888]); ("nabla;", [8711]); ("Nacute;", [323]);
  ("nacute;", [324]); ("nang;", [8736; 8402]); ("nap;", [8777]);
  ("napE;", [10864; 824]); ("napid;", [8779; 824]); ("napos;", [329]);
  ("napprox;", [8777]); ("natur;", [9838]); ("natural;", [9838]);
  ("naturals;", [8469]); ("nbsp", [160]); ("nbsp;", [160]);
  ("nbump;", [8782; 824]); ("nbumpe;", [8783; 824]); ("ncap;", [10819]);
  ("Ncaron;", [327]); ("ncaron;", [328]); ("Ncedil;", [325]);
  ("ncedil;", [326]); ("ncong;", [8775]); ("ncongdot;", [10861; 824]);
  ("ncup;", [10818]); ("Ncy;", [1053]); ("ncy;", [1085]); ("ndash;", [8211]);
  ("ne;", [8800]); ("nearhk;", [10532]); ("neArr;", [8663]);
  ("nearr;", [8599]); ("nearrow;", [8599]); ("nedot;", [8784; 824]);
  ("NegativeMediumSpace;", [8203]); ("NegativeThickSpace;", [8203]);
  ("NegativeThinSpace;", [8203]); ("NegativeVeryThinSpace;", [8203]);
  ("nequiv;", [8802]); ("nesear;", [10536]); ("nesim;", [8770; 824]);
  ("NestedGreaterGreater;", [8811]); ("NestedLessLess;", [8810]);
  ("NewLine;", [10]); ("nexist;", [8708]); ("nexists;", [8708]);
  ("Nfr;", [120081]); ("nfr;", [120107]); ("ngE;", [8807; 824]);
  ("nge;", [8817]); ("ngeq;", [8817]); ("ngeqq;", [8807; 824]);
  ("ngeqslant;", [10878; 824]); ("nges;", [10878; 824]);
  ("nGg;", [8921; 824]); ("ngsim;", [8821]); ("nGt;", [8811; 8402]);
  ("ngt;", [8815]); ("ngtr;", [8815]); ("nGtv;", [8811; 824]);
  ("nhArr;", [8654]); ("nharr;", [8622]); ("nhpar;", [10994]);
  ("ni;", [8715]); ("nis;", [8956]); ("nisd;", [8954]); ("niv;", [8715]);
  ("NJcy;", [1034]); ("njcy;", [1114]); ("nlArr;", [8653]);
  ("nlarr;", [8602]); ("nldr;", [8229]); ("nlE;", [8806; 824]);
  ("nle;", [8816]); ("nLeftarrow;", [8653]); ("nleftarrow;", [8602]);
  ("nLeftrightarrow;", [8654]); ("nleftrightarrow;", [8622]);
  ("nleq;", [8816]); ("nleqq;", [8806; 824]); ("nleqslant;", [10877; 824]);
  ("nles;", [10877; 824]); ("nless;", [8814]); ("nLl;", [8920; 824]);
  ("nlsim;", [8820]); ("nLt;", [8810; 8402]); ("nlt;", [8814]);
  ("nltri;", [8938]); ("nltrie;", [8940]); ("nLtv;", [8810; 824]);
  ("nmid;", [8740]); ("NoBreak;", [8288]); ("NonBreakingSpace;", [160]);
  ("Nopf;", [8469]); ("nopf;", [120159]); ("not", [172]); ("Not;", [10988]);
  ("not;", [172]); ("NotCongruent;", [8802]); ("NotCupCap;", [8813]);
  ("NotDoubleVerticalBar;", [8742]); ("NotElement;", [8713]);
  ("NotEqual;", [8800]); ("NotEqualTilde;", [8770; 824]);
  ("NotExists;", [8708]); ("NotGreater;", [8815]);
  ("NotGreaterEqual;", [8817]); ("NotGreaterFullEqual;", [8807; 824]);
  ("NotGreaterGreater;", [8811; 824]); ("NotGreaterLess;", [8825]);
  ("NotGreaterSlantEqual;", [10878; 824]); ("NotGreaterTilde;", [8821]);
  ("NotHumpDownHump;", [8782; 824]); ("NotHumpEqual;", [8783; 824]);
  ("notin;", [8713]); ("notindot;", [8949; 824]); ("notinE;", [8953; 824]);
  ("notinva;", [8713]); ("notinvb;", [8951]); ("notinvc;", [8950]);
  ("NotLeftTriangle;", [8938]); ("NotLeftTriangleBar;", [10703; 824]);
  ("NotLeftTriangleEqual;", [8940]); ("NotLess;", [8814]);
  ("NotLessEqual;", [8816]); ("NotLessGreater;", [8824]);
  ("NotLessLess;", [8810; 824]); ("NotLessSlantEqual;", [10877; 824]);
  ("NotLessTilde;", [8820]); ("NotNestedGreaterGreater;", [10914; 824]);
  ("NotNestedLessLess;", [10913; 824]); ("notni;", [8716]);
  ("notniva;", [8716]); ("notnivb;", [8958]); ("notnivc;", [8957]);
  ("NotPrecedes;", [8832]); ("NotPrecedesEqual;", [10927; 824]);
  ("NotPrecedesSlantEqual;", [8928]); ("NotReverseElement;", [8716]);
  ("NotRightTriangle;", [8939]); ("NotRightTriangleBar;", [10704; 824]);
  ("NotRightTriangleEqual;", [8941]); ("NotSquareSubset;", [8847; 824]);
  ("NotSquareSubsetEqual;", [8930]); ("NotSquareSuperset;", [8848; 824]);
  ("NotSquareSupersetEqual;", [8931]); ("NotSubset;", [8834; 8402]);
  ("NotSubsetEqual;", [8840]); ("NotSucceeds;", [8833]);
  ("NotSucceedsEqual;", [10928; 824]); ("NotSucceedsSlantEqual;", [8929]);
  ("NotSucceedsTilde;", [8831; 824]); ("NotSuperset;", [8835; 8402]);
  ("NotSupersetEqual;", [8841]); ("NotTilde;", [8769]);
  ("NotTildeEqual;", [8772]); ("NotTildeFullEqual;", [8775]);
  ("NotTildeTilde;", [8777]); ("NotVerticalBar;", [8740]); ("npar;", [8742]);
  ("nparallel;", [8742]); ("nparsl;", [11005; 8421]); ("npart;", [8706; 824]);
  ("npolint;", [10772]); ("npr;", [8832]); ("nprcue;", [8928]);
  ("npre;", [10927; 824]); ("nprec;", [8832]); ("npreceq;", [10927; 824]);
  ("nrArr;", [8655]); ("nrarr;", [8603]); ("nrarrc;", [10547; 824]);
  ("nrarrw;", [8605; 824]); ("nRightarrow;", [8655]);
  ("nrightarrow;", [8603]); ("nrtri;", [8939]); ("nrtrie;", [8941]);
  ("nsc;", [8833]); ("nsccue;", [8929]); ("nsce;", [10928; 824]);
  ("Nscr;", [119977]); ("nscr;", [120003]); ("nshortmid;", [8740]);
  ("nshortparallel;", [8742]); ("nsim;", [8769]); ("nsime;", [8772]);
  ("nsimeq;", [8772]); ("nsmid;", [8740]); ("nspar;", [8742]);
  ("nsqsube;", [8930]); ("nsqsupe;", [8931]); ("nsub;", [8836]);
  ("nsubE;", [10949; 824]); ("nsube;", [8840]); ("nsubset;", [8834; 8402]);
  ("nsubseteq;", [8840]); ("nsubseteqq;", [10949; 824]); ("nsucc;", [8833]);
  ("nsucceq;", [10928; 824]); ("nsup;", [8837]); ("nsupE;", [10950; 824]);
  ("nsupe;", [8841]); ("nsupset;", [8835; 8402]); ("nsupseteq;", [8841]);
  ("nsupseteqq;", [10950; 824]); ("ntgl;", [8825]); ("Ntilde", [209]);
  ("ntilde", [241]); ("Ntilde;", [209]); ("ntilde;", [241]);
  ("ntlg;", [8824]); ("ntriangleleft;", [8938]); ("ntrianglelefteq;", [8940]);
  ("ntriangleright;", [8939]); ("ntrianglerighteq;", [8941]); ("Nu;", [925]);
  ("nu;", [957]); ("num;", [35]); ("numero;", [8470]); ("numsp;", [8199]);
  ("nvap;", [8781; 8402]); ("nVDash;", [8879]); ("nVdash;", [8878]);
  ("nvDash;", [8877]); ("nvdash;", [8876]); ("nvge;", [8805; 8402]);
  ("nvgt;", [62; 8402]); ("nvHarr;", [10500]); ("nvinfin;", [10718]);
  ("nvlArr;", [10498]); ("nvle;", [8804; 8402]); ("nvlt;", [60; 8402]);
  ("nvltrie;", [8884; 8402]); ("nvrArr;", [10499]);
  ("nvrtrie;", [8885; 8402]); ("nvsim;", [8764; 8402]); ("nwarhk;", [10531]);
  ("nwArr;", [8662]); ("nwarr;", [8598]); ("nwarrow;", [8598]);
  ("nwnear;", [10535]); ("Oacute", [211]); ("oacute", [243]);
  ("Oacute;", [211]); ("oacute;", [243]); ("oast;", [8859]);
  ("ocir;", [8858]); ("Ocirc", [212]); ("ocirc", [244]); ("Ocirc;", [212]);
  ("ocirc;", [244]); ("Ocy;", [1054]); ("ocy;", [1086]); ("odash;", [8861]);
  ("Odblac;", [336]); ("odblac;", [337]); ("odiv;", [10808]);
  ("odot;", [8857]); ("odsold;", [10684]); ("OElig;", [338]);
  ("oelig;", [339]); ("ofcir;", [10687]); ("Ofr;", [120082]);
  ("ofr;", [120108]); ("ogon;", [731]); ("Ograve", [210]); ("ograve", [242]);
  ("Ograve;", [210]); ("ograve;", [242]); ("ogt;", [10689]);
  ("ohbar;", [10677]); ("ohm;", [937]); ("oint;", [8750]); ("olarr;", [8634]);
  ("olcir;", [10686]); ("olcross;", [10683]); ("oline;", [8254]);
  ("olt;", [10688]); ("Omacr;", [332]); ("omacr;", [333]); ("Omega;", [937]);
  ("omega;", [969]); ("Omicron;", [927]); ("omicron;", [959]);
  ("omid;", [10678]); ("ominus;", [8854]); ("Oopf;", [120134]);
  ("oopf;", [120160]); ("opar;", [10679]); ("OpenCurlyDoubleQuote;", [8220]);
  ("OpenCurlyQuote;", [8216]); ("operp;", [10681]); ("oplus;", [8853]);
  ("Or;", [10836]); ("or;", [8744]); ("orarr;", [8635]); ("ord;", [10845]);
  ("order;", [8500]); ("orderof;", [8500]); ("ordf", [170]); ("ordf;", [170]);
  ("ordm", [186]); ("ordm;", [186]); ("origof;", [8886]); ("oror;", [10838]);
  ("orslope;", [10839]); ("orv;", [10843]); ("oS;", [9416]);
  ("Oscr;", [119978]); ("oscr;", [8500]); ("Oslash", [216]);
  ("oslash", [248]); ("Oslash;", [216]); ("oslash;", [248]);
  ("osol;", [8856]); ("Otilde", [213]); ("otilde", [245]); ("Otilde;", [213]);
  ("otilde;", [245]); ("Otimes;", [10807]); ("otimes;", [8855]);
  ("otimesas;", [10806]); ("Ouml", [214]); ("ouml", [246]); ("Ouml;", [214]);
  ("ouml;", [246]); ("ovbar;", [9021]); ("OverBar;", [8254]);
  ("OverBrace;", [9182]); ("OverBracket;", [9140]);
  ("OverParenthesis;", [9180]); ("par;", [8741]); ("para", [182]);
  ("para;", [182]); ("parallel;", [8741]); ("parsim;", [10995]);
  ("parsl;", [11005]); ("part;", [8706]); ("PartialD;", [8706]);
  ("Pcy;", [1055]); ("pcy;", [1087]); ("percnt;", [37]); ("period;", [46]);
  ("permil;", [8240]); ("perp;", [8869]); ("pertenk;", [8241]);
  ("Pfr;", [120083]); ("pfr;", [120109]); ("Phi;", [934]); ("phi;", [966]);
  ("phiv;", [981]); ("phmmat;", [8499]); ("phone;", [9742]); ("Pi;", [928]);
  ("pi;", [960]); ("pitchfork;", [8916]); ("piv;", [982]);
  ("planck;", [8463]); ("planckh;", [8462]); ("plankv;", [8463]);
  ("plus;", [43]); ("plusacir;", [10787]); ("plusb;", [8862]);
  ("pluscir;", [10786]); ("plusdo;", [8724]); ("plusdu;", [10789]);
  ("pluse;", [10866]); ("PlusMinus;", [177]); ("plusmn", [177]);
  ("plusmn;", [177]); ("plussim;", [10790]); ("plustwo;", [10791]);
  ("pm;", [177]); ("Poincareplane;", [8460]); ("pointint;", [10773]);
  ("Popf;", [8473]); ("popf;", [120161]); ("pound", [163]); ("pound;", [163]);
  ("Pr;", [10939]); ("pr;", [8826]); ("prap;", [10935]); ("prcue;", [8828]);
  ("prE;", [10931]); ("pre;", [10927]); ("prec;", [8826]);
  ("precapprox;", [10935]); ("preccurlyeq;", [8828]); ("Precedes;", [8826]);
  ("PrecedesEqual;", [10927]); ("PrecedesSlantEqual;", [8828]);
  ("PrecedesTilde;", [8830]); ("preceq;", [10927]); ("precnapprox;", [10937]);
  ("precneqq;", [10933]); ("precnsim;", [8936]); ("precsim;", [8830]);
  ("Prime;", [8243]); ("prime;", [8242]); ("primes;", [8473]);
  ("prnap;", [10937]); ("prnE;", [10933]); ("prnsim;", [8936]);
  ("prod;", [8719]); ("Product;", [8719]); ("profalar;", [9006]);
  ("profline;", [8978]); ("profsurf;", [8979]); ("prop;", [8733]);
  ("Proportion;", [8759]); ("Proportional;", [8733]); ("propto;", [8733]);
  ("prsim;", [8830]); ("prurel;", [8880]); ("Pscr;", [119979]);
  ("pscr;", [120005]); ("Psi;", [936]); ("psi;", [968]); ("puncsp;", [8200]);
  ("Qfr;", [120084]); ("qfr;", [120110]); ("qint;", [10764]);
  ("Qopf;", [8474]); ("qopf;", [120162]); ("qprime;", [8279]);
  ("Qscr;", [119980]); ("qscr;", [120006]); ("quaternions;", [8461]);
  ("quatint;", [10774]); ("quest;", [63]); ("questeq;", [8799]);
  ("QUOT", [34]); ("quot", [34]); ("QUOT;", [34]); ("quot;", [34]);
  ("rAarr;", [8667]); ("race;", [8765; 817]); ("Racute;", [340]);
  ("racute;", [341]); ("radic;", [8730]); ("raemptyv;", [10675]);
  ("Rang;", [10219]); ("rang;", [10217]); ("rangd;", [10642]);
  ("range;", [10661]); ("rangle;", [10217]); ("raquo", [187]);
  ("raquo;", [187]); ("Rarr;", [8608]); ("rArr;", [8658]); ("rarr;", [8594]);
  ("rarrap;", [10613]); ("rarrb;", [8677]); ("rarrbfs;", [10528]);
  ("rarrc;", [10547]); ("rarrfs;", [10526]); ("rarrhk;", [8618]);
  ("rarrlp;", [8620]); ("rarrpl;", [10565]); ("rarrsim;", [10612]);
  ("Rarrtl;", [10518]); ("rarrtl;", [8611]); ("rarrw;", [8605]);
  ("rAtail;", [10524]); ("ratail;", [10522]); ("ratio;", [8758]);
  ("rationals;", [8474]); ("RBarr;", [10512]); ("rBarr;", [10511]);
  ("rbarr;", [10509]); ("rbbrk;", [10099]); ("rbrace;", [125]);
  ("rbrack;", [93]); ("rbrke;", [10636]); ("rbrksld;", [10638]);
  ("rbrkslu;", [10640]); ("Rcaron;", [344]); ("rcaron;", [345]);
  ("Rcedil;", [342]); ("rcedil;", [343]); ("rceil;", [8969]);
  ("rcub;", [125]); ("Rcy;", [1056]); ("rcy;", [1088]); ("rdca;", [10551]);
  ("rdldhar;", [10601]); ("rdquo;", [8221]); ("rdquor;", [8221]);
  ("rdsh;", [8627]); ("Re;", [8476]); ("real;", [8476]); ("realine;", [8475]);
  ("realpart;", [8476]); ("reals;", [8477]); ("rect;", [9645]);
  ("REG", [174]); ("reg", [174]); ("REG;", [174]); ("reg;", [174]);
  ("ReverseElement;", [8715]); ("ReverseEquilibrium;", [8651]);
  ("ReverseUpEquilibrium;", [10607]); ("rfisht;", [10621]);
  ("rfloor;", [8971]); ("Rfr;", [8476]); ("rfr;", [120111]);
  ("rHar;", [10596]); ("rhard;", [8641]); ("rharu;", [8640]);
  ("rharul;", [10604]); ("Rho;", [929]); ("rho;", [961]); ("rhov;", [1009]);
  ("RightAngleBracket;", [10217]); ("RightArrow;", [8594]);
  ("Rightarrow;", [8658]); ("rightarrow;", [8594]);
  ("RightArrowBar;", [8677]); ("RightArrowLeftArrow;", [8644]);
  ("rightarrowtail;", [8611]); ("RightCeiling;", [8969]);
  ("RightDoubleBracket;", [10215]); ("RightDownTeeVector;", [10589]);
  ("RightDownVector;", [8642]); ("RightDownVectorBar;", [10581]);
  ("RightFloor;", [8971]); ("rightharpoondown;", [8641]);
  ("rightharpoonup;", [8640]); ("rightleftarrows;", [8644]);
  ("rightleftharpoons;", [8652]); ("rightrightarrows;", [8649]);
  ("rightsquigarrow;", [8605]); ("RightTee;", [8866]);
  ("RightTeeArrow;", [8614]); ("RightTeeVector;", [10587]);
  ("rightthreetimes;", [8908]); ("RightTriangle;", [8883]);
  ("RightTriangleBar;", [10704]); ("RightTriangleEqual;", [8885]);
  ("RightUpDownVector;", [10575]); ("RightUpTeeVector;", [10588]);
  ("RightUpVector;", [8638]); ("RightUpVectorBar;", [10580]);
  ("RightVector;", [8640]); ("RightVectorBar;", [10579]); ("ring;", [730]);
  ("risingdotseq;", [8787]); ("rlarr;", [8644]); ("rlhar;", [8652]);
  ("rlm;", [8207]); ("rmoust;", [9137]); ("rmoustache;", [9137]);
  ("rnmid;", [10990]); ("roang;", [10221]); ("roarr;", [8702]);
  ("robrk;", [10215]); ("ropar;", [10630]); ("Ropf;", [8477]);
  ("ropf;", [120163]); ("roplus;", [10798]); ("rotimes;", [10805]);
  ("RoundImplies;", [10608]); ("rpar;", [41]); ("rpargt;", [10644]);
  ("rppolint;", [10770]); ("rrarr;", [8649]); ("Rrightarrow;", [8667]);
  ("rsaquo;", [8250]); ("Rscr;", [8475]); ("rscr;", [120007]);
  ("Rsh;", [8625]); ("rsh;", [8625]); ("rsqb;", [93]); ("rsquo;", [8217]);
  ("rsquor;", [8217]); ("rthree;", [8908]); ("rtimes;", [8906]);
  ("rtri;", [9657]); ("rtrie;", [8885]); ("rtrif;", [9656]);
  ("rtriltri;", [10702]); ("RuleDelayed;", [10740]); ("ruluhar;", [10600]);
  ("rx;", [8478]); ("Sacute;", [346]); ("sacute;", [347]); ("sbquo;", [8218]);
  ("Sc;", [10940]); ("sc;", [8827]); ("scap;", [10936]); ("Scaron;", [352]);
  ("scaron;", [353]); ("sccue;", [8829]); ("scE;", [10932]);
  ("sce;", [10928]); ("Scedil;", [350]); ("scedil;", [351]);
  ("Scirc;", [348]); ("scirc;", [349]); ("scnap;", [10938]);
  ("scnE;", [10934]); ("scnsim;", [8937]); ("scpolint;", [10771]);
  ("scsim;", [8831]); ("Scy;", [1057]); ("scy;", [1089]); ("sdot;", [8901]);
  ("sdotb;", [8865]); ("sdote;", [10854]); ("searhk;", [10533]);
  ("seArr;", [8664]); ("searr;", [8600]); ("searrow;", [8600]);
  ("sect", [167]); ("sect;", [167]); ("semi;", [59]); ("seswar;", [10537]);
  ("setminus;", [8726]); ("setmn;", [8726]); ("sext;", [10038]);
  ("Sfr;", [120086]); ("sfr;", [120112]); ("sfrown;", [8994]);
  ("sharp;", [9839]); ("SHCHcy;", [1065]); ("shchcy;", [1097]);
  ("SHcy;", [1064]); ("shcy;", [1096]); ("ShortDownArrow;", [8595]);
  ("ShortLeftArrow;", [8592]); ("shortmid;", [8739]);
  ("shortparallel;", [8741]); ("ShortRightArrow;", [8594]);
  ("ShortUpArrow;", [8593]); ("shy", [173]); ("shy;", [173]);
  ("Sigma;", [931]); ("sigma;", [963]); ("sigmaf;", [962]);
  ("sigmav;", [962]); ("sim;", [8764]); ("simdot;", [10858]);
  ("sime;", [8771]); ("simeq;", [8771]); ("simg;", [10910]);
  ("simgE;", [10912]); ("siml;", [10909]); ("simlE;", [10911]);
  ("simne;", [8774]); ("simplus;", [10788]); ("simrarr;", [10610]);
  ("slarr;", [8592]); ("SmallCircle;", [8728]); ("smallsetminus;", [8726]);
  ("smashp;", [10803]); ("smeparsl;", [10724]); ("smid;", [8739]);
  ("smile;", [8995]); ("smt;", [10922]); ("smte;", [10924]);
  ("smtes;", [10924; 65024]); ("SOFTcy;", [1068]); ("softcy;", [1100]);
  ("sol;", [47]); ("solb;", [10692]); ("solbar;", [9023]);
  ("Sopf;", [120138]); ("sopf;", [120164]); ("spades;", [9824]);
  ("spadesuit;", [9824]); ("spar;", [8741]); ("sqcap;", [8851]);
  ("sqcaps;", [8851; 65024]); ("sqcup;", [8852]); ("sqcups;", [8852; 65024]);
  ("Sqrt;", [8730]); ("sqsub;", [8847]); ("sqsube;", [8849]);
  ("sqsubset;", [8847]); ("sqsubseteq;", [8849]); ("sqsup;", [8848]);
  ("sqsupe;", [8850]); ("sqsupset;", [8848]); ("sqsupseteq;", [8850]);
  ("squ;", [9633]); ("Square;", [9633]); ("square;", [9633]);
  ("SquareIntersection;", [8851]); ("SquareSubset;", [8847]);
  ("SquareSubsetEqual;", [8849]); ("SquareSuperset;", [8848]);
  ("SquareSupersetEqual;", [8850]); ("SquareUnion;", [8852]);
  ("squarf;", [9642]); ("squf;", [9642]); ("srarr;", [8594]);
  ("Sscr;", [119982]); ("sscr;", [120008]); ("ssetmn;", [8726]);
  ("ssmile;", [8995]); ("sstarf;", [8902]); ("Star;", [8902]);
  ("star;", [9734]); ("starf;", [9733]); ("straightepsilon;", [1013]);
  ("straightphi;", [981]); ("strns;", [175]); ("Sub;", [8912]);
  ("sub;", [8834]); ("subdot;", [10941]); ("subE;", [10949]);
  ("sube;", [8838]); ("subedot;", [10947]); ("submult;", [10945]);
  ("subnE;", [10955]); ("subne;", [8842]); ("subplus;", [10943]);
  ("subrarr;", [10617]); ("Subset;", [8912]); ("subset;", [8834]);
  ("subseteq;", [8838]); ("subseteqq;", [10949]); ("SubsetEqual;", [8838]);
  ("subsetneq;", [8842]); ("subsetneqq;", [10955]); ("subsim;", [10951]);
  ("subsub;", [10965]); ("subsup;", [10963]); ("succ;", [8827]);
  ("succapprox;", [10936]); ("succcurlyeq;", [8829]); ("Succeeds;", [8827]);
  ("SucceedsEqual;", [10928]); ("SucceedsSlantEqual;", [8829]);
  ("SucceedsTilde;", [8831]); ("succeq;", [10928]); ("succnapprox;", [10938]);
  ("succneqq;", [10934]); ("succnsim;", [8937]); ("succsim;", [8831]);
  ("SuchThat;", [8715]); ("Sum;", [8721]); ("sum;", [8721]);
  ("sung;", [9834]); ("sup1", [185]); ("sup1;", [185]); ("sup2", [178]);
  ("sup2;", [178]); ("sup3", [179]); ("sup3;", [179]); ("Sup;", [8913]);
  ("sup;", [8835]); ("supdot;", [10942]); ("supdsub;", [10968]);
  ("supE;", [10950]); ("supe;", [8839]); ("supedot;", [10948]);
  ("Superset;", [8835]); ("SupersetEqual;", [8839]); ("suphsol;", [10185]);
  ("suphsub;", [10967]); ("suplarr;", [10619]); ("supmult;", [10946]);
  ("supnE;", [10956]); ("supne;", [8843]); ("supplus;", [10944]);
  ("Supset;", [8913]); ("supset;", [8835]); ("supseteq;", [8839]);
  ("supseteqq;", [10950]); ("supsetneq;", [8843]); ("supsetneqq;", [10956]);
  ("supsim;", [10952]); ("supsub;", [10964]); ("supsup;", [10966]);
  ("swarhk;", [10534]); ("swArr;", [8665]); ("swarr;", [8601]);
  ("swarrow;", [8601]); ("swnwar;", [10538]); ("szlig", [223]);
  ("szlig;", [223]); ("Tab;", [9]); ("target;", [8982]); ("Tau;", [932]);
  ("tau;", [964]); ("tbrk;", [9140]); ("Tcaron;", [356]); ("tcaron;", [357]);
  ("Tcedil;", [354]); ("tcedil;", [355]); ("Tcy;", [1058]); ("tcy;", [1090]);
  ("tdot;", [8411]); ("telrec;", [8981]); ("Tfr;", [120087]);
  ("tfr;", [120113]); ("there4;", [8756]); ("Therefore;", [8756]);
  ("therefore;", [8756]); ("Theta;", [920]); ("theta;", [952]);
  ("thetasym;", [977]); ("thetav;", [977]); ("thickapprox;", [8776]);
  ("thicksim;", [8764]); ("ThickSpace;", [8287; 8202]); ("thinsp;", [8201]);
  ("ThinSpace;", [8201]); ("thkap;", [8776]); ("thksim;", [8764]);
  ("THORN", [222]); ("thorn", [254]); ("THORN;", [222]); ("thorn;", [254]);
  ("Tilde;", [8764]); ("tilde;", [732]); ("TildeEqual;", [8771]);
  ("TildeFullEqual;", [8773]); ("TildeTilde;", [8776]); ("times", [215]);
  ("times;", [215]); ("timesb;", [8864]); ("timesbar;", [10801]);
  ("timesd;", [10800]); ("tint;", [8749]); ("toea;", [10536]);
  ("top;", [8868]); ("topbot;", [9014]); ("topcir;", [10993]);
  ("Topf;", [120139]); ("topf;", [120165]); ("topfork;", [10970]);
  ("tosa;", [10537]); ("tprime;", [8244]); ("TRADE;", [8482]);
  ("trade;", [8482]); ("triangle;", [9653]); ("triangledown;", [9663]);
  ("triangleleft;", [9667]); ("trianglelefteq;", [8884]);
  ("triangleq;", [8796]); ("triangleright;", [9657]);
  ("trianglerighteq;", [8885]); ("tridot;", [9708]); ("trie;", [8796]);
  ("triminus;", [10810]); ("TripleDot;", [8411]); ("triplus;", [10809]);
  ("trisb;", [10701]); ("tritime;", [10811]); ("trpezium;", [9186]);
  ("Tscr;", [119983]); ("tscr;", [120009]); ("TScy;", [1062]);
  ("tscy;", [1094]); ("TSHcy;", [1035]); ("tshcy;", [1115]);
  ("Tstrok;", [358]); ("tstrok;", [359]); ("twixt;", [8812]);
  ("twoheadleftarrow;", [8606]); ("twoheadrightarrow;", [8608]);
  ("Uacute", [218]); ("uacute", [250]); ("Uacute;", [218]);
  ("uacute;", [250]); ("Uarr;", [8607]); ("uArr;", [8657]); ("uarr;", [8593]);
  ("Uarrocir;", [10569]); ("Ubrcy;", [1038]); ("ubrcy;", [1118]);
  ("Ubreve;", [364]); ("ubreve;", [365]); ("Ucirc", [219]); ("ucirc", [251]);
  ("Ucirc;", [219]); ("ucirc;", [251]); ("Ucy;", [1059]); ("ucy;", [1091]);
  ("udarr;", [8645]); ("Udblac;", [368]); ("udblac;", [369]);
  ("udhar;", [10606]); ("ufisht;", [10622]); ("Ufr;", [120088]);
  ("ufr;", [120114]); ("Ugrave", [217]); ("ugrave", [249]);
  ("Ugrave;", [217]); ("ugrave;", [249]); ("uHar;", [10595]);
  ("uharl;", [8639]); ("uharr;", [8638]); ("uhblk;", [9600]);
  ("ulcorn;", [8988]); ("ulcorner;", [8988]); ("ulcrop;", [8975]);
  ("ultri;", [9720]); ("Umacr;", [362]); ("umacr;", [363]); ("uml", [168]);
  ("uml;", [168]); ("UnderBar;", [95]); ("UnderBrace;", [9183]);
  ("UnderBracket;", [9141]); ("UnderParenthesis;", [9181]);
  ("Union;", [8899]); ("UnionPlus;", [8846]); ("Uogon;", [370]);
  ("uogon;", [371]); ("Uopf;", [120140]); ("uopf;", [120166]);
  ("UpArrow;", [8593]); ("Uparrow;", [8657]); ("uparrow;", [8593]);
  ("UpArrowBar;", [10514]); ("UpArrowDownArrow;", [8645]);
  ("UpDownArrow;", [8597]); ("Updownarrow;", [8661]);
  ("updownarrow;", [8597]); ("UpEquilibrium;", [10606]);
  ("upharpoonleft;", [8639]); ("upharpoonright;", [8638]); ("uplus;", [8846]);
  ("UpperLeftArrow;", [8598]); ("UpperRightArrow;", [8599]); ("Upsi;", [978]);
  ("upsi;", [965]); ("upsih;", [978]); ("Upsilon;", [933]);
  ("upsilon;", [965]); ("UpTee;", [8869]); ("UpTeeArrow;", [8613]);
  ("upuparrows;", [8648]); ("urcorn;", [8989]); ("urcorner;", [8989]);
  ("urcrop;", [8974]); ("Uring;", [366]); ("uring;", [367]);
  ("urtri;", [9721]); ("Uscr;", [119984]); ("uscr;", [120010]);
  ("utdot;", [8944]); ("Utilde;", [360]); ("utilde;", [361]);
  ("utri;", [9653]); ("utrif;", [9652]); ("uuarr;", [8648]); ("Uuml", [220]);
  ("uuml", [252]); ("Uuml;", [220]); ("uuml;", [252]); ("uwangle;", [10663]);
  ("vangrt;", [10652]); ("varepsilon;", [1013]); ("varkappa;", [1008]);
  ("varnothing;", [8709]); ("varphi;", [981]); ("varpi;", [982]);
  ("varpropto;", [8733]); ("vArr;", [8661]); ("varr;", [8597]);
  ("varrho;", [1009]); ("varsigma;", [962]); ("varsubsetneq;", [8842; 65024]);
  ("varsubsetneqq;", [10955; 65024]); ("varsupsetneq;", [8843; 65024]);
  ("varsupsetneqq;", [10956; 65024]); ("vartheta;", [977]);
  ("vartriangleleft;", [8882]); ("vartriangleright;", [8883]);
  ("Vbar;", [10987]); ("vBar;", [10984]); ("vBarv;", [10985]);
  ("Vcy;", [1042]); ("vcy;", [1074]); ("VDash;", [8875]); ("Vdash;", [8873]);
  ("vDash;", [8872]); ("vdash;", [8866]); ("Vdashl;", [10982]);
  ("Vee;", [8897]); ("vee;", [8744]); ("veebar;", [8891]); ("veeeq;", [8794]);
  ("vellip;", [8942]); ("Verbar;", [8214]); ("verbar;", [124]);
  ("Vert;", [8214]); ("vert;", [124]); ("VerticalBar;", [8739]);
  ("VerticalLine;", [124]); ("VerticalSeparator;", [10072]);
  ("VerticalTilde;", [8768]); ("VeryThinSpace;", [8202]); ("Vfr;", [120089]);
  ("vfr;", [120115]); ("vltri;", [8882]); ("vnsub;", [8834; 8402]);
  ("vnsup;", [8835; 8402]); ("Vopf;", [120141]); ("vopf;", [120167]);
  ("vprop;", [8733]); ("vrtri;", [8883]); ("Vscr;", [119985]);
  ("vscr;", [120011]); ("vsubnE;", [10955; 65024]);
  ("vsubne;", [8842; 65024]); ("vsupnE;", [10956; 65024]);
  ("vsupne;", [8843; 65024]); ("Vvdash;", [8874]); ("vzigzag;", [10650]);
  ("Wcirc;", [372]); ("wcirc;", [373]); ("wedbar;", [10847]);
  ("Wedge;", [8896]); ("wedge;", [8743]); ("wedgeq;", [8793]);
  ("weierp;", [8472]); ("Wfr;", [120090]); ("wfr;", [120116]);
  ("Wopf;", [120142]); ("wopf;", [120168]); ("wp;", [8472]); ("wr;", [8768]);
  ("wreath;", [8768]); ("Wscr;", [119986]); ("wscr;", [120012]);
  ("xcap;", [8898]); ("xcirc;", [9711]); ("xcup;", [8899]);
  ("xdtri;", [9661]); ("Xfr;", [120091]); ("xfr;", [120117]);
  ("xhArr;", [10234]); ("xharr;", [10231]); ("Xi;", [926]); ("xi;", [958]);
  ("xlArr;", [10232]); ("xlarr;", [10229]); ("xmap;", [10236]);
  ("xnis;", [8955]); ("xodot;", [10752]); ("Xopf;", [120143]);
  ("xopf;", [120169]); ("xoplus;", [10753]); ("xotime;", [10754]);
  ("xrArr;", [10233]); ("xrarr;", [10230]); ("Xscr;", [119987]);
  ("xscr;", [120013]); ("xsqcup;", [10758]); ("xuplus;", [10756]);
  ("xutri;", [9651]); ("xvee;", [8897]); ("xwedge;", [8896]);
  ("Yacute", [221]); ("yacute", [253]); ("Yacute;", [221]);
  ("yacute;", [253]); ("YAcy;", [1071]); ("yacy;", [1103]); ("Ycirc;", [374]);
  ("ycirc;", [375]); ("Ycy;", [1067]); ("ycy;", [1099]); ("yen", [165]);
  ("yen;", [165]); ("Yfr;", [120092]); ("yfr;", [120118]); ("YIcy;", [1031]);
  ("yicy;", [1111]); ("Yopf;", [120144]); ("yopf;", [120170]);
  ("Yscr;", [119988]); ("yscr;", [120014]); ("YUcy;", [1070]);
  ("yucy;", [1102]); ("yuml", [255]); ("Yuml;", [376]); ("yuml;", [255]);
  ("Zacute;", [377]); ("zacute;", [378]); ("Zcaron;", [381]);
  ("zcaron;", [382]); ("Zcy;", [1047]); ("zcy;", [1079]); ("Zdot;", [379]);
  ("zdot;", [380]); ("zeetrf;", [8488]); ("ZeroWidthSpace;", [8203]);
  ("Zeta;", [918]); ("zeta;", [950]); ("Zfr;", [8488]); ("zfr;", [120119]);
  ("ZHcy;", [1046]); ("zhcy;", [1078]); ("zigrarr;", [8669]);
  ("Zopf;", [8484]); ("zopf;", [120171]); ("Zscr;", [119989]);
  ("zscr;", [120015]); ("zwj;", [8205]); ("zwnj;", [8204])
].

Definition str_eqb (a b : str) : bool :=
  if list_eq_dec N.eq_dec a b then true else false.

(** [_html5.get(s)]. *)
Definition html5_get (s : str) : option str :=
  option_map snd (find (fun e => str_eqb (lit (fst e)) s) html5).

Definition invalid_charrefs_get (num : N) : option char :=
  option_map snd (find (fun e => fst e =? num) invalid_charrefs).

(** The character classes of [_charref]: [[0-9]], [[0-9a-fA-F]] and
    [[^\t\n\f <&#;]]. *)
Definition isdigit (c : char) : bool := (48 <=? c) && (c <=? 57).

Definition ishex (c : char) : bool :=
  isdigit c || (97 <=? c) && (c <=? 102) || (65 <=? c) && (c <=? 70).

Definition isname (c : char) : bool :=
  negb (contains c [9; 10; 12; 32; 60; 38; 35; 59]).

(** [;?] at the start of [rest]: the number of characters it takes. *)
Definition opt_semicolon (rest : str) : nat :=
  match rest with
  | c :: _ => if c =? 59 then 1%nat else 0%nat
  | [] => 0%nat
  end.

(** The three alternatives of the group of [_charref], each at the start
    of [r] (the text after [&]): the length of what it matches. *)
Definition alt_decimal (r : str) : option nat :=
  match r with
  | c :: r1 =>
      if c =? 35 then
        match span isdigit r1 with
        | ([], _) => None
        | (ds, rest) => Some (1 + length ds + opt_semicolon rest)%nat
        end
      else None
  | [] => None
  end.

Definition alt_hex (r : str) : option nat :=
  match r with
  | c :: x :: r2 =>
      if (c =? 35) && ((x =? 120) || (x =? 88)) then
        match span ishex r2 with
        | ([], _) => None
        | (hs, rest) => Some (2 + length hs + opt_semicolon rest)%nat
        end
      else None
  | _ => None
  end.

Definition alt_name (r : str) : option nat :=
  match fst (span isname (firstn 32 r)) with
  | [] => None
  | name => Some (length name + opt_semicolon (skipn (length name) r))%nat
  end.

(** The pattern [_charref] at the start of [s]: the alternatives are tried
    in order, and the first that matches decides. *)
Definition match_charref (s : str) : option nat :=
  match s with
  | c :: r =>
      if c =? 38 then
        match alt_decimal r with
        | Some n => Some (S n)
        | None =>
            match alt_hex r with
            | Some n => Some (S n)
            | None =>
                match alt_name r with
                | Some n => Some (S n)
                | None => None
                end
            end
        end
      else None
  | [] => None
  end.

(** [int(s, base)] on a string of digits of that base, when it returns;
    see [int_raises] below for the decimal strings it refuses. *)
Definition digit_value (c : char) : N :=
  if isdigit c then c - 48 else if 97 <=? c then c - 87 else c - 55.

Definition int_of (base : N) (ds : str) : N :=
  fold_left (fun acc c => acc * base + digit_value c) ds 0.

(** The loop of [_replace_charref] over [x = fuel + 1, ..., 2]: the longest
    proper prefix of [s], of two characters at least, that is a name. *)
Fixpoint longest_name (fuel : nat) (s : str) : option str :=
  match fuel with
  | O => None
  | S n =>
      let x := S fuel in
      match html5_get (firstn x s) with
      | Some v => Some (v ++ skipn x s)
      | None => longest_name n s
      end
  end.

(** [_replace_charref], on the text of group 1. *)
Definition replace_charref (s : str) : str :=
  match s with
  | c :: t =>
      if c =? 35 then
        (* numeric charref *)
        let num :=
          match t with
          | x :: t' =>
              if (x =? 120) || (x =? 88)
              then int_of 16 (rstrip_chars [59] t')
              else int_of 10 (rstrip_chars [59] t)
          | [] => 0
          end in
        match invalid_charrefs_get num with
        | Some r => [r]
        | None =>
            if (0xD800 <=? num) && (num <=? 0xDFFF) || (0x10FFFF <? num)
            then [0xFFFD]
            else if existsb (N.eqb num) invalid_codepoints then []
            else [num]
        end
      else
        (* named charref *)
        match html5_get s with
        | Some v => v
        | None =>
            match longest_name (length s - 2) s with
            | Some v => v
            | None => 38 :: s
            end
        end
  | [] => []
  end.

(** [html.unescape(s)], when it returns. *)
Definition unescape (s : str) : str :=
  if negb (contains 38 s) then s
  else Re.sub match_charref (fun m => replace_charref (tl m)) s.

(** [sys.get_int_max_str_digits()]: [int(s)] raises [ValueError] for a
    decimal string of more digits, leading zeros counted; a string in base
    16 has no limit. *)
Definition int_max_str_digits : nat := 4300.

Definition int_raises (ds : str) : bool := (int_max_str_digits <? length ds)%nat.

(** [_replace_charref] raises on the text of group 1: only [int] can, on a
    decimal reference. *)
Definition replace_charref_raises (s : str) : bool :=
  match s with
  | c :: t =>
      if c =? 35 then
        match t with
        | x :: _ =>
            if (x =? 120) || (x =? 88) then false
            else int_raises (rstrip_chars [59] t)
        | [] => false
        end
      else false
  | [] => false
  end.

(** [html.unescape(s)] raises: the replacement of some reference does. *)
Definition unescape_raises (s : str) : bool :=
  contains 38 s
  && existsb (fun m => replace_charref_raises (tl m)) (Re.matches match_charref s).

End Html.

(** ** Python [datetime] *)

Module Datetime.

Local Open Scope Z_scope.

(** The first six fields of a [time.struct_time], from which [build.py]
    makes a naive [datetime]. *)
Record datetime := {
  year : Z;
  month : Z;
  day : Z;
  hour : Z;
  minute : Z;
  second : Z
}.

Definition is_leap (y : Z) : bool :=
  (y mod 4 =? 0) && (negb (y mod 100 =? 0) || (y mod 400 =? 0)).

Definition days_before_year (y : Z) : Z :=
  let y := y - 1 in y * 365 + y / 4 - y / 100 + y / 400.

Definition days_before_month (y m : Z) : Z :=
  nth (Z.to_nat m) [0; 0; 31; 59; 90; 120; 151; 181; 212; 243; 273; 304; 334] 0
  + (if (2 <? m) && is_leap y then 1 else 0).

Definition toordinal (dt : datetime) : Z :=
  days_before_year (year dt) + days_before_month (year dt) (month dt) + day dt.

(** Seconds from 1970-01-01 00:00:00 to [dt], both read on the same clock. *)
Definition seconds_since_epoch (dt : datetime) : Z :=
  (toordinal dt - 719163) * 86400
  + hour dt * 3600 + minute dt * 60 + second dt.

(** [_days_in_month(year, month)], with the table [_DAYS_IN_MONTH]. *)
Definition days_in_month (y m : Z) : Z :=
  if (m =? 2) && is_leap y then 29
  else nth (Z.to_nat m) [-1; 31; 28; 31; 30; 31; 30; 31; 31; 30; 31; 30; 31] 0.

(** [datetime(year, month, day, hour, minute, second)] takes each argument
    as a C [int] and raises [OverflowError] for one that is none. *)
Definition c_int (n : Z) : bool := (-2147483648 <=? n) && (n <=? 2147483647).

Definition constructor_overflows (dt : datetime) : bool :=
  negb (forallb c_int
          [year dt; month dt; day dt; hour dt; minute dt; second dt]).

(** It raises [ValueError] unless every field is in its range. *)
Definition constructor_raises (dt : datetime) : bool :=
  negb ((1 <=? year dt) && (year dt <=? 9999)
        && (1 <=? month dt) && (month dt <=? 12)
        && (1 <=? day dt) && (day dt <=? days_in_month (year dt) (month dt))
        && (0 <=? hour dt) && (hour dt <=? 23)
        && (0 <=? minute dt) && (minute dt <=? 59)
        && (0 <=? second dt) && (second dt <=? 59)).

(** [dt.timestamp()] of a naive [dt], which is read as local time: [utcoffset]
    is the host's offset from UTC, in seconds, at that local time. The
    result, when there is one, is a float with a whole number of seconds,
    exact as an integer. *)
Definition timestamp (utcoffset : Z -> Z) (dt : datetime) : Z :=
  let u := seconds_since_epoch dt in u - utcoffset u.

(** The first and the last second of the years 1 to 9999. *)
Definition min_seconds : Z :=
  seconds_since_epoch {| year := 1; month := 1; day := 1;
                         hour := 0; minute := 0; second := 0 |}.

Definition max_seconds : Z :=
  seconds_since_epoch {| year := 9999; month := 12; day := 31;
                         hour := 23; minute := 59; second := 59 |}.

(** [dt.timestamp()] raises [ValueError] (year out of range) when a local
    time that it looks up on its way lies outside the years 1 to 9999: the
    time that the local clock shows at the instant of UTC written like
    [dt], and the local time one day before [dt], where it looks for an
    earlier reading of a repeated hour. The offset is taken to be the same
    at these times. *)
Definition timestamp_raises (utcoffset : Z -> Z) (dt : datetime) : bool :=
  let t := seconds_since_epoch dt in
  let shown := t + utcoffset t in
  (shown <? min_seconds) || (max_seconds <? shown)
  || (t - 86400 <? min_seconds).

(** Decimal digits of [n], zero-padded to [width]. *)
Definition zero_padded (width : nat) (n : Z) : str :=
  let ds := lit (DecimalString.NilZero.string_of_uint (N.to_uint (Z.to_N n))) in
  repeat 48%N (width - length ds) ++ ds.

(** Decimal digits of [n]. *)
Definition decimal (n : Z) : str :=
  lit (DecimalString.NilZero.string_of_uint (N.to_uint (Z.to_N n))).

(** [dt.strftime("%Y-%m-%d")], as the C library of the host (glibc) writes
    it: the year without padding, month and day with two digits. *)
Definition strftime_Ymd (dt : datetime) : str :=
  decimal (year dt) ++ lit "-" ++ zero_padded 2 (month dt)
  ++ lit "-" ++ zero_padded 2 (day dt).

End Datetime.

(** ** The process and its surroundings *)

(** What a run leaves behind: the lines printed on the two streams, in
    order, and the files of the working directory. *)
Record world := {
  stdout : list str;
  stderr : list str;
  files : String.string -> option str
}.

(** A computation that may print and write. *)
Definition IO (A : Type) : Type := world -> A * world.

Definition ret {A} (a : A) : IO A := fun w => (a, w).

Definition bind {A B} (c : IO A) (k : A -> IO B) : IO B :=
  fun w => let (a, w') := c w in k a w'.

Notation "x <- c ;; k" := (bind c (fun x => k))
  (at level 61, c at next level, right associativity).
Notation "c ;;; k" := (bind c (fun _ => k))
  (at level 61, right associativity).

(** [print(line)] and [print(line, file=sys.stderr)]. *)
Definition print (line : str) : IO unit := fun w =>
  (tt, {| stdout := stdout w ++ [line]; stderr := stderr w; files := files w |}).

Definition print_stderr (line : str) : IO unit := fun w =>
  (tt, {| stdout := stdout w; stderr := stderr w ++ [line]; files := files w |}).

(** [with open(path, "w", encoding="utf-8") as f: f.write(content)]. *)
Definition write_file (path : String.string) (content : str) : IO unit := fun w =>
  (tt, {| stdout := stdout w; stderr := stderr w;
          files := fun p => if String.eqb p path then Some content else files w p |}).

(** The exceptions that [build.py] raises and does not catch. *)
Inductive exception :=
| ValueError
| OverflowError.

(** A call returns a value or raises. *)
Inductive result (A : Type) :=
| Returned (a : A)
| Raises (exc : exception).
Arguments Returned {A} a.
Arguments Raises {A} exc.

(** A [for] loop over [l] that carries the accumulator [acc]; an exception
    raised in the body ends it. *)
Fixpoint for_each {A B} (l : list A) (acc : B) (body : B -> A -> IO (result B))
  : IO (result B) :=
  match l with
  | [] => ret (Returned acc)
  | x :: r =>
      res <- body acc x ;;
      match res with
      | Returned acc' => for_each r acc' body
      | Raises exc => ret (Raises exc)
      end
  end.

(** [str(n)] for a length. *)
Definition str_of_nat (n : nat) : str :=
  lit (DecimalString.NilZero.string_of_uint (Nat.to_uint n)).

(** ** [build.py] *)

(** An entry of [FEEDS]. *)
Record feed_config := {
  name : str;
  slug : str;
  url : str;
  icon : str;
  color : str;
  max_items : nat
}.

Definition FEEDS : list feed_config := [
  {| name := lit "Import AI";
     slug := lit "import-ai";
     url := lit "https://importai.substack.com/feed";
     icon := [0x1f916%N];
     color := lit "#6366f1";
     max_items := 5 |};
  {| name := lit "Simon Willison";
     slug := lit "simon-willison";
     url := lit "https://simonwillison.net/atom/everything/";
     icon := [0x1f4bb%N];
     color := lit "#059669";
     max_items := 10 |};
  {| name := lit "Lenny's Newsletter";
     slug := lit "lennys-newsletter";
     url := lit "https://www.lennysnewsletter.com/feed";
     icon := [0x1f4ca%N];
     color := lit "#d97706";
     max_items := 5 |};
  {| name := lit "NN/g";
     slug := lit "nng";
     url := lit "https://www.nngroup.com/feed/rss/";
     icon := [0x1f52c%N];
     color := lit "#dc2626";
     max_items := 5 |};
  {| name := lit "Maggie Appleton";
     slug := lit "maggie-appleton";
     url := lit "https://maggieappleton.com/rss.xml";
     icon := [0x1f33f%N];
     color := lit "#16a34a";
     max_items := 5 |}
].

(** [strip_html(text)]: remove HTML tags and decode entities. *)
Definition strip_html (text : str) : str :=
  let text := Re.sub Re.match_tag (fun _ => []) text in
  let text := Html.unescape text in
  let text := strip (Re.sub Re.match_spaces (fun _ => lit " ") text) in
  text.

(** [strip_html(text)] raises: [html.unescape] does, on the text without
    its tags. *)
Definition strip_html_raises (text : str) : bool :=
  Html.unescape_raises (Re.sub Re.match_tag (fun _ => []) text).

(** [truncate(text, max_len=200)]. *)
Definition max_len_default : nat := 200.

Definition truncate (text : str) (max_len : nat) : str :=
  if length text <=? max_len then text
  else item0 (rsplit1 SPACE (slice_to max_len text)) ++ lit "...".

(** An entry of a parsed feed, as far as [fetch_feed] reads it. A key that
    is absent is [None] here, and so is a date that the parser could not
    read, which it stores as [None]; under the other three keys the parser
    stores text. *)
Record entry := {
  entry_title : option str;
  entry_link : option str;
  entry_summary : option str;
  published_parsed : option Datetime.datetime;
  updated_parsed : option Datetime.datetime
}.

(** [entry.get(key, default)]. *)
Definition get_default {A} (field : option A) (default : A) : A :=
  match field with
  | Some v => v
  | None => default
  end.

(** [a or b] on values that are [None] or truthy. *)
Definition or_else {A} (a b : option A) : option A :=
  match a with
  | Some _ => a
  | None => b
  end.

(** The outcome of the [try] block of [fetch_feed]: the request, the read
    or the parse raised an exception (printed as [e]), or the parse
    delivered the feed's entries. *)
Inductive fetched :=
| Raised (e : str)
| Parsed (entries : list entry).

(** What a run depends on and does not decide: the network and the parser,
    the host's time zone, the clock's reading
    [datetime.now().strftime("%Y-%m-%d %H:%M")], and the lines that the
    interpreter prints for an exception that nothing catches (they name
    files of the installation). [bozo] is the flag that [feedparser.parse]
    sets on its result when the response is not a well-formed feed; it
    raises nothing then, and [build.py] does not read the flag. *)
Record env := {
  fetch_and_parse : feed_config -> fetched;
  bozo : feed_config -> bool;
  utcoffset : Z -> Z;
  now : str;
  traceback : exception -> list str
}.

(** The article records, dictionaries with these nine keys. *)
Record article := {
  title : str;
  link : str;
  date : str;
  sort_key : Z;
  summary : str;
  source_name : str;
  source_slug : str;
  source_icon : str;
  source_color : str
}.

(** The body of the loop of [fetch_feed] raises, outside the [try] block:
    the call of [datetime] or [dt.timestamp()] on the date, or
    [strip_html] on the summary. *)
Definition date_exception (e : env) (dt : Datetime.datetime)
  : option exception :=
  if Datetime.constructor_overflows dt then Some OverflowError
  else if Datetime.constructor_raises dt
          || Datetime.timestamp_raises (utcoffset e) dt
  then Some ValueError
  else None.

Definition entry_exception (e : env) (entry : entry) : option exception :=
  let date_parsed := or_else (published_parsed entry) (updated_parsed entry) in
  let raised :=
    match date_parsed with
    | Some dt => date_exception e dt
    | None => None
    end in
  let summary_raw := get_default (entry_summary entry) [] in
  match raised with
  | Some exc => Some exc
  | None => if strip_html_raises summary_raw then Some ValueError else None
  end.

(** The body of the loop of [fetch_feed], when it raises nothing: the
    record that it appends for one entry. *)
Definition article_of_entry (e : env) (feed_config : feed_config) (entry : entry)
  : article :=
  let date_parsed := or_else (published_parsed entry) (updated_parsed entry) in
  let (date_str, sort_key) :=
    match date_parsed with
    | Some dt => (Datetime.strftime_Ymd dt, Datetime.timestamp (utcoffset e) dt)
    | None => ([], 0%Z)
    end in
  let summary_raw := get_default (entry_summary entry) [] in
  let summary := truncate (strip_html summary_raw) max_len_default in
  {| title := get_default (entry_title entry) (lit "Untitled");
     link := get_default (entry_link entry) (lit "#");
     date := date_str;
     sort_key := sort_key;
     summary := summary;
     source_name := name feed_config;
     source_slug := slug feed_config;
     source_icon := icon feed_config;
     source_color := color feed_config |}.

(** The loop of [fetch_feed] over the entries, with the list [articles]
    that it appends to. *)
Fixpoint append_articles (e : env) (feed_config : feed_config)
  (entries : list entry) (articles : list article) : result (list article) :=
  match entries with
  | [] => Returned articles
  | entry :: rest =>
      match entry_exception e entry with
      | Some exc => Raises exc
      | None =>
          append_articles e feed_config rest
            (articles ++ [article_of_entry e feed_config entry])
      end
  end.

(** [fetch_feed(feed_config)]: fetch and parse a single RSS/Atom feed. *)
Definition fetch_feed (e : env) (feed_config : feed_config)
  : IO (result (list article)) :=
  match fetch_and_parse e feed_config with
  | Raised exc =>
      print_stderr (lit "Warning: Failed to fetch " ++ name feed_config
                    ++ lit ": " ++ exc) ;;;
      ret (Returned [])
  | Parsed entries =>
      ret (append_articles e feed_config
             (firstn (max_items feed_config) entries) [])
  end.

(** In the templates below a backquote stands for the double quote of the
    source text. *)
Definition tpl (s : String.string) : str :=
  map (fun c => if (c =? 96)%N then 34%N else c) (lit s).

(** The button that [generate_html] adds for one feed. *)
Definition filter_button (feed : feed_config) : str :=
  tpl "        <button class=`filter-btn` data-source=`" ++ slug feed ++ tpl "`>"
  ++ icon feed ++ tpl " " ++ name feed ++ tpl "</button>
".

(** The card that [generate_html] adds for one article. *)
Definition card (a : article) : str :=
  let title_escaped := Html.escape (title a) in
  let summary_escaped := Html.escape (summary a) in
  let link_escaped := Html.escape (link a) in
  tpl "      <article class=`card` data-source=`"
  ++ source_slug a
  ++ tpl "` style=`border-left-color: "
  ++ source_color a
  ++ tpl "`>
        <div class=`card-meta`>
          <span class=`source-badge` style=`color: "
  ++ source_color a
  ++ tpl "`>"
  ++ source_icon a
  ++ tpl " "
  ++ Html.escape (source_name a)
  ++ tpl "</span>
          <time datetime=`"
  ++ date a
  ++ tpl "`>"
  ++ date a
  ++ tpl "</time>
        </div>
        <h2><a href=`"
  ++ link_escaped
  ++ tpl "` target=`_blank` rel=`noopener noreferrer`>"
  ++ title_escaped
  ++ tpl "</a></h2>
        <p class=`summary`>"
  ++ summary_escaped
  ++ tpl "</p>
      </article>
".

(** The document that [generate_html] returns: the text before the cards,
    with the update time and the buttons in it, the cards, and the text
    after them. *)
Definition page_head (updated_at filter_buttons : str) : str :=
  tpl "<!DOCTYPE html>
<html lang=`en`>
<head>
  <meta charset=`UTF-8`>
  <meta name=`viewport` content=`width=device-width, initial-scale=1.0`>
  <title>MyNews</title>
  <style>
    *, *::before, *::after { box-sizing: border-box; }

    body {
      margin: 0;
      padding: 0;
      font-family: -apple-system, BlinkMacSystemFont, `Segoe UI`, Roboto, `Helvetica Neue`, Arial, sans-serif;
      line-height: 1.6;
      color: #1a1a2e;
      background: #f8f9fa;
    }

    header {
      background: #fff;
      border-bottom: 1px solid #e2e8f0;
      padding: 24px 32px 16px;
    }

    header h1 {
      margin: 0 0 4px;
      font-size: 28px;
      font-weight: 700;
      letter-spacing: -0.5px;
    }

    .updated {
      margin: 0;
      font-size: 13px;
      color: #64748b;
    }

    .filters {
      display: flex;
      flex-wrap: wrap;
      gap: 8px;
      padding: 16px 32px;
      background: #fff;
      border-bottom: 1px solid #e2e8f0;
    }

    .filter-btn {
      padding: 6px 14px;
      border: 1px solid #e2e8f0;
      border-radius: 20px;
      background: #fff;
      cursor: pointer;
      font-size: 13px;
      color: #475569;
      transition: all 0.15s ease;
    }

    .filter-btn:hover {
      background: #f1f5f9;
    }

    .filter-btn.active {
      background: #1a1a2e;
      color: #fff;
      border-color: #1a1a2e;
    }

    main {
      max-width: 960px;
      margin: 24px auto;
      padding: 0 24px;
      display: grid;
      grid-template-columns: repeat(auto-fill, minmax(320px, 1fr));
      gap: 16px;
    }

    .card {
      background: #fff;
      border-radius: 8px;
      padding: 20px;
      border-left: 4px solid #e2e8f0;
      box-shadow: 0 1px 3px rgba(0,0,0,0.04);
      transition: box-shadow 0.15s ease;
    }

    .card:hover {
      box-shadow: 0 4px 12px rgba(0,0,0,0.08);
    }

    .card-meta {
      display: flex;
      justify-content: space-between;
      align-items: center;
      margin-bottom: 8px;
      font-size: 13px;
    }

    .source-badge {
      font-weight: 600;
    }

    time {
      color: #94a3b8;
    }

    .card h2 {
      margin: 0 0 8px;
      font-size: 17px;
      font-weight: 600;
      line-height: 1.4;
    }

    .card h2 a {
      color: #1a1a2e;
      text-decoration: none;
    }

    .card h2 a:hover {
      color: #4f46e5;
      text-decoration: underline;
    }

    .summary {
      margin: 0;
      font-size: 14px;
      color: #64748b;
      line-height: 1.5;
    }

    .empty {
      grid-column: 1 / -1;
      text-align: center;
      color: #94a3b8;
      font-size: 16px;
      padding: 48px 0;
    }

    @media (prefers-color-scheme: dark) {
      body {
        background: #0f172a;
        color: #e2e8f0;
      }

      header {
        background: #1e293b;
        border-bottom-color: #334155;
      }

      .updated {
        color: #94a3b8;
      }

      .filters {
        background: #1e293b;
        border-bottom-color: #334155;
      }

      .filter-btn {
        background: #1e293b;
        border-color: #334155;
        color: #cbd5e1;
      }

      .filter-btn:hover {
        background: #334155;
      }

      .filter-btn.active {
        background: #e2e8f0;
        color: #0f172a;
        border-color: #e2e8f0;
      }

      .card {
        background: #1e293b;
        box-shadow: 0 1px 3px rgba(0,0,0,0.2);
      }

      .card:hover {
        box-shadow: 0 4px 12px rgba(0,0,0,0.3);
      }

      .card h2 a {
        color: #e2e8f0;
      }

      .card h2 a:hover {
        color: #818cf8;
      }

      .summary {
        color: #94a3b8;
      }

      time {
        color: #64748b;
      }
    }

    @media (max-width: 480px) {
      header {
        padding: 16px;
      }

      .filters {
        padding: 12px 16px;
      }

      main {
        padding: 0 12px;
        margin: 16px auto;
        grid-template-columns: 1fr;
      }
    }
  </style>
</head>
<body>
  <header>
    <h1>MyNews</h1>
    <p class=`updated`>Last updated: "
  ++ updated_at
  ++ tpl "</p>
  </header>
  <nav class=`filters`>
    "
  ++ filter_buttons
  ++ tpl "
  </nav>
  <main>
".

Definition page_foot : str :=
  tpl "
  </main>
  <script>
    document.querySelectorAll('.filter-btn').forEach(function(btn) {
      btn.addEventListener('click', function() {
        var source = this.dataset.source;
        document.querySelectorAll('.card').forEach(function(card) {
          card.style.display = (source === 'all' || card.dataset.source === source) ? '' : 'none';
        });
        document.querySelectorAll('.filter-btn').forEach(function(b) {
          b.classList.toggle('active', b === btn);
        });
      });
    });
  </script>
</body>
</html>
".

Definition page (updated_at filter_buttons cards : str) : str :=
  page_head updated_at filter_buttons ++ cards ++ page_foot.

(** [generate_html(articles, updated_at)]: generate the full HTML page. *)
Definition generate_html (articles : list article) (updated_at : str) : str :=
  (* Build filter buttons *)
  let filter_buttons :=
    fold_left (fun filter_buttons feed => filter_buttons ++ filter_button feed)
      FEEDS
      (tpl "<button class=`filter-btn active` data-source=`all`>All</button>
") in
  (* Build article cards *)
  let cards := fold_left (fun cards a => cards ++ card a) articles [] in
  let cards :=
    match cards with
    | [] => tpl "      <p class=`empty`>No articles available. Try running the build again later.</p>
"
    | _ => cards
    end in
  page updated_at filter_buttons cards.

(** [all_articles.sort(key=lambda a: a["sort_key"], reverse=True)]. *)
Definition sort_articles (all_articles : list article) : list article :=
  sort_reverse sort_key all_articles.

(** The loop of [main] over [FEEDS]. *)
Definition fetch_all (e : env) (feeds : list feed_config)
  : IO (result (list article)) :=
  for_each feeds [] (fun all_articles feed_config =>
    print (lit "  Fetching " ++ name feed_config ++ lit "...") ;;;
    fetched <- fetch_feed e feed_config ;;
    match fetched with
    | Raises exc => ret (Raises exc)
    | Returned articles =>
        print (lit "    Got " ++ str_of_nat (length articles) ++ lit " articles") ;;;
        ret (Returned (all_articles ++ articles))
    end).

Definition output_path : String.string := "index.html".

(** The interpreter's end of a run in which nothing catches [exc]: it
    prints the traceback on the error stream and exits with status 1. *)
Definition uncaught (e : env) (exc : exception) : IO Z := fun w =>
  (1%Z, {| stdout := stdout w; stderr := stderr w ++ traceback e exc;
           files := files w |}).

(** [main()], with the exit status of the process: 1 from [sys.exit(1)]
    and from an exception that [fetch_feed] raises, 0 when [main]
    returns. *)
Definition main (e : env) : IO Z :=
  print (lit "Fetching feeds...") ;;;
  fetched <- fetch_all e FEEDS ;;
  match fetched with
  | Raises exc => uncaught e exc
  | Returned [] =>
      print_stderr (lit "Error: No articles fetched from any source.") ;;;
      ret 1%Z
  | Returned all_articles =>
      let all_articles := sort_articles all_articles in
      let updated_at := now e in
      let html_content := generate_html all_articles updated_at in
      write_file output_path html_content ;;;
      print (lit "Generated " ++ lit output_path ++ lit " with "
             ++ str_of_nat (length all_articles) ++ lit " articles.") ;;;
      ret 0%Z
  end.

(** ** Vocabulary of the properties *)

(** The articles [fetch_feed] returns for a feed when its loop raises
    nothing, and their concatenation in the order of the feeds. *)
Definition feed_articles (e : env) (feed_config : feed_config) : list article :=
  match fetch_and_parse e feed_config with
  | Raised _ => []
  | Parsed entries =>
      map (article_of_entry e feed_config) (firstn (max_items feed_config) entries)
  end.

Definition concatenated (e : env) (feeds : list feed_config) : list article :=
  flat_map (feed_articles e) feeds.

(** The first exception that the loop of [fetch_feed] raises for a feed,
    and that the loop of [main] meets for a list of feeds. *)
Fixpoint first_exception (e : env) (entries : list entry) : option exception :=
  match entries with
  | [] => None
  | entry :: rest =>
      match entry_exception e entry with
      | Some exc => Some exc
      | None => first_exception e rest
      end
  end.

Definition feed_exception (e : env) (feed_config : feed_config)
  : option exception :=
  match fetch_and_parse e feed_config with
  | Raised _ => None
  | Parsed entries => first_exception e (firstn (max_items feed_config) entries)
  end.

Fixpoint aborting (e : env) (feeds : list feed_config) : option exception :=
  match feeds with
  | [] => None
  | feed_config :: rest =>
      match feed_exception e feed_config with
      | Some exc => Some exc
      | None => aborting e rest
      end
  end.

(** The lines a run prints while it fetches [feeds]. *)
Definition fetch_stdout (e : env) (feed_config : feed_config) : list str :=
  [lit "  Fetching " ++ name feed_config ++ lit "...";
   lit "    Got " ++ str_of_nat (length (feed_articles e feed_config))
   ++ lit " articles"].

Definition warning (feed_config : feed_config) (exc : str) : str :=
  lit "Warning: Failed to fetch " ++ name feed_config ++ lit ": " ++ exc.

Definition fetch_stderr (e : env) (feed_config : feed_config) : list str :=
  match fetch_and_parse e feed_config with
  | Raised exc => [warning feed_config exc]
  | Parsed _ => []
  end.

(** The lines of the two streams up to the end of the loop of [main], or
    up to the feed at which [fetch_feed] raises. *)
Fixpoint run_stdout (e : env) (feeds : list feed_config) : list str :=
  match feeds with
  | [] => []
  | feed_config :: rest =>
      match feed_exception e feed_config with
      | Some _ => [lit "  Fetching " ++ name feed_config ++ lit "..."]
      | None => fetch_stdout e feed_config ++ run_stdout e rest
      end
  end.

Fixpoint run_stderr (e : env) (feeds : list feed_config) : list str :=
  match feeds with
  | [] => []
  | feed_config :: rest =>
      match feed_exception e feed_config with
      | Some _ => []
      | None => fetch_stderr e feed_config ++ run_stderr e rest
      end
  end.

(** An entry with neither a published nor an updated time. *)
Definition undated (entry : entry) : Prop :=
  published_parsed entry = None /\ updated_parsed entry = None.

(** [x] comes before [y] in [l]. *)
Definition precedes {A} (x y : A) (l : list A) : Prop :=
  exists l1 l2 l3, l = l1 ++ x :: l2 ++ y :: l3.

(** Most recent first. *)
Definition descending (l : list article) : Prop :=
  StronglySorted (fun a b => (sort_key b <= sort_key a)%Z) l.

(** Markup, as [strip_html] recognises it: a tag is a text that the
    pattern [<[^>]+>] matches as a whole. *)
Definition is_tag (t : str) : Prop :=
  exists inner, t = 60%N :: inner ++ [62%N] /\ inner <> [] /\ ~ In 62%N inner.

Definition substring (t s : str) : Prop :=
  exists before after, s = before ++ t ++ after.

(** A tag starts at the beginning of [s]; a tag starts somewhere in [s]. *)
Definition starts_tag (s : str) : bool :=
  match Re.match_tag s with
  | Some _ => true
  | None => false
  end.

Fixpoint has_tag (s : str) : bool :=
  match s with
  | [] => false
  | _ :: r => starts_tag s || has_tag r
  end.

(** The character references of a text, as [html.unescape] finds them: the
    matches of its pattern, from left to right. *)
Definition charrefs (s : str) : list str := Re.matches Html.match_charref s.

(** Some character reference of [s] is replaced with text that holds [<]
    or [>]. *)
Definition decodes_angle (s : str) : bool :=
  existsb (fun m => let decoded := Html.replace_charref (tl m) in
                    contains 60%N decoded || contains 62%N decoded)
          (charrefs s).

(** The second substitution of [strip_html]. *)
Definition collapse (s : str) : str :=
  Re.sub Re.match_spaces (fun _ => lit " ") s.

(** Whitespace occurs only as single spaces, each followed by a character
    that is not whitespace or by the end of the text. *)
Fixpoint collapsed (s : str) : bool :=
  match s with
  | [] => true
  | c :: r =>
      if isspace c then
        (c =? SPACE)%N
        && match r with
           | [] => true
           | c' :: _ => negb (isspace c')
           end
        && collapsed r
      else collapsed r
  end.

(** The substitution of [Html.unescape]. *)
Definition decode (s : str) : str :=
  Re.sub Html.match_charref (fun m => Html.replace_charref (tl m)) s.

(** What [Html.escape] makes of one character. *)
Definition escape_char (c : char) : str :=
  if (c =? 38)%N then lit "&amp;"
  else if (c =? 60)%N then lit "&lt;"
  else if (c =? 62)%N then lit "&gt;"
  else if (c =? 34)%N then lit "&quot;"
  else if (c =? 39)%N then lit "&#x27;"
  else [c].

(** [s.startswith(p)], and whether [t] occurs in [s]. *)
Fixpoint starts_with (p s : str) : bool :=
  match p, s with
  | [], _ => true
  | _ :: _, [] => false
  | x :: p', y :: s' => (x =? y)%N && starts_with p' s'
  end.

Fixpoint occurs (t s : str) : bool :=
  starts_with t s ||
  match s with
  | [] => false
  | _ :: r => occurs t r
  end.

(** The five references that [Html.escape] writes. *)
Definition references : list str :=
  [lit "&amp;"; lit "&lt;"; lit "&gt;"; lit "&quot;"; lit "&#x27;"].

(** Text that is inert in an HTML document, as content of an element and
    as a quoted attribute value: it holds none of [<], [>], the double
    quote and the apostrophe, and each [&] in it begins one of the five
    references. *)
Fixpoint inert (s : str) : bool :=
  match s with
  | [] => true
  | c :: r =>
      negb (contains c [60; 62; 34; 39]%N)
      && (negb (c =? 38)%N || existsb (fun ref => starts_with ref s) references)
      && inert r
  end.

(** Calendar dates as [datetime] accepts them, and their order. *)
Definition days_in_month (y m : Z) : Z :=
  if (m =? 2)%Z then (if Datetime.is_leap y then 29 else 28)%Z
  else if ((m =? 4) || (m =? 6) || (m =? 9) || (m =? 11))%Z then 30%Z
  else 31%Z.

Definition valid_datetime (dt : Datetime.datetime) : Prop :=
  (1 <= Datetime.month dt <= 12 /\
   1 <= Datetime.day dt <= days_in_month (Datetime.year dt) (Datetime.month dt) /\
   0 <= Datetime.hour dt < 24 /\
   0 <= Datetime.minute dt < 60 /\
   0 <= Datetime.second dt < 60)%Z.

(** An entry of the common kind: its date, if it has one, is a calendar
    date of the years 2 to 9998, and its raw summary has at most 4302
    characters. *)
Definition ordinary (entry : entry) : Prop :=
  (forall dt, or_else (published_parsed entry) (updated_parsed entry) = Some dt ->
     valid_datetime dt /\ (2 <= Datetime.year dt <= 9998)%Z) /\
  length (get_default (entry_summary entry) []) <= 4302.

Definition earlier (a b : Datetime.datetime) : Prop :=
  let (y1, m1, d1, h1, mi1, s1) := a in
  let (y2, m2, d2, h2, mi2, s2) := b in
  (y1 < y2 \/ y1 = y2 /\
   (m1 < m2 \/ m1 = m2 /\
    (d1 < d2 \/ d1 = d2 /\
     (h1 < h2 \/ h1 = h2 /\
      (mi1 < mi2 \/ mi1 = mi2 /\ s1 < s2)))))%Z.

(** Text without any of the characters that [html.escape] replaces. *)
Definition plain (s : str) : bool :=
  forallb (fun c => negb (contains c [38; 60; 62; 34; 39]%N)) s.

(** A template filled in: the texts [pieces] with the strings [slots]
    between them, one after each piece but the last. *)
Fixpoint fill (pieces slots : list str) : str :=
  match pieces, slots with
  | piece :: pieces', slot :: slots' => piece ++ slot ++ fill pieces' slots'
  | piece :: _, [] => piece
  | [], _ => []
  end.

(** The ten strings that [generate_html] puts into the card of [a], in the
    order of the template. *)
Definition card_slots (a : article) : list str :=
  [source_slug a; source_color a; source_color a; source_icon a;
   Html.escape (source_name a); date a; date a; Html.escape (link a);
   Html.escape (title a); Html.escape (summary a)].



(** ** Sample feeds *)

Definition dated (y m d : Z) : option Datetime.datetime :=
  Some {| Datetime.year := y; Datetime.month := m; Datetime.day := d;
          Datetime.hour := 0; Datetime.minute := 0; Datetime.second := 0 |}.

Definition sample_entry (t : str) (published : option Datetime.datetime) : entry :=
  {| entry_title := Some t;
     entry_link := Some (lit "https://example.org/" ++ t);
     entry_summary := Some (lit "<p>About " ++ t ++ lit "</p>");
     published_parsed := published;
     updated_parsed := None |}.

(** The first and the last line of a traceback. *)
Definition sample_traceback (exc : exception) : list str :=
  [lit "Traceback (most recent call last):";
   match exc with
   | ValueError => lit "ValueError"
   | OverflowError => lit "OverflowError"
   end].

(** A host on UTC where only the feed with slug [only] answers, with
    [entries]; the requests to the others time out. *)
Definition sample_env (only : str) (entries : list entry) : env :=
  {| fetch_and_parse := fun feed_config =>
       if Html.str_eqb (slug feed_config) only then Parsed entries
       else Raised (lit "timed out");
     bozo := fun _ => false;
     utcoffset := fun _ => 0%Z;
     now := lit "2024-03-01 12:00";
     traceback := sample_traceback |}.

(** The same host where two feeds answer and the others time out. *)
Definition sample_env_two (first : str) (entries1 : list entry)
  (second : str) (entries2 : list entry) : env :=
  {| fetch_and_parse := fun feed_config =>
       if Html.str_eqb (slug feed_config) first then Parsed entries1
       else if Html.str_eqb (slug feed_config) second then Parsed entries2
       else Raised (lit "timed out");
     bozo := fun _ => false;
     utcoffset := fun _ => 0%Z;
     now := lit "2024-03-01 12:00";
     traceback := sample_traceback |}.

(** The same host where the feed with slug [only] answers with a text that
    is no feed: the parser sets its flag and delivers no entry. *)
Definition sample_env_bozo (only : str) : env :=
  {| fetch_and_parse := fun feed_config =>
       if Html.str_eqb (slug feed_config) only then Parsed []
       else Raised (lit "timed out");
     bozo := fun feed_config => Html.str_eqb (slug feed_config) only;
     utcoffset := fun _ => 0%Z;
     now := lit "2024-03-01 12:00";
     traceback := sample_traceback |}.

Definition no_output : world :=
  {| stdout := []; stderr := []; files := fun _ => None |}.

Definition import_ai : feed_config := nth 0 FEEDS (Build_feed_config [] [] [] [] [] 0).
Definition nng : feed_config := nth 3 FEEDS (Build_feed_config [] [] [] [] [] 0).

(** * Properties *)

(** ** Python string primitives *)

Lemma rfind_None c s : rfind c s = None <-> ~ In c s.
Proof.
  induction s as [|x r IH]; simpl.
  - tauto.
  - destruct (rfind c r) as [i|].
    + split; [discriminate|]. intros H. exfalso. apply H. right.
      destruct (in_dec N.eq_dec c r) as [Hin|Hin]; [exact Hin|].
      apply IH in Hin. discriminate.
    + destruct (N.eqb_spec x c) as [->|Hne].
      * split; [discriminate|]. intros H. exfalso. apply H. now left.
      * split; [|reflexivity]. intros _ [Heq|Hin]; [congruence|].
        now apply (proj1 IH).
Qed.

Lemma rfind_Some c s i :
  rfind c s = Some i ->
  nth_error s i = Some c /\
  forall j, i < j -> nth_error s j <> Some c.
Proof.
  revert i. induction s as [|x r IH]; simpl; intros i H; [discriminate|].
  destruct (rfind c r) as [k|] eqn:Hr.
  - injection H as <-. destruct (IH k eq_refl) as [Hk Hlast]. split; [exact Hk|].
    intros [|j] Hj; [lia|]. simpl. apply Hlast. lia.
  - destruct (N.eqb_spec x c) as [->|Hne]; [|discriminate].
    injection H as <-. split; [reflexivity|].
    intros [|j] Hj; [lia|]. simpl. intros Hc.
    apply nth_error_In in Hc. now apply (proj1 (rfind_None c r)) in Hc.
Qed.

Lemma rfind_lt c s i : rfind c s = Some i -> i < length s.
Proof.
  intros H. apply rfind_Some in H as [H _].
  apply nth_error_Some. congruence.
Qed.

(** ** [truncate] *)

Lemma truncate_short text max_len :
  length text <= max_len -> truncate text max_len = text.
Proof.
  intros H. unfold truncate.
  destruct (Nat.leb_spec (length text) max_len); [reflexivity|lia].
Qed.

Lemma truncate_long text max_len :
  max_len < length text ->
  truncate text max_len =
  item0 (rsplit1 SPACE (slice_to max_len text)) ++ lit "...".
Proof.
  intros H. unfold truncate.
  destruct (Nat.leb_spec (length text) max_len); [lia|reflexivity].
Qed.

(** C5: a text of at most 200 characters is returned unchanged. *)
Theorem truncate_identity_upto_200 (text : str) :
  length text <= 200 -> truncate text max_len_default = text.
Proof. apply truncate_short. Qed.

Lemma truncate_identity_upto_200_witness :
  length (lit "short summary") <= 200 /\
  truncate (lit "short summary") max_len_default = lit "short summary".
Proof.
  split; [vm_compute; lia|].
  apply (truncate_identity_upto_200 (lit "short summary")). vm_compute. lia.
Defined.

Lemma length_lit_ellipsis : length (lit "...") = 3.
Proof. reflexivity. Qed.

Lemma truncate_at_last_space text max_len k :
  max_len < length text ->
  rfind SPACE (slice_to max_len text) = Some k ->
  truncate text max_len = slice_to k text ++ lit "...".
Proof.
  intros Hlen Hk. rewrite truncate_long by exact Hlen.
  unfold rsplit1. rewrite Hk. unfold item0, slice_to in *. simpl nth.
  apply rfind_lt in Hk. rewrite length_firstn in Hk.
  rewrite firstn_firstn. now replace (Nat.min k max_len) with k by lia.
Qed.

(** C4: a text longer than 200 characters with a space among its first 200
    is cut just before the last such space (a word boundary: the character
    at the cut is a space and no later space lies before offset 200), the
    ellipsis is appended, and the result has at most 203 characters. *)
Theorem truncate_backs_off_to_word_boundary (text : str) :
  200 < length text ->
  In SPACE (slice_to 200 text) ->
  exists k,
    k < 200 /\
    nth_error text k = Some SPACE /\
    (forall j, k < j < 200 -> nth_error text j <> Some SPACE) /\
    truncate text max_len_default = slice_to k text ++ lit "..." /\
    length (truncate text max_len_default) <= 203.
Proof.
  intros Hlen Hsp.
  destruct (rfind SPACE (slice_to 200 text)) as [k|] eqn:Hk.
  2:{ apply rfind_None in Hk. contradiction. }
  pose proof (rfind_lt _ _ _ Hk) as Hk200.
  pose proof (rfind_Some _ _ _ Hk) as [Hat Hlast].
  unfold slice_to in *. rewrite length_firstn in Hk200.
  exists k. split; [lia|]. split.
  - rewrite nth_error_firstn in Hat.
    destruct (Nat.ltb_spec k 200); [exact Hat|discriminate].
  - split.
    + intros j [Hj1 Hj2] Hc. apply (Hlast j Hj1).
      rewrite nth_error_firstn.
      destruct (Nat.ltb_spec j 200); [exact Hc|lia].
    + unfold max_len_default.
      rewrite (truncate_at_last_space text 200 k Hlen Hk). split; [reflexivity|].
      unfold slice_to. rewrite length_app, length_firstn, length_lit_ellipsis. lia.
Qed.

Lemma truncate_backs_off_to_word_boundary_witness :
  exists k,
    k < 200 /\
    nth_error (lit "ab " ++ repeat 120%N 200) k = Some SPACE /\
    (forall j, k < j < 200 ->
       nth_error (lit "ab " ++ repeat 120%N 200) j <> Some SPACE) /\
    truncate (lit "ab " ++ repeat 120%N 200) max_len_default =
      slice_to k (lit "ab " ++ repeat 120%N 200) ++ lit "..." /\
    length (truncate (lit "ab " ++ repeat 120%N 200) max_len_default) <= 203.
Proof.
  apply (truncate_backs_off_to_word_boundary (lit "ab " ++ repeat 120%N 200)).
  - vm_compute. lia.
  - vm_compute. tauto.
Defined.

(** C10: a text longer than 200 characters with no space among its first
    200 is cut mid-word: the result is exactly those 200 characters followed
    by the three-character ellipsis, 203 characters in all. *)
Theorem truncate_hard_cut_without_space (text : str) :
  200 < length text ->
  ~ In SPACE (slice_to 200 text) ->
  truncate text max_len_default = slice_to 200 text ++ lit "..." /\
  length (truncate text max_len_default) = 203.
Proof.
  intros Hlen Hsp. apply rfind_None in Hsp.
  unfold max_len_default. rewrite truncate_long by exact Hlen.
  unfold rsplit1. rewrite Hsp. change (item0 [slice_to 200 text]) with (slice_to 200 text).
  split; [reflexivity|].
  unfold slice_to. rewrite length_app, length_firstn, length_lit_ellipsis. lia.
Qed.

Lemma truncate_hard_cut_without_space_witness :
  truncate (repeat 120%N 250) max_len_default =
    slice_to 200 (repeat 120%N 250) ++ lit "..." /\
  length (truncate (repeat 120%N 250) max_len_default) = 203.
Proof.
  apply (truncate_hard_cut_without_space (repeat 120%N 250)).
  - vm_compute. lia.
  - vm_compute. intros H. repeat (destruct H as [H|H]; [discriminate H|]). exact H.
Defined.

(** ** Sorting *)

Section Sorting.

Context {A : Type} (key : A -> Z).

Lemma insert_reverse_perm x l : Permutation (insert_reverse key x l) (x :: l).
Proof.
  induction l as [|y r IH]; simpl; [reflexivity|].
  destruct (key x <? key y)%Z; [|reflexivity].
  rewrite IH. apply perm_swap.
Qed.

Lemma sort_reverse_perm l : Permutation (sort_reverse key l) l.
Proof.
  induction l as [|x r IH]; simpl; [reflexivity|].
  rewrite insert_reverse_perm. now constructor.
Qed.

Lemma insert_reverse_sorted x l :
  StronglySorted (fun a b => (key b <= key a)%Z) l ->
  StronglySorted (fun a b => (key b <= key a)%Z) (insert_reverse key x l).
Proof.
  induction 1 as [|y r Hr IH Hy]; simpl.
  - repeat constructor.
  - destruct (Z.ltb_spec (key x) (key y)) as [Hlt|Hge].
    + constructor; [exact IH|].
      rewrite (Forall_forall (fun b => (key b <= key y)%Z)).
      intros b Hb.
      apply (Permutation_in _ (insert_reverse_perm x r)) in Hb.
      destruct Hb as [<-|Hb]; [lia|].
      now apply (proj1 (Forall_forall _ _) Hy).
    + constructor; [now constructor|].
      constructor; [exact Hge|].
      eapply Forall_impl; [|exact Hy]. simpl. intros b Hb. lia.
Qed.

Lemma sort_reverse_sorted l :
  StronglySorted (fun a b => (key b <= key a)%Z) (sort_reverse key l).
Proof.
  induction l as [|x r IH]; simpl; [constructor|].
  now apply insert_reverse_sorted.
Qed.

(** Stability: the elements of any one key are in their original order. *)
Lemma insert_reverse_filter k x l :
  filter (fun a => (key a =? k)%Z) (insert_reverse key x l) =
  filter (fun a => (key a =? k)%Z) (x :: l).
Proof.
  induction l as [|y r IH]; [reflexivity|].
  simpl insert_reverse.
  destruct (Z.ltb_spec (key x) (key y)) as [Hlt|Hge]; [|reflexivity].
  simpl in *. rewrite IH.
  destruct (Z.eqb_spec (key x) k), (Z.eqb_spec (key y) k); try reflexivity. lia.
Qed.

Lemma sort_reverse_filter k l :
  filter (fun a => (key a =? k)%Z) (sort_reverse key l) =
  filter (fun a => (key a =? k)%Z) l.
Proof.
  induction l as [|x r IH]; [reflexivity|].
  simpl sort_reverse. rewrite insert_reverse_filter. simpl. now rewrite IH.
Qed.

Lemma filter_eq_cons (f : A -> bool) l x q :
  filter f l = x :: q ->
  exists l1 l2, l = l1 ++ x :: l2 /\ filter f l1 = [] /\ filter f l2 = q.
Proof.
  induction l as [|y r IH]; simpl; [discriminate|].
  destruct (f y) eqn:Hy.
  - intros [= -> <-]. exists [], r. auto.
  - intros H. destruct (IH H) as (l1 & l2 & -> & H1 & H2).
    exists (y :: l1), l2. simpl. rewrite Hy. auto.
Qed.

Lemma filter_eq_app_cons (f : A -> bool) l p x q :
  filter f l = p ++ x :: q ->
  exists l1 l2, l = l1 ++ x :: l2 /\ filter f l1 = p /\ filter f l2 = q.
Proof.
  revert l. induction p as [|z p IH]; intros l H.
  - apply filter_eq_cons in H. exact H.
  - simpl in H.
    assert (Hz : f z = true).
    { assert (Hin : In z (filter f l)) by (rewrite H; now left).
      now apply filter_In in Hin. }
    apply filter_eq_cons in H as (l1 & l2 & -> & H1 & H2).
    destruct (IH _ H2) as (m1 & m2 & -> & H3 & H4).
    exists (l1 ++ z :: m1), m2. rewrite <- app_assoc. simpl.
    split; [reflexivity|]. split; [|exact H4].
    rewrite filter_app. simpl. now rewrite Hz, H1, H3.
Qed.

Lemma sort_reverse_stable x y l :
  key x = key y -> precedes x y l -> precedes x y (sort_reverse key l).
Proof.
  intros Hk (l1 & l2 & l3 & ->).
  pose proof (sort_reverse_filter (key x) (l1 ++ x :: l2 ++ y :: l3)) as H.
  rewrite filter_app in H. simpl in H. rewrite Z.eqb_refl in H.
  rewrite filter_app in H. simpl in H. rewrite <- Hk, Z.eqb_refl in H.
  apply filter_eq_app_cons in H as (m1 & m2 & Hm & _ & H2).
  apply filter_eq_app_cons in H2 as (m3 & m4 & -> & _ & _).
  now exists m1, m3, m4.
Qed.

End Sorting.

Lemma sorted_after_smaller {A : Type} (key : A -> Z) (l l1 l2 : list A) (u d : A) :
  StronglySorted (fun a b => (key b <= key a)%Z) l ->
  l = l1 ++ u :: l2 -> (key u < key d)%Z -> ~ In d l2.
Proof.
  intros Hs -> Hlt Hin.
  induction l1 as [|z l1 IH]; simpl in Hs; inversion Hs as [|? ? Hs' Hall]; subst.
  - apply (proj1 (Forall_forall _ _) Hall) in Hin. lia.
  - now apply IH.
Qed.

Lemma sort_reverse_larger_first {A : Type} (key : A -> Z) (l : list A) (u d : A) :
  In u l -> In d l -> (key u < key d)%Z ->
  precedes d u (sort_reverse key l) /\ ~ precedes u d (sort_reverse key l).
Proof.
  intros Hu Hd Hlt.
  pose proof (sort_reverse_sorted key l) as Hs.
  pose proof (sort_reverse_perm key l) as Hp.
  split.
  - apply (Permutation_in _ (Permutation_sym Hp)) in Hu, Hd.
    apply in_split in Hu as (l1 & l2 & Hl).
    rewrite Hl in Hd. apply in_app_or in Hd as [Hd|[Hd|Hd]].
    + apply in_split in Hd as (m1 & m2 & ->).
      exists m1, m2, l2. rewrite Hl, <- app_assoc. reflexivity.
    + subst. lia.
    + exfalso. eapply sorted_after_smaller; eauto.
  - intros (l1 & l2 & l3 & Hl).
    eapply sorted_after_smaller; [exact Hs|exact Hl|exact Hlt|].
    apply in_or_app. right. now left.
Qed.

(** ** The run: what is fetched, printed and written *)

Lemma world_eta w :
  {| stdout := stdout w; stderr := stderr w; files := files w |} = w.
Proof. now destruct w. Qed.

Lemma append_articles_run e feed entries : forall articles,
  append_articles e feed entries articles =
  match first_exception e entries with
  | Some exc => Raises exc
  | None => Returned (articles ++ map (article_of_entry e feed) entries)
  end.
Proof.
  induction entries as [|item rest IH]; intros articles; simpl.
  - now rewrite app_nil_r.
  - destruct (entry_exception e item); [reflexivity|].
    rewrite IH. destruct (first_exception e rest); [reflexivity|].
    now rewrite <- app_assoc.
Qed.

Lemma fetch_feed_run e feed_config w :
  fetch_feed e feed_config w =
  (match feed_exception e feed_config with
   | Some exc => Raises exc
   | None => Returned (feed_articles e feed_config)
   end,
   {| stdout := stdout w;
      stderr := stderr w ++ fetch_stderr e feed_config;
      files := files w |}).
Proof.
  unfold fetch_feed, feed_articles, fetch_stderr, feed_exception.
  destruct (fetch_and_parse e feed_config) as [exc|entries].
  - reflexivity.
  - unfold ret. now rewrite append_articles_run, app_nil_r, world_eta.
Qed.

Lemma raising_feed_is_parsed e feed_config exc :
  feed_exception e feed_config = Some exc ->
  fetch_stderr e feed_config = [] /\
  exists entries, fetch_and_parse e feed_config = Parsed entries.
Proof.
  unfold feed_exception, fetch_stderr.
  destruct (fetch_and_parse e feed_config) as [msg|entries]; [discriminate|].
  intros _. split; [reflexivity|now exists entries].
Qed.

Lemma fetch_loop_run e feeds : forall acc w,
  for_each feeds acc (fun all_articles feed_config =>
    print (lit "  Fetching " ++ name feed_config ++ lit "...") ;;;
    fetched <- fetch_feed e feed_config ;;
    match fetched with
    | Raises exc => ret (Raises exc)
    | Returned articles =>
        print (lit "    Got " ++ str_of_nat (length articles) ++ lit " articles") ;;;
        ret (Returned (all_articles ++ articles))
    end) w =
  (match aborting e feeds with
   | Some exc => Raises exc
   | None => Returned (acc ++ concatenated e feeds)
   end,
   {| stdout := stdout w ++ run_stdout e feeds;
      stderr := stderr w ++ run_stderr e feeds;
      files := files w |}).
Proof.
  induction feeds as [|fc r IH]; intros acc w.
  - simpl. unfold ret. now rewrite !app_nil_r, world_eta.
  - simpl for_each. unfold bind at 1. unfold bind at 1.
    unfold print at 1. unfold bind at 1. rewrite fetch_feed_run.
    cbn [aborting run_stdout run_stderr].
    destruct (feed_exception e fc) as [exc|] eqn:Hfc.
    + destruct (raising_feed_is_parsed e fc exc Hfc) as [-> _].
      unfold ret. cbn [stdout stderr files]. reflexivity.
    + unfold bind at 1. unfold print at 1. unfold ret at 1.
      rewrite IH. cbn [stdout stderr files concatenated flat_map].
      unfold fetch_stdout at 1. cbn [app].
      destruct (aborting e r); now rewrite <- !app_assoc.
Qed.

Lemma fetch_all_run e feeds w :
  fetch_all e feeds w =
  (match aborting e feeds with
   | Some exc => Raises exc
   | None => Returned (concatenated e feeds)
   end,
   {| stdout := stdout w ++ run_stdout e feeds;
      stderr := stderr w ++ run_stderr e feeds;
      files := files w |}).
Proof. unfold fetch_all. now rewrite fetch_loop_run. Qed.

(** A loop that no exception ends prints the lines of every feed. *)
Lemma run_lines_complete e feeds :
  aborting e feeds = None ->
  run_stdout e feeds = flat_map (fetch_stdout e) feeds /\
  run_stderr e feeds = flat_map (fetch_stderr e) feeds.
Proof.
  induction feeds as [|fc r IH]; [now split|].
  cbn [aborting run_stdout run_stderr flat_map].
  destruct (feed_exception e fc); [discriminate|].
  intros H. destruct (IH H) as [-> ->]. now split.
Qed.

(** The state in which [main] leaves the loop over [FEEDS], and what it
    does then. *)
Lemma main_run e w :
  main e w =
  let w1 := {| stdout := stdout w ++ lit "Fetching feeds..."
                         :: run_stdout e FEEDS;
               stderr := stderr w ++ run_stderr e FEEDS;
               files := files w |} in
  match aborting e FEEDS with
  | Some exc =>
      (1%Z,
       {| stdout := stdout w1;
          stderr := stderr w1 ++ traceback e exc;
          files := files w1 |})
  | None =>
      match concatenated e FEEDS with
      | [] =>
          (1%Z,
           {| stdout := stdout w1;
              stderr := stderr w1
                        ++ [lit "Error: No articles fetched from any source."];
              files := files w1 |})
      | _ :: _ =>
          let all_articles := sort_articles (concatenated e FEEDS) in
          (0%Z,
           {| stdout := stdout w1 ++
                [lit "Generated " ++ lit output_path ++ lit " with "
                 ++ str_of_nat (length all_articles) ++ lit " articles."];
              stderr := stderr w1;
              files := fun p =>
                if String.eqb p output_path
                then Some (generate_html all_articles (now e))
                else files w1 p |})
      end
  end.
Proof.
  unfold main. unfold bind at 1. unfold print at 1. unfold bind at 1.
  rewrite fetch_all_run. cbn [stdout stderr files].
  rewrite <- app_assoc. cbn [app].
  destruct (aborting e FEEDS) as [exc|]; [reflexivity|].
  destruct (concatenated e FEEDS) as [|a l]; reflexivity.
Qed.

(** ** Aggregation *)

(** C6: unless an exception ends the loop, the articles of the feeds are
    concatenated in the order of the registry and sorted by recency key,
    most recent first; the sorted sequence holds the same records, and of
    two records with the same key the one that came first in the
    concatenation comes first in it. *)
Theorem aggregation_sorts_descending_and_stably (e : env) (w : world) :
  let all_articles := concatenated e FEEDS in
  (aborting e FEEDS = None ->
   fst (fetch_all e FEEDS w) = Returned all_articles) /\
  (aborting e FEEDS = None -> all_articles <> [] ->
     files (snd (main e w)) output_path =
     Some (generate_html (sort_articles all_articles) (now e))) /\
  Permutation (sort_articles all_articles) all_articles /\
  descending (sort_articles all_articles) /\
  forall a b, sort_key a = sort_key b ->
    precedes a b all_articles -> precedes a b (sort_articles all_articles).
Proof.
  intros all_articles. split.
  { intros Hrun. now rewrite fetch_all_run, Hrun. }
  split.
  { intros Hrun Hne. rewrite main_run, Hrun. fold all_articles.
    destruct all_articles as [|a l]; [contradiction|reflexivity]. }
  split; [apply sort_reverse_perm|].
  split; [apply sort_reverse_sorted|].
  intros a b Hk Hp. now apply sort_reverse_stable.
Qed.

(** Two entries of one day keep their order while a later one moves ahead
    of both. *)
Example same_day_entries_keep_their_order :
  map title
    (sort_articles
       (concatenated
          (sample_env (lit "nng")
             [sample_entry (lit "first") (dated 2024 2 1);
              sample_entry (lit "second") (dated 2024 2 1);
              sample_entry (lit "latest") (dated 2024 2 9)])
          FEEDS)) =
  [lit "latest"; lit "first"; lit "second"].
Proof. vm_compute. reflexivity. Qed.

(** C7 as stated fails: on a host on UTC the recency key of an entry dated
    1969-12-31 is negative and not zero, yet the undated record, whose key
    is zero, is sorted ahead of it. *)
Lemma undated_ahead_of_entry_of_1969 :
  let old := sample_entry (lit "old") (dated 1969 12 31) in
  let nodate := sample_entry (lit "nodate") None in
  let e := sample_env (lit "nng") [old; nodate] in
  undated nodate /\
  published_parsed old = dated 1969 12 31 /\
  sort_key (article_of_entry e nng old) = (-86400)%Z /\
  sort_key (article_of_entry e nng nodate) = 0%Z /\
  concatenated e FEEDS = [article_of_entry e nng old; article_of_entry e nng nodate] /\
  sort_articles (concatenated e FEEDS) =
    [article_of_entry e nng nodate; article_of_entry e nng old].
Proof. vm_compute. repeat split; reflexivity. Qed.

(** C7, amended: an undated entry yields a record with an empty display
    date and recency key zero, and in the sorted sequence that record comes
    after, and never before, every record whose recency key is positive. *)
Theorem undated_records_sort_after_positive_keys
  (e : env) (feed : feed_config) (item : entry) (feeds : list feed_config)
  (d : article) :
  undated item ->
  In (article_of_entry e feed item) (concatenated e feeds) ->
  In d (concatenated e feeds) ->
  (0 < sort_key d)%Z ->
  let u := article_of_entry e feed item in
  date u = [] /\ sort_key u = 0%Z /\
  precedes d u (sort_articles (concatenated e feeds)) /\
  ~ precedes u d (sort_articles (concatenated e feeds)).
Proof.
  intros [Hp Hu] Hin Hd Hpos u.
  assert (Hrec : date u = [] /\ sort_key u = 0%Z).
  { unfold u, article_of_entry. rewrite Hp, Hu. simpl. auto. }
  destruct Hrec as [Hdate Hkey]. split; [exact Hdate|]. split; [exact Hkey|].
  apply sort_reverse_larger_first; [exact Hin|exact Hd|]. fold u. lia.
Qed.

Lemma undated_records_sort_after_positive_keys_witness :
  let nodate := sample_entry (lit "nodate") None in
  let recent := sample_entry (lit "recent") (dated 2024 2 9) in
  let e := sample_env (lit "nng") [nodate; recent] in
  let u := article_of_entry e nng nodate in
  let d := article_of_entry e nng recent in
  date u = [] /\ sort_key u = 0%Z /\
  precedes d u (sort_articles (concatenated e FEEDS)) /\
  ~ precedes u d (sort_articles (concatenated e FEEDS)).
Proof.
  apply (undated_records_sort_after_positive_keys
           (sample_env (lit "nng")
              [sample_entry (lit "nodate") None;
               sample_entry (lit "recent") (dated 2024 2 9)])
           nng (sample_entry (lit "nodate") None) FEEDS
           (article_of_entry
              (sample_env (lit "nng")
                 [sample_entry (lit "nodate") None;
                  sample_entry (lit "recent") (dated 2024 2 9)])
              nng (sample_entry (lit "recent") (dated 2024 2 9)))).
  - split; reflexivity.
  - vm_compute. left. reflexivity.
  - vm_compute. right. left. reflexivity.
  - vm_compute. reflexivity.
Defined.

(** ** Exit status and output file *)

(** C8 as stated fails when an entry makes [fetch_feed] raise: the feed
    [import-ai] has delivered an article, which is aggregated, and the entry
    of [nng] dated 0001-01-01 ends the run with a traceback, status 1 and
    no file. *)
Lemma article_aggregated_but_run_aborted :
  let good := sample_entry (lit "one") (dated 2024 2 9) in
  let bad := sample_entry (lit "bad") (dated 1 1 1) in
  let e := sample_env_two (lit "import-ai") [good] (lit "nng") [bad] in
  fst (fetch_all e [import_ai] no_output) =
    Returned [article_of_entry e import_ai good] /\
  entry_exception e bad = Some ValueError /\
  fst (main e no_output) = 1%Z /\
  files (snd (main e no_output)) output_path = None /\
  stderr (snd (main e no_output)) =
    [lit "Warning: Failed to fetch Simon Willison: timed out";
     lit "Warning: Failed to fetch Lenny's Newsletter: timed out"]
    ++ traceback e ValueError.
Proof. vm_compute. repeat split; reflexivity. Qed.

(** C8, amended: in a run in which no entry makes [fetch_feed] raise, when
    no article was aggregated the run prints the error as the last line of
    the error stream, exits with status 1 and leaves every file as it was,
    and when there is an article it exits with status 0 and [index.html]
    holds the page of the sorted articles. When an entry makes [fetch_feed]
    raise, the run ends with the traceback on the error stream and status
    1, and leaves every file as it was. *)
Theorem empty_aggregate_is_fatal_else_page_written (e : env) (w : world) :
  (aborting e FEEDS = None -> concatenated e FEEDS = [] ->
   fst (main e w) = 1%Z /\ fst (main e w) <> 0%Z /\
   stderr (snd (main e w)) =
     stderr w ++ flat_map (fetch_stderr e) FEEDS
     ++ [lit "Error: No articles fetched from any source."] /\
   stdout (snd (main e w)) =
     stdout w ++ lit "Fetching feeds..." :: flat_map (fetch_stdout e) FEEDS /\
   files (snd (main e w)) = files w) /\
  (aborting e FEEDS = None -> concatenated e FEEDS <> [] ->
   fst (main e w) = 0%Z /\
   files (snd (main e w)) output_path =
     Some (generate_html (sort_articles (concatenated e FEEDS)) (now e)) /\
   stderr (snd (main e w)) = stderr w ++ flat_map (fetch_stderr e) FEEDS) /\
  (forall exc, aborting e FEEDS = Some exc ->
   fst (main e w) = 1%Z /\ fst (main e w) <> 0%Z /\
   stderr (snd (main e w)) = stderr w ++ run_stderr e FEEDS ++ traceback e exc /\
   files (snd (main e w)) = files w).
Proof.
  rewrite main_run. split; [|split].
  - intros Hrun H. rewrite Hrun, H. cbn [fst snd stdout stderr files].
    destruct (run_lines_complete e FEEDS Hrun) as [-> ->].
    rewrite <- app_assoc. repeat split. discriminate.
  - intros Hrun H. rewrite Hrun.
    destruct (run_lines_complete e FEEDS Hrun) as [-> ->].
    destruct (concatenated e FEEDS) as [|a l]; [contradiction|].
    cbn [fst snd stdout stderr files]. repeat split.
  - intros exc Hrun. rewrite Hrun. cbn [fst snd stdout stderr files].
    rewrite <- app_assoc. repeat split. discriminate.
Qed.

Lemma empty_aggregate_is_fatal_else_page_written_witness :
  let none := sample_env (lit "none") [] in
  let one := sample_env (lit "nng") [sample_entry (lit "one") (dated 2024 2 9)] in
  let ended := sample_env (lit "nng") [sample_entry (lit "bad") (dated 1 1 1)] in
  (fst (main none no_output) = 1%Z /\
   files (snd (main none no_output)) = files no_output) /\
  (fst (main one no_output) = 0%Z /\
   files (snd (main one no_output)) output_path =
     Some (generate_html (sort_articles (concatenated one FEEDS)) (now one))) /\
  (fst (main ended no_output) = 1%Z /\
   files (snd (main ended no_output)) = files no_output).
Proof.
  intros none one ended. split; [|split].
  - destruct (empty_aggregate_is_fatal_else_page_written none no_output)
      as [H _].
    destruct (H eq_refl eq_refl) as (H1 & _ & _ & _ & H2). now split.
  - destruct (empty_aggregate_is_fatal_else_page_written one no_output)
      as (_ & H & _).
    assert (Hne : concatenated one FEEDS <> []) by (vm_compute; discriminate).
    destruct (H eq_refl Hne) as (H1 & H2 & _). now split.
  - destruct (empty_aggregate_is_fatal_else_page_written ended no_output)
      as (_ & _ & H).
    destruct (H ValueError eq_refl) as (H1 & _ & _ & H2). now split.
Defined.

(** A run in which every request times out, and one in which one feed
    delivers an entry. *)
Example run_without_articles :
  let e := sample_env (lit "none") [] in
  fst (main e no_output) = 1%Z /\
  files (snd (main e no_output)) output_path = None /\
  last (stderr (snd (main e no_output))) [] =
    lit "Error: No articles fetched from any source.".
Proof. vm_compute. repeat split; reflexivity. Qed.

Example run_with_one_article :
  let e := sample_env (lit "nng") [sample_entry (lit "one") (dated 2024 2 9)] in
  fst (main e no_output) = 0%Z /\
  files (snd (main e no_output)) output_path =
    Some (generate_html (concatenated e FEEDS) (now e)) /\
  length (stderr (snd (main e no_output))) = 4 /\
  last (stdout (snd (main e no_output))) [] =
    lit "Generated index.html with 1 articles.".
Proof. vm_compute. repeat split; reflexivity. Qed.

(** ** Failing feeds *)

Lemma aborting_app e before after :
  aborting e (before ++ after) =
  match aborting e before with
  | Some exc => Some exc
  | None => aborting e after
  end.
Proof.
  induction before as [|f r IH]; [reflexivity|]. simpl.
  destruct (feed_exception e f); [reflexivity|exact IH].
Qed.

Lemma concatenated_app e before after :
  concatenated e (before ++ after) = concatenated e before ++ concatenated e after.
Proof. unfold concatenated. apply flat_map_app. Qed.

Lemma run_stdout_app e before after :
  aborting e before = None ->
  run_stdout e (before ++ after) = run_stdout e before ++ run_stdout e after.
Proof.
  induction before as [|f r IH]; [reflexivity|].
  cbn [app aborting run_stdout run_stderr].
  destruct (feed_exception e f); [discriminate|].
  intros H. now rewrite IH, app_assoc.
Qed.

Lemma run_stderr_app e before after :
  aborting e before = None ->
  run_stderr e (before ++ after) = run_stderr e before ++ run_stderr e after.
Proof.
  induction before as [|f r IH]; [reflexivity|].
  cbn [app aborting run_stdout run_stderr].
  destruct (feed_exception e f); [discriminate|].
  intros H. now rewrite IH, app_assoc.
Qed.

Lemma run_stdout_fetching e feeds g :
  aborting e feeds = None -> In g feeds ->
  In (lit "  Fetching " ++ name g ++ lit "...") (run_stdout e feeds).
Proof.
  intros Hrun Hg. destruct (run_lines_complete e feeds Hrun) as [-> _].
  apply in_flat_map. exists g. split; [exact Hg|now left].
Qed.

(** C9 as stated fails for a response that is not parseable: the parser
    raises nothing, it sets its flag and delivers no entry, and
    [fetch_feed] returns the empty list without a warning. *)
Lemma unparseable_response_gets_no_warning :
  let e := sample_env_bozo (lit "nng") in
  bozo e nng = true /\
  fetch_and_parse e nng = Parsed [] /\
  fetch_feed e nng no_output = (Returned [], no_output).
Proof. vm_compute. repeat split; reflexivity. Qed.

(** C9, amended: when the request, the read or the parse of a feed raises
    an exception, [fetch_feed] prints one warning with the feed's name on
    the error stream, prints nothing on the primary stream and returns no
    article; the loop goes on as without that feed: its outcome is the
    same, the warning is among the lines of the error stream once the feed
    is reached, the feeds after it are fetched, and [main] exits with
    status 0 as soon as another feed delivered an article, provided no
    entry makes [fetch_feed] raise. When the parse raises nothing, whatever
    the response, there is no warning. *)
Theorem failed_feed_warns_and_run_continues
  (e : env) (feed : feed_config) (w : world) :
  (forall exc, fetch_and_parse e feed = Raised exc ->
   fetch_feed e feed w =
     (Returned [],
      {| stdout := stdout w;
         stderr := stderr w ++ [lit "Warning: Failed to fetch " ++ name feed
                                ++ lit ": " ++ exc];
         files := files w |}) /\
   forall before after,
     let run := fetch_all e (before ++ feed :: after) w in
     fst run = fst (fetch_all e (before ++ after) w) /\
     (aborting e before = None ->
      In (lit "Warning: Failed to fetch " ++ name feed ++ lit ": " ++ exc)
         (stderr (snd run))) /\
     (aborting e (before ++ after) = None ->
      fst run = Returned (concatenated e before ++ concatenated e after) /\
      forall g, In g after ->
        In (lit "  Fetching " ++ name g ++ lit "...") (stdout (snd run))) /\
     (FEEDS = before ++ feed :: after ->
      aborting e (before ++ after) = None ->
      concatenated e before ++ concatenated e after <> [] ->
      fst (main e w) = 0%Z)) /\
  (forall entries, fetch_and_parse e feed = Parsed entries ->
   stderr (snd (fetch_feed e feed w)) = stderr w /\
   stdout (snd (fetch_feed e feed w)) = stdout w).
Proof.
  split.
  - intros exc Hexc.
    assert (Hfeed : feed_exception e feed = None).
    { unfold feed_exception. now rewrite Hexc. }
    assert (Hnone : feed_articles e feed = []).
    { unfold feed_articles. now rewrite Hexc. }
    assert (Herr : fetch_stderr e feed =
                   [lit "Warning: Failed to fetch " ++ name feed ++ lit ": " ++ exc]).
    { unfold fetch_stderr. now rewrite Hexc. }
    split.
    { rewrite fetch_feed_run, Hfeed, Hnone, Herr. reflexivity. }
    intros before after run.
    assert (Habort : aborting e (before ++ feed :: after) = aborting e (before ++ after)).
    { rewrite !aborting_app. cbn [aborting]. now rewrite Hfeed. }
    assert (Hcat : concatenated e (before ++ feed :: after) =
                   concatenated e before ++ concatenated e after).
    { rewrite !concatenated_app. unfold concatenated at 2. cbn [flat_map].
      now rewrite Hnone. }
    unfold run. rewrite !fetch_all_run. cbn [fst snd stdout stderr].
    rewrite Habort, Hcat, concatenated_app.
    split; [reflexivity|]. split; [|split].
    + intros Hb. apply in_or_app. right.
      rewrite run_stderr_app by exact Hb. apply in_or_app. right.
      cbn [run_stderr]. rewrite Hfeed, Herr. now left.
    + intros Hrun. rewrite Hrun. split; [reflexivity|].
      intros g Hg. apply in_or_app. right.
      apply run_stdout_fetching.
      * now rewrite Habort.
      * apply in_or_app. right. now right.
    + intros HF Hrun Hne. rewrite main_run. rewrite HF, Habort, Hrun, Hcat.
      destruct (concatenated e before ++ concatenated e after);
        [contradiction|reflexivity].
  - intros entries Hp. rewrite fetch_feed_run. cbn [snd stdout stderr].
    unfold fetch_stderr. rewrite Hp. now rewrite app_nil_r.
Qed.

Lemma failed_feed_warns_and_run_continues_witness :
  let e := sample_env (lit "nng") [sample_entry (lit "one") (dated 2024 2 9)] in
  fetch_feed e import_ai no_output =
    (Returned [],
     {| stdout := [];
        stderr := [lit "Warning: Failed to fetch Import AI: timed out"];
        files := files no_output |}) /\
  fst (fetch_all e FEEDS no_output) = fst (fetch_all e (tl FEEDS) no_output) /\
  fst (main e no_output) = 0%Z.
Proof.
  pose proof (failed_feed_warns_and_run_continues
                (sample_env (lit "nng") [sample_entry (lit "one") (dated 2024 2 9)])
                import_ai no_output) as [H _].
  destruct (H (lit "timed out") eq_refl) as [H1 H2].
  split; [exact H1|].
  destruct (H2 [] (tl FEEDS)) as (H3 & _ & _ & H4).
  split; [exact H3|].
  apply H4; [reflexivity|reflexivity|]. vm_compute. discriminate.
Defined.

(** ** [re.sub] *)

Lemma sub_cons match_at repl c r :
  Re.sub match_at repl (c :: r) =
  match match_at (c :: r) with
  | Some (S k) => repl (firstn (S k) (c :: r)) ++ Re.sub match_at repl (skipn k r)
  | _ => c :: Re.sub match_at repl r
  end.
Proof.
  simp sub. destruct (match_at (c :: r)) as [[|k]|]; reflexivity.
Qed.

Lemma matches_cons match_at c r :
  Re.matches match_at (c :: r) =
  match match_at (c :: r) with
  | Some (S k) => firstn (S k) (c :: r) :: Re.matches match_at (skipn k r)
  | _ => Re.matches match_at r
  end.
Proof.
  simp matches. destruct (match_at (c :: r)) as [[|k]|]; reflexivity.
Qed.

Lemma span_spec p s :
  s = fst (Re.span p s) ++ snd (Re.span p s) /\
  forallb p (fst (Re.span p s)) = true /\
  match snd (Re.span p s) with
  | [] => True
  | c :: _ => p c = false
  end.
Proof.
  induction s as [|c r IH]; simpl; [auto|].
  destruct (p c) eqn:Hc.
  - destruct (Re.span p r) as [run rest]. simpl in *.
    destruct IH as (H1 & H2 & H3). rewrite Hc, H2. split; [now f_equal|auto].
  - simpl. auto.
Qed.

Lemma span_all p s : forallb p s = true -> Re.span p s = (s, []).
Proof.
  induction s as [|c r IH]; simpl; [reflexivity|].
  intros H. apply andb_prop in H as [Hc Hr]. now rewrite Hc, (IH Hr).
Qed.

Lemma span_stop p run c rest :
  forallb p run = true -> p c = false ->
  Re.span p (run ++ c :: rest) = (run, c :: rest).
Proof.
  induction run as [|x run IH]; simpl; intros Hrun Hc.
  - now rewrite Hc.
  - apply andb_prop in Hrun as [Hx Hrun]. now rewrite Hx, (IH Hrun Hc).
Qed.

(** ** Tags *)

Lemma forallb_not_gt (s : str) :
  forallb (fun x => negb (x =? 62)%N) s = true <-> ~ In 62%N s.
Proof.
  induction s as [|c r IH]; simpl; [tauto|].
  destruct (N.eqb_spec c 62) as [->|Hne]; simpl.
  - split; [discriminate|]. intros H. exfalso. apply H. now left.
  - rewrite IH. split; [intros H [E|E]; [congruence|now apply H]|tauto].
Qed.

(** The text up to the first [>] after a character that is not [>]. *)
Lemma split_at_first_gt (x : N) (l1 l2 : list N) :
  x <> 62%N ->
  exists run rest, x :: l1 ++ 62%N :: l2 = run ++ 62%N :: rest
                   /\ ~ In 62%N run /\ run <> [].
Proof.
  revert x. induction l1 as [|y l1 IH]; intros x Hx.
  - exists [x], l2. split; [reflexivity|]. split; [|discriminate].
    intros [E|[]]; congruence.
  - destruct (N.eq_dec y 62) as [->|Hy].
    + exists [x], (l1 ++ 62%N :: l2). split; [reflexivity|].
      split; [|discriminate]. intros [E|[]]; congruence.
    + destruct (IH y Hy) as (run & rest & E & Hrun & _).
      exists (x :: run), rest. simpl. rewrite E. split; [reflexivity|].
      split; [|discriminate]. intros [E'|E']; [congruence|contradiction].
Qed.

Lemma starts_tag_iff s :
  starts_tag s = true <->
  exists x r, s = 60%N :: x :: r /\ x <> 62%N /\ In 62%N r.
Proof.
  unfold starts_tag, Re.match_tag. split.
  - destruct s as [|c r0]; [discriminate|].
    destruct (N.eqb_spec c 60) as [->|]; [|discriminate].
    pose proof (span_spec (fun x => negb (x =? 62)%N) r0) as (Happ & Hrun & Hstop).
    destruct (Re.span (fun x => negb (x =? 62)%N) r0) as [[|x run] [|g rest]];
      try discriminate.
    intros _. simpl in *. apply andb_prop in Hrun as [Hx Hrun].
    exists x, (run ++ g :: rest). split; [now rewrite Happ|]. split.
    + destruct (N.eqb_spec x 62); [discriminate|assumption].
    + apply in_or_app. right. left.
      destruct (N.eqb_spec g 62); [assumption|discriminate].
  - intros (x & r & -> & Hx & Hin). rewrite N.eqb_refl.
    apply in_split in Hin as (l1 & l2 & ->).
    pose proof (split_at_first_gt x l1 l2 Hx) as Hsplit.
    destruct Hsplit as (run & rest & -> & Hrun & Hne).
    rewrite span_stop; [|now apply forallb_not_gt|reflexivity].
    destruct run; [contradiction|reflexivity].
Qed.

Lemma starts_tag_false_iff s : starts_tag s = false <-> Re.match_tag s = None.
Proof.
  unfold starts_tag. destruct (Re.match_tag s); split; congruence.
Qed.

Lemma has_tag_iff s :
  has_tag s = true <->
  exists before x r, s = before ++ 60%N :: x :: r /\ x <> 62%N /\ In 62%N r.
Proof.
  induction s as [|c s IH].
  - simpl. split; [discriminate|]. intros (b & x & r & E & _).
    destruct b; discriminate.
  - cbn [has_tag]. rewrite orb_true_iff, IH, starts_tag_iff. split.
    + intros [(x & r & E & H)|(b & x & r & E & H)].
      * exists [], x, r. auto.
      * exists (c :: b), x, r. simpl. now rewrite E.
    + intros ([|c' b] & x & r & E & H).
      * left. exists x, r. auto.
      * right. injection E as -> ->. now exists b, x, r.
Qed.

Lemma has_tag_app_r p q : has_tag q = true -> has_tag (p ++ q) = true.
Proof.
  rewrite !has_tag_iff. intros (b & x & r & -> & H).
  exists (p ++ b), x, r. now rewrite <- app_assoc.
Qed.

Lemma has_tag_app_l p q : has_tag p = true -> has_tag (p ++ q) = true.
Proof.
  rewrite !has_tag_iff. intros (b & x & r & -> & Hx & Hin).
  exists b, x, (r ++ q). rewrite <- app_assoc. simpl.
  split; [reflexivity|]. split; [exact Hx|]. apply in_or_app. now left.
Qed.

(** A text has a tag exactly when a tag is one of its substrings. *)
Lemma has_tag_substring s :
  has_tag s = true <-> exists t, is_tag t /\ substring t s.
Proof.
  rewrite has_tag_iff. split.
  - intros (b & x & r & -> & Hx & Hin).
    apply in_split in Hin as (l1 & l2 & ->).
    pose proof (split_at_first_gt x l1 l2 Hx) as Hsplit.
    destruct Hsplit as (run & rest & E & Hrun & Hne).
    exists (60%N :: run ++ [62%N]). split.
    + now exists run.
    + exists b, rest. simpl. rewrite E, <- app_assoc. reflexivity.
  - intros (t & (inner & -> & Hne & Hin) & (b & a & ->)).
    destruct inner as [|x inner]; [contradiction|].
    exists b, x, (inner ++ [62%N] ++ a). simpl. rewrite <- app_assoc.
    split; [reflexivity|]. split.
    + intros ->. apply Hin. now left.
    + apply in_or_app. right. now left.
Qed.

(** ** Substitution and tags *)

Lemma str_length_ind (P : str -> Prop) :
  (forall s, (forall t, length t < length s -> P t) -> P s) -> forall s, P s.
Proof.
  intros H s. remember (length s) as n eqn:Hn. revert s Hn.
  induction n as [n IH] using lt_wf_ind. intros s ->.
  apply H. intros t Ht. now apply (IH (length t)).
Qed.

Lemma in_skipn {A} (x : A) n (l : list A) : In x (skipn n l) -> In x l.
Proof.
  intros H. rewrite <- (firstn_skipn n l). apply in_or_app. now right.
Qed.

Lemma has_tag_skipn n s : has_tag (skipn n s) = true -> has_tag s = true.
Proof.
  intros H. rewrite <- (firstn_skipn n s). now apply has_tag_app_r.
Qed.

Lemma sub_in (match_at : str -> option nat) (repl : str -> str) (x : char) :
  (forall t, ~ In x (repl t)) ->
  forall s, In x (Re.sub match_at repl s) -> In x s.
Proof.
  intros Hrepl s. induction s as [s IH] using str_length_ind.
  destruct s as [|c r]; [now simp sub|].
  rewrite sub_cons. destruct (match_at (c :: r)) as [[|k]|].
  - intros [->|H]; [now left|]. right. apply IH; [simpl; lia|exact H].
  - intros H. apply in_app_or in H as [H|H]; [now apply Hrepl in H|].
    right. apply in_skipn with (n := k). apply IH; [|exact H].
    simpl. rewrite length_skipn. lia.
  - intros [->|H]; [now left|]. right. apply IH; [simpl; lia|exact H].
Qed.

(** [sub] applies its replacement to the matches of the scan only. *)
Lemma sub_ext (match_at : str -> option nat) (repl repl' : str -> str) s :
  (forall m, In m (Re.matches match_at s) -> repl m = repl' m) ->
  Re.sub match_at repl s = Re.sub match_at repl' s.
Proof.
  induction s as [s IH] using str_length_ind.
  destruct s as [|c r]; [now simp sub|].
  rewrite !sub_cons, matches_cons.
  destruct (match_at (c :: r)) as [[|k]|]; intros Hm.
  - f_equal. apply IH; [simpl; lia|exact Hm].
  - rewrite (Hm _ (or_introl eq_refl)). f_equal.
    apply IH; [simpl; rewrite length_skipn; lia|].
    intros m Hin. apply Hm. now right.
  - f_equal. apply IH; [simpl; lia|exact Hm].
Qed.

(** When every replacement is the match itself or shorter than it, [sub]
    returns its argument or a shorter text. *)
Lemma sub_fixed_or_shorter (match_at : str -> option nat) (repl : str -> str) :
  (forall c r k, match_at (c :: r) = Some (S k) ->
     let m := firstn (S k) (c :: r) in
     repl m = m \/ length (repl m) < length m) ->
  forall s, Re.sub match_at repl s = s \/
            length (Re.sub match_at repl s) < length s.
Proof.
  intros Hrepl s. induction s as [s IH] using str_length_ind.
  destruct s as [|c r]; [left; now simp sub|].
  rewrite sub_cons. destruct (match_at (c :: r)) as [[|k]|] eqn:Hm.
  - destruct (IH r) as [->|H]; [simpl; lia|now left|right; simpl; lia].
  - pose proof (Hrepl c r k Hm) as Hr. cbv zeta in Hr.
    assert (Hsplit : c :: r = firstn (S k) (c :: r) ++ skipn k r).
    { rewrite <- (firstn_skipn (S k) (c :: r)) at 1. reflexivity. }
    assert (Hlen : length (c :: r) =
                   length (firstn (S k) (c :: r)) + length (skipn k r)).
    { rewrite Hsplit at 1. apply length_app. }
    destruct (IH (skipn k r)) as [Hs|Hs];
      [simpl; rewrite length_skipn; lia| |].
    + rewrite Hs. destruct Hr as [->|Hr]; [left; now rewrite <- Hsplit|].
      right. rewrite length_app. lia.
    + right. rewrite length_app.
      destruct Hr as [->|Hr]; lia.
  - destruct (IH r) as [->|H]; [simpl; lia|now left|right; simpl; lia].
Qed.

Section SubstitutionKeepsGt.

(** A substitution whose pattern does not match at a [>] and whose
    replacements hold neither [<] nor [>]. *)
Variable match_at : str -> option nat.
Variable repl : str -> str.
Hypothesis match_at_gt : forall r, match_at (62%N :: r) = None.
Hypothesis repl_gt : forall t, ~ In 62%N (repl t).
Hypothesis repl_lt : forall t, ~ In 60%N (repl t).

Lemma sub_gt_head r :
  Re.sub match_at repl (62%N :: r) = 62%N :: Re.sub match_at repl r.
Proof. now rewrite sub_cons, match_at_gt. Qed.

Lemma sub_in_gt s : In 62%N (Re.sub match_at repl s) -> In 62%N s.
Proof. apply sub_in. exact repl_gt. Qed.

(** A tag that begins at a copied [<] was there before. *)
Lemma starts_tag_before_sub c r :
  starts_tag (c :: Re.sub match_at repl r) = true -> starts_tag (c :: r) = true.
Proof.
  rewrite !starts_tag_iff. intros (x & r' & E & Hx & Hin).
  injection E as -> E.
  destruct r as [|x0 r0]; [simp sub in E; discriminate|].
  destruct (N.eq_dec x0 62) as [->|Hx0].
  - rewrite sub_gt_head in E. congruence.
  - exists x0, r0. split; [reflexivity|]. split; [exact Hx0|].
    assert (H : In 62%N (Re.sub match_at repl (x0 :: r0))).
    { rewrite E. now right. }
    apply sub_in_gt in H as [H|H]; [congruence|exact H].
Qed.

Lemma has_tag_repl t s : has_tag (repl t ++ s) = has_tag s.
Proof.
  pose proof (repl_lt t) as H. induction (repl t) as [|c u IH]; [reflexivity|].
  cbn [app has_tag].
  rewrite IH by (intros Hin; apply H; now right).
  replace (starts_tag (c :: u ++ s)) with false; [reflexivity|].
  symmetry. apply starts_tag_false_iff. unfold Re.match_tag.
  destruct (N.eqb_spec c 60) as [->|]; [|reflexivity].
  exfalso. apply H. now left.
Qed.

(** The substitution brings no tag into a text. *)
Lemma sub_no_new_tag s :
  has_tag (Re.sub match_at repl s) = true -> has_tag s = true.
Proof.
  induction s as [s IH] using str_length_ind.
  destruct s as [|c r]; [now simp sub|].
  assert (Hcopy : has_tag (c :: Re.sub match_at repl r) = true ->
                  has_tag (c :: r) = true).
  { cbn [has_tag]. rewrite !orb_true_iff. intros [H|H].
    - left. now apply starts_tag_before_sub.
    - right. apply IH; [simpl; lia|exact H]. }
  rewrite sub_cons. destruct (match_at (c :: r)) as [[|k]|]; try exact Hcopy.
  rewrite has_tag_repl. intros H.
  apply has_tag_skipn with (n := S k). simpl. apply IH; [|exact H].
  simpl. rewrite length_skipn. lia.
Qed.

End SubstitutionKeepsGt.

(** Removing the tags leaves none. *)
Lemma strip_tags_no_tag s :
  has_tag (Re.sub Re.match_tag (fun _ => []) s) = false.
Proof.
  induction s as [s IH] using str_length_ind.
  destruct s as [|c r]; [now simp sub|].
  rewrite sub_cons. destruct (Re.match_tag (c :: r)) as [[|k]|] eqn:Hm.
  - unfold Re.match_tag in Hm. destruct (c =? 60)%N; [|discriminate].
    destruct (Re.span _ r) as [[|? ?] [|? ?]]; discriminate.
  - simpl. apply IH. simpl. rewrite length_skipn. lia.
  - cbn [has_tag]. rewrite (IH r) by (simpl; lia). rewrite orb_false_r.
    destruct (starts_tag (c :: Re.sub Re.match_tag (fun _ => []) r)) eqn:Hs;
      [|reflexivity].
    apply starts_tag_before_sub in Hs; [|reflexivity|intros t []].
    apply starts_tag_false_iff in Hm. congruence.
Qed.

(** A text without tags is left as it is. *)
Lemma strip_tags_fixed s :
  has_tag s = false -> Re.sub Re.match_tag (fun _ => []) s = s.
Proof.
  induction s as [|c r IH]; [now simp sub|].
  cbn [has_tag]. intros H. apply orb_false_iff in H as [Hs Hr].
  apply starts_tag_false_iff in Hs. now rewrite sub_cons, Hs, IH.
Qed.

(** ** Stripping whitespace *)

Lemma lstrip_by_suffix p s : exists t, s = t ++ lstrip_by p s.
Proof.
  induction s as [|c r [t IH]]; [now exists []|].
  simpl. destruct (p c).
  - exists (c :: t). simpl. now f_equal.
  - now exists [].
Qed.

Lemma rstrip_by_prefix p s : exists t, s = rstrip_by p s ++ t.
Proof.
  unfold rstrip_by. destruct (lstrip_by_suffix p (rev s)) as [t Ht].
  exists (rev t). rewrite <- rev_app_distr, <- Ht. now rewrite rev_involutive.
Qed.

Lemma lstrip_by_length p s : length (lstrip_by p s) <= length s.
Proof.
  destruct (lstrip_by_suffix p s) as [t Ht]. rewrite Ht at 2.
  rewrite length_app. lia.
Qed.

Lemma rstrip_by_length p s : length (rstrip_by p s) <= length s.
Proof.
  destruct (rstrip_by_prefix p s) as [t Ht]. rewrite Ht at 2.
  rewrite length_app. lia.
Qed.

Lemma lstrip_by_head p s :
  match lstrip_by p s with
  | [] => True
  | c :: _ => p c = false
  end.
Proof.
  induction s as [|c r IH]; simpl; [exact I|].
  destruct (p c) eqn:Hc; [exact IH|exact Hc].
Qed.

Lemma lstrip_by_fixed p s :
  match s with
  | [] => True
  | c :: _ => p c = false
  end -> lstrip_by p s = s.
Proof. destruct s as [|c r]; [reflexivity|]. simpl. now intros ->. Qed.

Lemma strip_strip s : strip (strip s) = strip s.
Proof.
  unfold strip, rstrip, lstrip, rstrip_by.
  set (y := lstrip_by isspace s). set (z := lstrip_by isspace (rev y)).
  assert (Hz : lstrip_by isspace z = z).
  { apply lstrip_by_fixed. apply lstrip_by_head. }
  assert (Hrz : lstrip_by isspace (rev z) = rev z).
  { apply lstrip_by_fixed.
    destruct (lstrip_by_suffix isspace (rev y)) as [t Ht]. fold z in Ht.
    apply (f_equal (@rev N)) in Ht.
    rewrite rev_involutive, rev_app_distr in Ht.
    pose proof (lstrip_by_head isspace s) as Hy. fold y in Hy.
    destruct (rev z) as [|c u]; [exact I|].
    rewrite Ht in Hy. exact Hy. }
  now rewrite Hrz, rev_involutive, Hz.
Qed.

Lemma has_tag_strip s : has_tag (strip s) = true -> has_tag s = true.
Proof.
  unfold strip, rstrip, lstrip. intros H.
  destruct (rstrip_by_prefix isspace (lstrip_by isspace s)) as [t Ht].
  destruct (lstrip_by_suffix isspace s) as [t' Ht'].
  rewrite Ht'. apply has_tag_app_r. rewrite Ht. now apply has_tag_app_l.
Qed.

(** ** Collapsing whitespace *)

Lemma match_spaces_cons c r :
  Re.match_spaces (c :: r) =
  if isspace c then Some (S (length (fst (Re.span isspace r)))) else None.
Proof.
  unfold Re.match_spaces. simpl. destruct (isspace c); [|reflexivity].
  now destruct (Re.span isspace r).
Qed.

Lemma skipn_span p (r : str) :
  skipn (length (fst (Re.span p r))) r = snd (Re.span p r).
Proof.
  destruct (span_spec p r) as [H _]. rewrite H at 2.
  rewrite skipn_app, skipn_all, Nat.sub_diag. reflexivity.
Qed.

Lemma collapse_cons c r :
  collapse (c :: r) =
  if isspace c then SPACE :: collapse (snd (Re.span isspace r))
  else c :: collapse r.
Proof.
  unfold collapse. rewrite sub_cons, match_spaces_cons.
  destruct (isspace c); [|reflexivity]. now rewrite skipn_span.
Qed.

Lemma collapse_no_new_tag s : has_tag (collapse s) = true -> has_tag s = true.
Proof.
  apply sub_no_new_tag.
  - intros r. now rewrite match_spaces_cons.
  - intros t [H|[]]. discriminate H.
  - intros t [H|[]]. discriminate H.
Qed.

Lemma length_snd_span p (r : str) : length (snd (Re.span p r)) <= length r.
Proof.
  destruct (span_spec p r) as [H _]. rewrite H at 2. rewrite length_app. lia.
Qed.

Lemma collapsed_collapse s : collapsed (collapse s) = true.
Proof.
  induction s as [s IH] using str_length_ind.
  destruct s as [|c r]; [unfold collapse; now simp sub|].
  rewrite collapse_cons. destruct (isspace c) eqn:Hc.
  - pose proof (length_snd_span isspace r) as Hlen.
    destruct (span_spec isspace r) as (_ & _ & Hstop).
    cbn [collapsed]. change (isspace SPACE) with true. cbv iota.
    rewrite N.eqb_refl, IH by (simpl; lia).
    destruct (snd (Re.span isspace r)) as [|c' rest]; [reflexivity|].
    rewrite collapse_cons, Hstop. simpl. now rewrite Hstop.
  - cbn [collapsed]. rewrite Hc. apply IH. simpl. lia.
Qed.

Lemma collapse_fixed s : collapsed s = true -> collapse s = s.
Proof.
  induction s as [|c r IH]; [unfold collapse; now simp sub|].
  cbn [collapsed]. rewrite collapse_cons. destruct (isspace c).
  - intros H. apply andb_prop in H as [H Hr]. apply andb_prop in H as [Hc Hnext].
    apply N.eqb_eq in Hc. subst c.
    assert (Hspan : snd (Re.span isspace r) = r).
    { destruct r as [|c' r']; [reflexivity|]. simpl.
      apply negb_true_iff in Hnext. now rewrite Hnext. }
    now rewrite Hspan, IH.
  - intros Hr. now rewrite IH.
Qed.

Lemma collapsed_suffix p q : collapsed (p ++ q) = true -> collapsed q = true.
Proof.
  induction p as [|c p IH]; [auto|].
  cbn [app collapsed]. destruct (isspace c); [|exact IH].
  intros H. apply andb_prop in H as [_ H]. now apply IH.
Qed.

Lemma collapsed_prefix p q : collapsed (p ++ q) = true -> collapsed p = true.
Proof.
  induction p as [|c p IH]; [reflexivity|].
  cbn [app collapsed]. destruct (isspace c); [|exact IH].
  intros H. apply andb_prop in H as [H Hr]. apply andb_prop in H as [Hc Hnext].
  rewrite Hc, (IH Hr). destruct p as [|c0 p]; [reflexivity|].
  simpl in Hnext. now rewrite Hnext.
Qed.

Lemma collapsed_strip s : collapsed s = true -> collapsed (strip s) = true.
Proof.
  unfold strip, rstrip, lstrip. intros H.
  destruct (rstrip_by_prefix isspace (lstrip_by isspace s)) as [t Ht].
  destruct (lstrip_by_suffix isspace s) as [t' Ht'].
  rewrite Ht' in H. apply collapsed_suffix in H.
  rewrite Ht in H. now apply collapsed_prefix in H.
Qed.

(** ** Character references *)

Lemma contains_false c s : contains c s = false <-> ~ In c s.
Proof.
  unfold contains. induction s as [|x r IH]; simpl; [tauto|].
  rewrite orb_false_iff, IH. destruct (N.eqb_spec c x) as [->|Hne].
  - split; [intros [H _]; discriminate|]. intros H. exfalso. apply H. now left.
  - split; [intros [_ H] [E|E]; [congruence|contradiction]|]. tauto.
Qed.

(** A text without [&] holds no character reference. *)
Lemma unescape_without_amp s : ~ In 38%N s -> Html.unescape s = s.
Proof.
  intros H. unfold Html.unescape.
  apply contains_false in H. now rewrite H.
Qed.

Lemma existsb_false {A} (f : A -> bool) l x :
  existsb f l = false -> In x l -> f x = false.
Proof.
  intros H Hin. destruct (f x) eqn:E; [|reflexivity].
  rewrite <- H. symmetry. apply existsb_exists. now exists x.
Qed.

(** Decoding brings no tag into a text unless a reference decodes to an
    angle bracket. *)
Lemma unescape_no_new_tag s :
  decodes_angle s = false ->
  has_tag (Html.unescape s) = true -> has_tag s = true.
Proof.
  intros Hd. unfold Html.unescape.
  destruct (negb (contains 38%N s)); [auto|].
  set (repl := fun m : str => Html.replace_charref (tl m)).
  set (repl' := fun m : str =>
                  if contains 60%N (repl m) || contains 62%N (repl m)
                  then [] else repl m).
  rewrite (sub_ext Html.match_charref repl repl').
  - apply sub_no_new_tag.
    + reflexivity.
    + intros t. unfold repl'.
      destruct (contains 60%N (repl t) || contains 62%N (repl t)) eqn:E;
        [intros []|].
      apply orb_false_iff in E as [_ E]. now apply contains_false.
    + intros t. unfold repl'.
      destruct (contains 60%N (repl t) || contains 62%N (repl t)) eqn:E;
        [intros []|].
      apply orb_false_iff in E as [E _]. now apply contains_false.
  - intros m Hin. unfold repl'.
    replace (contains 60%N (repl m) || contains 62%N (repl m)) with false;
      [reflexivity|].
    symmetry. exact (existsb_false _ _ m Hd Hin).
Qed.

(** A name of the table is at least as long as what it stands for. *)
Lemma html5_values_shorter :
  forallb (fun entry => length (snd entry) <=? length (lit (fst entry)))
          Html.html5 = true.
Proof. vm_compute. reflexivity. Qed.

Lemma str_eqb_eq (a b : str) : Html.str_eqb a b = true -> a = b.
Proof. unfold Html.str_eqb. now destruct (list_eq_dec N.eq_dec a b). Qed.

Lemma html5_get_shorter s v : Html.html5_get s = Some v -> length v <= length s.
Proof.
  unfold Html.html5_get. intros H.
  destruct (find _ Html.html5) as [[k v']|] eqn:E; [|discriminate].
  replace v with v' by (simpl in H; congruence).
  apply find_some in E as [E Hk]. simpl in Hk. apply str_eqb_eq in Hk.
  pose proof (proj1 (forallb_forall _ _) html5_values_shorter _ E) as Hv.
  simpl in Hv. apply Nat.leb_le in Hv. now rewrite <- Hk.
Qed.

Lemma longest_name_shorter fuel s v :
  Html.longest_name fuel s = Some v -> length v <= length s.
Proof.
  induction fuel as [|n IH]; [discriminate|].
  cbn [Html.longest_name].
  destruct (Html.html5_get (firstn (S (S n)) s)) as [w|] eqn:E; [|exact IH].
  intros H. replace v with (w ++ skipn (S (S n)) s) by congruence.
  apply html5_get_shorter in E. rewrite length_app.
  rewrite length_firstn in E. rewrite length_skipn.
  unfold str, char in *. lia.
Qed.

(** A reference is replaced with itself, when it is not one after all, or
    with a shorter text. *)
Lemma replace_charref_fixed_or_shorter g :
  Html.replace_charref g = 38%N :: g \/
  length (Html.replace_charref g) < length (38%N :: g).
Proof.
  unfold Html.replace_charref. destruct g as [|c t]; [right; simpl; lia|].
  destruct (c =? 35)%N.
  - right. destruct (Html.invalid_charrefs_get _); [simpl; lia|].
    destruct (_ || _); [simpl; lia|].
    destruct (existsb _ _); simpl; lia.
  - destruct (Html.html5_get (c :: t)) as [v|] eqn:E.
    + right. apply html5_get_shorter in E.
      cbn [length] in *. unfold str, char in *. lia.
    + destruct (Html.longest_name _ _) as [v|] eqn:E'.
      * right. apply longest_name_shorter in E'.
        cbn [length] in *. unfold str, char in *. lia.
      * now left.
Qed.

Lemma match_charref_amp c r k : Html.match_charref (c :: r) = Some k -> c = 38%N.
Proof.
  unfold Html.match_charref. destruct (N.eqb_spec c 38); [auto|discriminate].
Qed.

(** [html.unescape] returns its argument or a shorter text. *)
Lemma unescape_fixed_or_shorter s :
  Html.unescape s = s \/ length (Html.unescape s) < length s.
Proof.
  unfold Html.unescape. destruct (negb (contains 38%N s)); [now left|].
  apply sub_fixed_or_shorter. intros c r k Hm m.
  apply match_charref_amp in Hm. subst c. unfold m. cbn [firstn tl].
  apply replace_charref_fixed_or_shorter.
Qed.

(** So does the removal of the tags. *)
Lemma strip_tags_fixed_or_shorter s :
  Re.sub Re.match_tag (fun _ => []) s = s \/
  length (Re.sub Re.match_tag (fun _ => []) s) < length s.
Proof.
  apply sub_fixed_or_shorter. intros c r k _ m. right. unfold m.
  cbn [firstn length]. lia.
Qed.

(** ** [strip_html] *)

Lemma strip_html_steps text :
  strip_html text =
  strip (collapse (Html.unescape (Re.sub Re.match_tag (fun _ => []) text))).
Proof. reflexivity. Qed.

Lemma strip_tags_in x s : In x (Re.sub Re.match_tag (fun _ => []) s) -> In x s.
Proof. apply sub_in. intros t []. Qed.

Lemma strip_html_collapsed text : collapsed (strip_html text) = true.
Proof. rewrite strip_html_steps. apply collapsed_strip, collapsed_collapse. Qed.

(** Without character references [strip_html] leaves no tag. *)
Lemma strip_html_no_tag text :
  ~ In 38%N text -> has_tag (strip_html text) = false.
Proof.
  intros Hamp. rewrite strip_html_steps.
  rewrite unescape_without_amp by (intros H; now apply strip_tags_in in H).
  destruct (has_tag (strip (collapse _))) eqn:H; [|reflexivity].
  apply has_tag_strip, collapse_no_new_tag in H.
  now rewrite strip_tags_no_tag in H.
Qed.

(** ** Tags and [truncate] *)

Lemma has_tag_in_gt s : has_tag s = true -> In 62%N s.
Proof.
  intros H. apply has_tag_iff in H as (b & x & r & -> & _ & Hin).
  apply in_or_app. right. right. now right.
Qed.

Lemma has_tag_before_tail p q :
  ~ In 62%N q -> has_tag (p ++ q) = true -> has_tag p = true.
Proof.
  intros Hq. induction p as [|c p IH].
  - intros H. apply has_tag_in_gt in H. contradiction.
  - cbn [app has_tag]. rewrite !orb_true_iff. intros [H|H]; [left|right; auto].
    apply starts_tag_iff in H as (x & r & E & Hx & Hin).
    injection E as -> E. apply starts_tag_iff.
    destruct p as [|x' p].
    + simpl in E. subst q. exfalso. apply Hq. now right.
    + injection E as -> <-. exists x, p. split; [reflexivity|].
      split; [exact Hx|]. apply in_app_or in Hin as [Hin|Hin]; tauto.
Qed.

Lemma item0_rsplit1_prefix sep s : exists t, s = item0 (rsplit1 sep s) ++ t.
Proof.
  unfold rsplit1. destruct (rfind sep s) as [i|].
  - exists (skipn i s). unfold item0, slice_to. simpl nth.
    now rewrite firstn_skipn.
  - exists []. unfold item0. simpl. now rewrite app_nil_r.
Qed.

Lemma truncate_no_new_tag text max_len :
  has_tag (truncate text max_len) = true -> has_tag text = true.
Proof.
  unfold truncate. destruct (length text <=? max_len); [auto|].
  intros H. apply has_tag_before_tail in H.
  2:{ vm_compute. intros [E|[E|[E|[]]]]; discriminate E. }
  destruct (item0_rsplit1_prefix SPACE (slice_to max_len text)) as [t Ht].
  rewrite <- (firstn_skipn max_len text). apply has_tag_app_l.
  unfold slice_to in Ht. rewrite Ht. now apply has_tag_app_l.
Qed.

(** ** Summaries *)

Lemma summary_of_entry e feed item :
  summary (article_of_entry e feed item) =
  truncate (strip_html (get_default (entry_summary item) [])) max_len_default.
Proof.
  unfold article_of_entry.
  now destruct (or_else (published_parsed item) (updated_parsed item)).
Qed.

(** C2 as stated fails: the tags are removed before the character
    references are decoded, so a summary that spells a tag with references
    comes out with that tag in it. *)
Lemma summary_with_decoded_tag :
  let item := {| entry_title := None; entry_link := None;
                 entry_summary := Some (lit "&lt;b&gt;");
                 published_parsed := None; updated_parsed := None |} in
  let e := sample_env (lit "nng") [item] in
  summary (article_of_entry e nng item) = lit "<b>" /\
  has_tag (summary (article_of_entry e nng item)) = true /\
  is_tag (lit "<b>") /\
  substring (lit "<b>") (summary (article_of_entry e nng item)).
Proof.
  split; [vm_compute; reflexivity|]. split; [vm_compute; reflexivity|]. split.
  - exists (lit "b"). split; [reflexivity|]. split; [discriminate|].
    intros [E|[]]. discriminate E.
  - exists [], []. vm_compute. reflexivity.
Qed.

(** Decoding does not always spell a tag: here a reference decodes to [<]
    and the summary has no tag. *)
Example summary_with_decoded_angle :
  let item := {| entry_title := None; entry_link := None;
                 entry_summary := Some (lit "<p>3 &lt; 4, Q&amp;A</p>");
                 published_parsed := None; updated_parsed := None |} in
  let e := sample_env (lit "nng") [item] in
  decodes_angle (lit "3 &lt; 4, Q&amp;A") = true /\
  summary (article_of_entry e nng item) = lit "3 < 4, Q&A" /\
  has_tag (summary (article_of_entry e nng item)) = false.
Proof. vm_compute. repeat split; reflexivity. Qed.

(** C2, amended: when decoding the character references of the raw summary
    without its tags spells no tag, the summary of the article record has
    no tag: none starts in it, and no substring of it is one. Decoding
    spells no tag when none of these references decodes to text that holds
    [<] or [>]. *)
Theorem summary_has_no_tag_unless_decoded
  (e : env) (feed : feed_config) (item : entry) :
  let text := Re.sub Re.match_tag (fun _ => [])
                (get_default (entry_summary item) []) in
  (decodes_angle text = false -> has_tag (Html.unescape text) = false) /\
  (has_tag (Html.unescape text) = false ->
   has_tag (summary (article_of_entry e feed item)) = false /\
   forall t, is_tag t -> ~ substring t (summary (article_of_entry e feed item))).
Proof.
  intros text. split.
  - intros Hd. destruct (has_tag (Html.unescape text)) eqn:H; [|reflexivity].
    apply unescape_no_new_tag in H; [|exact Hd].
    unfold text in H. now rewrite strip_tags_no_tag in H.
  - intros Hdec.
    assert (H : has_tag (summary (article_of_entry e feed item)) = false).
    { rewrite summary_of_entry.
      destruct (has_tag (truncate _ _)) eqn:H; [|reflexivity].
      apply truncate_no_new_tag in H. rewrite strip_html_steps in H.
      apply has_tag_strip, collapse_no_new_tag in H.
      fold text in H. congruence. }
    split; [exact H|]. intros t Ht Hsub.
    assert (H' : has_tag (summary (article_of_entry e feed item)) = true).
    { apply has_tag_substring. now exists t. }
    congruence.
Qed.

Lemma summary_has_no_tag_unless_decoded_witness :
  let item := {| entry_title := None; entry_link := None;
                 entry_summary :=
                   Some (lit "<p>Tom &amp; Jerry at AT&T, &copy; 2024 <b>&#8212;</b> new</p>");
                 published_parsed := None; updated_parsed := None |} in
  let e := sample_env (lit "nng") [item] in
  summary (article_of_entry e nng item) =
    lit "Tom & Jerry at AT&T, " ++ [169%N] ++ lit " 2024 " ++ [8212%N] ++ lit " new" /\
  has_tag (summary (article_of_entry e nng item)) = false /\
  forall t, is_tag t -> ~ substring t (summary (article_of_entry e nng item)).
Proof.
  intros item e. split; [vm_compute; reflexivity|].
  destruct (summary_has_no_tag_unless_decoded e nng item) as [H1 H2].
  apply H2, H1. vm_compute. reflexivity.
Defined.

(** ** Lengths *)

Lemma sub_length match_at repl :
  (forall t, t <> [] -> length (repl t) <= length t) ->
  forall s, length (Re.sub match_at repl s) <= length s.
Proof.
  intros Hrepl s. induction s as [s IH] using str_length_ind.
  destruct s as [|c r]; [simp sub; simpl; lia|].
  rewrite sub_cons. destruct (match_at (c :: r)) as [[|k]|].
  - simpl. specialize (IH r). simpl in IH. lia.
  - rewrite length_app.
    assert (H1 : length (repl (firstn (S k) (c :: r))) <= length (firstn (S k) (c :: r))).
    { apply Hrepl. discriminate. }
    assert (H2 : length (Re.sub match_at repl (skipn k r)) <= length (skipn k r)).
    { apply IH. simpl. rewrite length_skipn. lia. }
    rewrite length_firstn in H1. rewrite length_skipn in H2. simpl in *. lia.
  - simpl. specialize (IH r). simpl in IH. lia.
Qed.

Lemma html5_values_short :
  forallb (fun entry => length (snd entry) <=? 2) Html.html5 = true.
Proof. vm_compute. reflexivity. Qed.

Lemma html5_get_length s v : Html.html5_get s = Some v -> length v <= 2.
Proof.
  unfold Html.html5_get. intros H.
  destruct (find _ Html.html5) as [[k v']|] eqn:E; [|discriminate].
  injection H as <-. apply find_some in E as [E _].
  pose proof (proj1 (forallb_forall _ _) html5_values_short _ E) as Hv.
  simpl in Hv. now apply Nat.leb_le in Hv.
Qed.

Lemma longest_name_length fuel s v :
  s <> [] -> Html.longest_name fuel s = Some v -> length v <= S (length s).
Proof.
  intros Hs. induction fuel as [|n IH]; [discriminate|].
  cbn [Html.longest_name].
  destruct (Html.html5_get (firstn (S (S n)) s)) as [w|] eqn:E; [|exact IH].
  intros H. replace v with (w ++ skipn (S (S n)) s) by congruence.
  apply html5_get_length in E. rewrite length_app.
  assert (Hk : length (skipn (S (S n)) s) <= length s - 2).
  { rewrite length_skipn. lia. }
  assert (Hlen : 1 <= length s).
  { clear -Hs. destruct s; [contradiction|simpl; lia]. }
  unfold str, char in *. lia.
Qed.

Lemma replace_charref_length g :
  length (Html.replace_charref g) <= S (length g).
Proof.
  unfold Html.replace_charref. destruct g as [|c t]; [simpl; lia|].
  destruct (c =? 35)%N.
  - destruct (Html.invalid_charrefs_get _); [simpl; lia|].
    destruct (_ || _); [simpl; lia|].
    destruct (existsb _ _); simpl; lia.
  - destruct (Html.html5_get (c :: t)) as [v|] eqn:E.
    + apply html5_get_length in E. simpl. lia.
    + destruct (Html.longest_name _ _) as [v|] eqn:E'.
      * apply longest_name_length in E'; [exact E'|discriminate].
      * simpl. lia.
Qed.

Lemma unescape_length s : length (Html.unescape s) <= length s.
Proof.
  unfold Html.unescape. destruct (negb (contains 38%N s)); [lia|].
  apply sub_length. intros [|c t] Ht; [contradiction|].
  simpl tl. apply replace_charref_length.
Qed.

Lemma strip_length s : length (strip s) <= length s.
Proof.
  unfold strip, rstrip, lstrip.
  pose proof (rstrip_by_length isspace (lstrip_by isspace s)).
  pose proof (lstrip_by_length isspace s). lia.
Qed.

Lemma strip_html_length text : length (strip_html text) <= length text.
Proof.
  rewrite strip_html_steps.
  pose proof (strip_length
    (collapse (Html.unescape (Re.sub Re.match_tag (fun _ => []) text)))) as H1.
  assert (H2 : forall s, length (collapse s) <= length s).
  { apply sub_length. intros [|c t] Ht; [contradiction|simpl; lia]. }
  specialize (H2 (Html.unescape (Re.sub Re.match_tag (fun _ => []) text))).
  pose proof (unescape_length (Re.sub Re.match_tag (fun _ => []) text)) as H3.
  assert (H4 : length (Re.sub Re.match_tag (fun _ => []) text) <= length text).
  { apply sub_length. intros t _. simpl. lia. }
  lia.
Qed.

(** ** Idempotence *)

(** C3 as stated fails: [<b>] is a result of [strip_html], and stripping it
    again removes it; a decoded [&amp;lt;] is decoded once more. *)
Lemma strip_html_not_idempotent :
  strip_html (lit "&lt;b&gt;") = lit "<b>" /\
  strip_html (lit "<b>") = [] /\
  strip_html (strip_html (lit "&lt;b&gt;")) = [] /\
  strip_html (lit "&amp;lt;") = lit "&lt;" /\
  strip_html (strip_html (lit "&amp;lt;")) = lit "<".
Proof. vm_compute. repeat split; reflexivity. Qed.

(** A result of [strip_html] that holds no tag and that decoding leaves as
    it is, is a fixed point. *)
Lemma strip_html_fixed text :
  has_tag (strip_html text) = false ->
  Html.unescape (strip_html text) = strip_html text ->
  strip_html (strip_html text) = strip_html text.
Proof.
  intros Htag Hdec. rewrite (strip_html_steps (strip_html text)).
  rewrite strip_tags_fixed by exact Htag.
  rewrite Hdec.
  rewrite collapse_fixed by apply strip_html_collapsed.
  rewrite strip_html_steps. apply strip_strip.
Qed.

(** A text that [strip_html] returns unchanged holds no tag and nothing to
    decode: each step keeps the text or shortens it. *)
Lemma strip_html_fixed_point text :
  strip_html text = text ->
  has_tag text = false /\ Html.unescape text = text.
Proof.
  intros Hfix.
  pose proof (strip_length
    (collapse (Html.unescape (Re.sub Re.match_tag (fun _ => []) text)))) as H1.
  assert (H2 : length (collapse (Html.unescape (Re.sub Re.match_tag (fun _ => []) text)))
               <= length (Html.unescape (Re.sub Re.match_tag (fun _ => []) text))).
  { apply sub_length. intros [|c t] Ht; [contradiction|simpl; lia]. }
  pose proof (unescape_length (Re.sub Re.match_tag (fun _ => []) text)) as H3.
  assert (H0 : length (strip_html text) = length text) by now rewrite Hfix.
  rewrite strip_html_steps in H0.
  assert (Htags : Re.sub Re.match_tag (fun _ => []) text = text).
  { destruct (strip_tags_fixed_or_shorter text) as [E|E]; [exact E|].
    unfold str, char in *. lia. }
  rewrite Htags in *. split.
  - rewrite <- Htags. apply strip_tags_no_tag.
  - destruct (unescape_fixed_or_shorter text) as [E|E]; [exact E|].
    unfold str, char in *. lia.
Qed.

(** Texts without [&] are stripped to a fixed point. *)
Lemma strip_html_idempotent_without_amp (s : str) :
  ~ In 38%N s -> strip_html (strip_html s) = strip_html s.
Proof.
  intros Hamp.
  apply strip_html_fixed; [now apply strip_html_no_tag|].
  apply unescape_without_amp.
  rewrite strip_html_steps.
  rewrite unescape_without_amp by (intros H; now apply strip_tags_in in H).
  intros H.
  unfold strip, rstrip, lstrip in H.
  destruct (rstrip_by_prefix isspace (lstrip_by isspace
             (collapse (Re.sub Re.match_tag (fun _ => []) s)))) as [t Ht].
  destruct (lstrip_by_suffix isspace
             (collapse (Re.sub Re.match_tag (fun _ => []) s))) as [t' Ht'].
  assert (Hin : In 38%N (collapse (Re.sub Re.match_tag (fun _ => []) s))).
  { rewrite Ht'. apply in_or_app. right. rewrite Ht. apply in_or_app. now left. }
  apply sub_in in Hin; [|intros u [E|[]]; discriminate E].
  now apply strip_tags_in in Hin.
Qed.

(** C3, amended: a second pass of [strip_html] changes nothing exactly when
    the result of the first holds no tag and [html.unescape] leaves it as
    it is, that is, when it is stripped and unescaped indeed. *)
Theorem strip_html_idempotent_on_plain_results (s : str) :
  strip_html (strip_html s) = strip_html s <->
  has_tag (strip_html s) = false /\
  Html.unescape (strip_html s) = strip_html s.
Proof.
  split.
  - apply strip_html_fixed_point.
  - intros [Htag Hdec]. now apply strip_html_fixed.
Qed.

Lemma strip_html_idempotent_on_plain_results_witness :
  strip_html (lit " <p>AT&amp;T &amp;  <i>Tom & Jerry</i>&nbsp;&lt;3</p> ") =
    lit "AT&T & Tom & Jerry <3" /\
  strip_html (lit "AT&T & Tom & Jerry <3") = lit "AT&T & Tom & Jerry <3".
Proof.
  split; [vm_compute; reflexivity|].
  change (lit "AT&T & Tom & Jerry <3")
    with (strip_html (lit " <p>AT&amp;T &amp;  <i>Tom & Jerry</i>&nbsp;&lt;3</p> ")).
  apply (proj2 (strip_html_idempotent_on_plain_results
                  (lit " <p>AT&amp;T &amp;  <i>Tom & Jerry</i>&nbsp;&lt;3</p> "))).
  split; vm_compute; reflexivity.
Defined.

Example strip_html_twice :
  strip_html (lit " <p>Tom  <i>and</i> " ++ [9%N; 160%N] ++ lit "Jerry</p> ")
    = lit "Tom and Jerry" /\
  strip_html (lit "Tom and Jerry") = lit "Tom and Jerry".
Proof. vm_compute. split; reflexivity. Qed.

(** ** [html.escape] *)

Lemma replace_app c by_ s t :
  replace c by_ (s ++ t) = replace c by_ s ++ replace c by_ t.
Proof. apply flat_map_app. Qed.

Lemma escape_app s t : Html.escape (s ++ t) = Html.escape s ++ Html.escape t.
Proof. unfold Html.escape. now rewrite !replace_app. Qed.

Lemma escape_single c : Html.escape [c] = escape_char c.
Proof.
  unfold escape_char.
  destruct (N.eqb_spec c 38) as [->|H38]; [reflexivity|].
  destruct (N.eqb_spec c 60) as [->|H60]; [reflexivity|].
  destruct (N.eqb_spec c 62) as [->|H62]; [reflexivity|].
  destruct (N.eqb_spec c 34) as [->|H34]; [reflexivity|].
  destruct (N.eqb_spec c 39) as [->|H39]; [reflexivity|].
  unfold Html.escape, replace. cbn [flat_map app].
  apply N.eqb_neq in H38, H60, H62, H34, H39.
  rewrite H38. cbn [flat_map app]. rewrite H60. cbn [flat_map app].
  rewrite H62. cbn [flat_map app]. rewrite H34. cbn [flat_map app].
  now rewrite H39.
Qed.

Lemma escape_cons c s : Html.escape (c :: s) = escape_char c ++ Html.escape s.
Proof. now rewrite <- escape_single, <- escape_app. Qed.

Lemma escape_nil : Html.escape [] = [].
Proof. reflexivity. Qed.

Lemma inert_escape s : inert (Html.escape s) = true.
Proof.
  induction s as [|c s IH]; [reflexivity|].
  rewrite escape_cons. unfold escape_char.
  destruct (N.eqb_spec c 38) as [->|H38]; [exact IH|].
  destruct (N.eqb_spec c 60) as [->|H60]; [exact IH|].
  destruct (N.eqb_spec c 62) as [->|H62]; [exact IH|].
  destruct (N.eqb_spec c 34) as [->|H34]; [exact IH|].
  destruct (N.eqb_spec c 39) as [->|H39]; [exact IH|].
  cbn [app inert contains existsb].
  apply N.eqb_neq in H38, H60, H62, H34, H39.
  now rewrite H38, H60, H62, H34, H39, IH.
Qed.

(** ** Decoding escaped text *)

Lemma firstn_length_app {A} (l r : list A) : firstn (length l) (l ++ r) = l.
Proof. now rewrite firstn_app, firstn_all, Nat.sub_diag, app_nil_r. Qed.

Lemma skipn_length_app {A} (l r : list A) : skipn (length l) (l ++ r) = r.
Proof. now rewrite skipn_app, skipn_all, Nat.sub_diag. Qed.

(** A reference at the start of a text is replaced by its character. *)
Lemma decode_reference (ref : str) (c : char) (rest : str) :
  Html.match_charref (ref ++ rest) = Some (length ref) ->
  Html.replace_charref (tl ref) = [c] ->
  decode (ref ++ rest) = c :: decode rest.
Proof.
  intros Hm Hr. unfold decode. destruct ref as [|x ref].
  - destruct rest as [|y rest]; [discriminate Hm|].
    simpl in Hm. unfold Html.match_charref in Hm.
    destruct (y =? 38)%N; [|discriminate Hm].
    destruct (Html.alt_decimal rest); [discriminate Hm|].
    destruct (Html.alt_hex rest); [discriminate Hm|].
    destruct (Html.alt_name rest); discriminate Hm.
  - cbn [app] in *. rewrite sub_cons, Hm. cbn [length].
    change (x :: ref ++ rest) with ((x :: ref) ++ rest).
    change (S (length ref)) with (length (x :: ref)).
    rewrite firstn_length_app, skipn_length_app. now rewrite Hr.
Qed.

Lemma decode_other (c : char) (rest : str) :
  c <> 38%N -> decode (c :: rest) = c :: decode rest.
Proof.
  intros H. unfold decode. rewrite sub_cons. unfold Html.match_charref.
  apply N.eqb_neq in H. now rewrite H.
Qed.

Lemma decode_escape s : decode (Html.escape s) = s.
Proof.
  induction s as [|c s IH]; [unfold decode; now simp sub|].
  rewrite escape_cons. unfold escape_char.
  destruct (N.eqb_spec c 38) as [->|H38].
  { rewrite (decode_reference (lit "&amp;") 38%N); [now rewrite IH| |];
      vm_compute; reflexivity. }
  destruct (N.eqb_spec c 60) as [->|H60].
  { rewrite (decode_reference (lit "&lt;") 60%N); [now rewrite IH| |];
      vm_compute; reflexivity. }
  destruct (N.eqb_spec c 62) as [->|H62].
  { rewrite (decode_reference (lit "&gt;") 62%N); [now rewrite IH| |];
      vm_compute; reflexivity. }
  destruct (N.eqb_spec c 34) as [->|H34].
  { rewrite (decode_reference (lit "&quot;") 34%N); [now rewrite IH| |];
      vm_compute; reflexivity. }
  destruct (N.eqb_spec c 39) as [->|H39].
  { rewrite (decode_reference (lit "&#x27;") 39%N); [now rewrite IH| |];
      vm_compute; reflexivity. }
  cbn [app]. now rewrite decode_other, IH.
Qed.

Lemma decode_without_amp s : ~ In 38%N s -> decode s = s.
Proof.
  induction s as [|c s IH]; [unfold decode; now simp sub|].
  intros H. rewrite decode_other by (intros ->; apply H; now left).
  rewrite IH; [reflexivity|]. intros Hin. apply H. now right.
Qed.

(** [html.unescape] undoes [html.escape]. *)
Lemma unescape_escape s : Html.unescape (Html.escape s) = s.
Proof.
  unfold Html.unescape. fold (decode (Html.escape s)).
  destruct (contains 38%N (Html.escape s)) eqn:Hc; cbn [negb].
  - apply decode_escape.
  - apply contains_false in Hc. rewrite <- (decode_without_amp _ Hc).
    apply decode_escape.
Qed.

Lemma escape_injective s t : Html.escape s = Html.escape t -> s = t.
Proof.
  intros H. rewrite <- (unescape_escape s), <- (unescape_escape t). now f_equal.
Qed.

(** ** The page *)

Lemma fold_left_app_flat_map {A} (f : A -> str) (l : list A) (init : str) :
  fold_left (fun acc a => acc ++ f a) l init = init ++ flat_map f l.
Proof.
  revert init. induction l as [|a l IH]; intros init; simpl.
  - now rewrite app_nil_r.
  - now rewrite IH, <- app_assoc.
Qed.

Lemma card_not_empty a : card a <> [].
Proof.
  unfold card. intros H. apply app_eq_nil in H as [H _].
  vm_compute in H. discriminate H.
Qed.

(** C1: the document is a fixed head and foot around the cards of the
    articles, in order; in a card the source name, the link, the title and
    the summary occur only as [html.escape] of them, between texts that do
    not depend on these four; and escaped text is inert: it holds no [<],
    [>], double quote or apostrophe, each [&] in it begins a reference,
    and decoding the references gives the original text back. *)
Theorem generate_html_escapes_feed_text :
  (forall updated_at, exists head foot, forall articles, articles <> [] ->
     generate_html articles updated_at = head ++ flat_map card articles ++ foot) /\
  (forall sl co ic d, exists p1 p2 p3 p4 p5, forall t l sm nm k,
     card {| title := t; link := l; date := d; sort_key := k; summary := sm;
             source_name := nm; source_slug := sl; source_icon := ic;
             source_color := co |} =
     p1 ++ Html.escape nm ++ p2 ++ Html.escape l ++ p3 ++ Html.escape t
     ++ p4 ++ Html.escape sm ++ p5) /\
  (forall s, inert (Html.escape s) = true /\ Html.unescape (Html.escape s) = s).
Proof.
  split; [|split].
  - intros updated_at. eexists. exists page_foot. intros articles Hne.
    unfold generate_html, page.
    rewrite (fold_left_app_flat_map card). cbn [app].
    destruct articles as [|a l]; [contradiction|].
    cbn [flat_map]. destruct (card a ++ flat_map card l) eqn:E; [|reflexivity].
    apply app_eq_nil in E as [E _]. now apply card_not_empty in E.
  - intros sl co ic d. unfold card.
    cbn [title link date summary source_name source_slug source_icon source_color].
    match goal with
    | |- exists p1 p2 p3 p4 p5, forall t l sm nm k,
           ?a0 ++ ?x1 ++ ?a1 ++ ?x2 ++ ?a2 ++ ?x3 ++ ?a3 ++ ?x4 ++ ?a4
           ++ Html.escape nm ++ ?b0 ++ ?y1 ++ ?b1 ++ ?y2 ++ ?b2
           ++ Html.escape l ++ ?c0 ++ Html.escape t ++ ?d0
           ++ Html.escape sm ++ ?e0 = _ =>
        exists (a0 ++ x1 ++ a1 ++ x2 ++ a2 ++ x3 ++ a3 ++ x4 ++ a4),
               (b0 ++ y1 ++ b1 ++ y2 ++ b2), c0, d0, e0
    end.
    intros t l sm nm k. rewrite <- !app_assoc. reflexivity.
  - intros s. split; [apply inert_escape|apply unescape_escape].
Qed.

(** The title of the specification's example in a page. *)
Example script_title_is_inert :
  let a := article_of_entry
             (sample_env (lit "nng") [])
             nng
             {| entry_title := Some (lit "<script>alert(1)</script>");
                entry_link := Some (lit "https://example.org/?a=1&b='2'");
                entry_summary := Some (lit "<p>Plain</p>");
                published_parsed := dated 2024 2 9;
                updated_parsed := None |} in
  let document := generate_html [a] (lit "2024-03-01 12:00") in
  occurs (lit "<script>alert(1)") document = false /\
  occurs (lit "&lt;script&gt;alert(1)&lt;/script&gt;</a></h2>") document = true /\
  occurs (tpl "<a href=`https://example.org/?a=1&amp;b=&#x27;2&#x27;` target")
    document = true.
Proof. vm_compute. repeat split; reflexivity. Qed.

(** * Further properties of the pipeline *)

(** ** Dates and recency keys *)

Lemma days_before_year_step y :
  Datetime.days_before_year (y + 1) =
  (Datetime.days_before_year y + (if Datetime.is_leap y then 366 else 365))%Z.
Proof.
  unfold Datetime.days_before_year, Datetime.is_leap.
  replace (y + 1 - 1)%Z with y by lia.
  destruct (Z.eqb_spec (y mod 4) 0), (Z.eqb_spec (y mod 100) 0),
    (Z.eqb_spec (y mod 400) 0); cbn [negb andb orb];
    Z.to_euclidean_division_equations; lia.
Qed.

Lemma days_before_year_mono y1 y2 :
  (y1 < y2)%Z ->
  (Datetime.days_before_year y1 + (if Datetime.is_leap y1 then 366 else 365)
   <= Datetime.days_before_year y2)%Z.
Proof.
  intros H. rewrite <- days_before_year_step.
  unfold Datetime.days_before_year.
  Z.to_euclidean_division_equations; lia.
Qed.

Ltac table_lookup :=
  repeat match goal with
  | |- context [nth (Z.to_nat ?k) ?t ?d] =>
      let v := eval vm_compute in (nth (Z.to_nat k) t d) in
      change (nth (Z.to_nat k) t d) with v
  | |- context [(?a <? ?b)%Z] =>
      let v := eval vm_compute in (a <? b)%Z in
      change (a <? b)%Z with v
  | H : context [(?a =? ?b)%Z] |- _ =>
      let v := eval vm_compute in (a =? b)%Z in
      change (a =? b)%Z with v in H
  end;
  cbn [andb orb negb] in *.

Lemma month_cases m :
  (1 <= m <= 12)%Z ->
  m = 1%Z \/ m = 2%Z \/ m = 3%Z \/ m = 4%Z \/ m = 5%Z \/ m = 6%Z \/
  m = 7%Z \/ m = 8%Z \/ m = 9%Z \/ m = 10%Z \/ m = 11%Z \/ m = 12%Z.
Proof. lia. Qed.

(** The day of the year of a valid date lies within the year. *)
Lemma day_of_year_bounds y m d :
  (1 <= m <= 12)%Z -> (1 <= d <= days_in_month y m)%Z ->
  (1 <= Datetime.days_before_month y m + d
   <= if Datetime.is_leap y then 366 else 365)%Z.
Proof.
  intros Hm Hd. unfold Datetime.days_before_month, days_in_month in *.
  remember (Datetime.is_leap y) as lp eqn:E. clear E.
  destruct (month_cases m Hm) as [->|[->|[->|[->|[->|[->|[->|[->|[->|[->|[->| ->]]]]]]]]]]];
    table_lookup; destruct lp; lia.
Qed.

Lemma day_of_year_mono y m1 d1 m2 d2 :
  (1 <= m1 <= 12)%Z -> (1 <= m2 <= 12)%Z ->
  (1 <= d1 <= days_in_month y m1)%Z -> (1 <= d2 <= days_in_month y m2)%Z ->
  (m1 < m2)%Z ->
  (Datetime.days_before_month y m1 + d1 < Datetime.days_before_month y m2 + d2)%Z.
Proof.
  intros Hm1 Hm2 Hd1 Hd2 Hlt. unfold Datetime.days_before_month, days_in_month in *.
  remember (Datetime.is_leap y) as lp eqn:E. clear E.
  destruct (month_cases m1 Hm1) as [->|[->|[->|[->|[->|[->|[->|[->|[->|[->|[->| ->]]]]]]]]]]];
    destruct (month_cases m2 Hm2) as [->|[->|[->|[->|[->|[->|[->|[->|[->|[->|[->| ->]]]]]]]]]]];
    try lia; table_lookup; destruct lp; lia.
Qed.

(** Later dates are more seconds from the epoch. *)
Lemma seconds_since_epoch_mono a b :
  valid_datetime a -> valid_datetime b -> earlier a b ->
  (Datetime.seconds_since_epoch a < Datetime.seconds_since_epoch b)%Z.
Proof.
  destruct a as [y1 m1 d1 h1 mi1 s1], b as [y2 m2 d2 h2 mi2 s2].
  unfold valid_datetime, earlier, Datetime.seconds_since_epoch, Datetime.toordinal.
  cbn [Datetime.year Datetime.month Datetime.day Datetime.hour Datetime.minute
       Datetime.second].
  intros (Hm1 & Hd1 & Hh1 & Hmi1 & Hs1) (Hm2 & Hd2 & Hh2 & Hmi2 & Hs2) He.
  pose proof (day_of_year_bounds y1 m1 d1 Hm1 Hd1) as B1.
  pose proof (day_of_year_bounds y2 m2 d2 Hm2 Hd2) as B2.
  destruct He as [Hy|[-> He]].
  - pose proof (days_before_year_mono y1 y2 Hy). lia.
  - destruct He as [Hm|[-> He]].
    + pose proof (day_of_year_mono y2 m1 d1 m2 d2 Hm1 Hm2 Hd1 Hd2 Hm). lia.
    + lia.
Qed.

Lemma constant_offset_keeps_order (offset : Z -> Z) a b :
  (forall u v, offset u = offset v) ->
  valid_datetime a -> valid_datetime b -> earlier a b ->
  (Datetime.timestamp offset a < Datetime.timestamp offset b)%Z.
Proof.
  intros Hc Ha Hb He. unfold Datetime.timestamp.
  rewrite (Hc (Datetime.seconds_since_epoch a) (Datetime.seconds_since_epoch b)).
  pose proof (seconds_since_epoch_mono a b Ha Hb He). lia.
Qed.

Lemma published_sort_key e feed item p :
  published_parsed item = Some p ->
  sort_key (article_of_entry e feed item) = Datetime.timestamp (utcoffset e) p /\
  date (article_of_entry e feed item) = Datetime.strftime_Ymd p.
Proof. intros H. unfold article_of_entry. rewrite H. split; reflexivity. Qed.

(** X1: on a host with a constant offset from UTC, of two entries with
    valid published dates the one published later gets the greater recency
    key, and its record comes first in the sorted sequence. *)
Theorem later_published_entry_sorts_first
  (e : env) (feeds : list feed_config) (feed1 feed2 : feed_config)
  (item1 item2 : entry) (p1 p2 : Datetime.datetime) :
  (forall u v, utcoffset e u = utcoffset e v) ->
  published_parsed item1 = Some p1 -> published_parsed item2 = Some p2 ->
  valid_datetime p1 -> valid_datetime p2 -> earlier p1 p2 ->
  In (article_of_entry e feed1 item1) (concatenated e feeds) ->
  In (article_of_entry e feed2 item2) (concatenated e feeds) ->
  (sort_key (article_of_entry e feed1 item1)
   < sort_key (article_of_entry e feed2 item2))%Z /\
  precedes (article_of_entry e feed2 item2) (article_of_entry e feed1 item1)
    (sort_articles (concatenated e feeds)) /\
  ~ precedes (article_of_entry e feed1 item1) (article_of_entry e feed2 item2)
      (sort_articles (concatenated e feeds)).
Proof.
  intros Hc H1 H2 Hv1 Hv2 He Hin1 Hin2.
  assert (Hlt : (sort_key (article_of_entry e feed1 item1)
                 < sort_key (article_of_entry e feed2 item2))%Z).
  { destruct (published_sort_key e feed1 item1 p1 H1) as [-> _].
    destruct (published_sort_key e feed2 item2 p2 H2) as [-> _].
    now apply constant_offset_keeps_order. }
  split; [exact Hlt|].
  now apply sort_reverse_larger_first.
Qed.

Lemma later_published_entry_sorts_first_witness :
  let old := sample_entry (lit "old") (dated 2024 2 29) in
  let new := sample_entry (lit "new") (dated 2024 3 1) in
  let e := sample_env (lit "nng") [old; new] in
  (sort_key (article_of_entry e nng old) < sort_key (article_of_entry e nng new))%Z /\
  precedes (article_of_entry e nng new) (article_of_entry e nng old)
    (sort_articles (concatenated e FEEDS)) /\
  ~ precedes (article_of_entry e nng old) (article_of_entry e nng new)
      (sort_articles (concatenated e FEEDS)).
Proof.
  apply (later_published_entry_sorts_first
           (sample_env (lit "nng")
              [sample_entry (lit "old") (dated 2024 2 29);
               sample_entry (lit "new") (dated 2024 3 1)])
           FEEDS nng nng
           (sample_entry (lit "old") (dated 2024 2 29))
           (sample_entry (lit "new") (dated 2024 3 1))
           {| Datetime.year := 2024; Datetime.month := 2; Datetime.day := 29;
              Datetime.hour := 0; Datetime.minute := 0; Datetime.second := 0 |}
           {| Datetime.year := 2024; Datetime.month := 3; Datetime.day := 1;
              Datetime.hour := 0; Datetime.minute := 0; Datetime.second := 0 |}).
  - reflexivity.
  - reflexivity.
  - reflexivity.
  - vm_compute. repeat split; discriminate.
  - vm_compute. repeat split; discriminate.
  - vm_compute. right. split; [reflexivity|]. left. reflexivity.
  - vm_compute. left. reflexivity.
  - vm_compute. right. left. reflexivity.
Defined.

(** ** The shape of summaries *)

Lemma length_item0_rsplit1 sep s : length (item0 (rsplit1 sep s)) <= length s.
Proof.
  destruct (item0_rsplit1_prefix sep s) as [t Ht].
  rewrite Ht at 2. rewrite length_app. lia.
Qed.

Lemma item0_rsplit1_firstn sep s :
  exists k, k <= length s /\ item0 (rsplit1 sep s) = firstn k s.
Proof.
  unfold rsplit1. destruct (rfind sep s) as [i|] eqn:Hi.
  - exists i. apply rfind_lt in Hi. split; [lia|reflexivity].
  - exists (length s). split; [lia|]. unfold item0. simpl. now rewrite firstn_all.
Qed.

Lemma truncate_length text max_len :
  length (truncate text max_len) <= max_len + 3.
Proof.
  destruct (Nat.le_gt_cases (length text) max_len) as [H|H].
  - rewrite truncate_short by exact H. lia.
  - rewrite truncate_long by exact H.
    rewrite length_app, length_lit_ellipsis.
    pose proof (length_item0_rsplit1 SPACE (slice_to max_len text)) as Hp.
    assert (Hs : length (slice_to max_len text) <= max_len).
    { unfold slice_to. rewrite length_firstn. lia. }
    lia.
Qed.

(** X2: [truncate] returns the text itself when it has at most [max_len]
    characters, and otherwise a prefix of at most [max_len] characters of
    it followed by the ellipsis; never more than [max_len + 3] characters. *)
Theorem truncate_returns_text_or_cut_prefix (text : str) (max_len : nat) :
  ((length text <= max_len /\ truncate text max_len = text) \/
   (max_len < length text /\
    exists k, k <= max_len /\
      truncate text max_len = firstn k text ++ lit "...")) /\
  length (truncate text max_len) <= max_len + 3.
Proof.
  destruct (Nat.le_gt_cases (length text) max_len) as [H|H].
  - rewrite truncate_short by exact H. split; [left; auto|lia].
  - split; [|apply truncate_length]. rewrite truncate_long by exact H.
    destruct (item0_rsplit1_firstn SPACE (slice_to max_len text)) as (k & Hk & ->).
    unfold slice_to in *. rewrite length_firstn in Hk. rewrite firstn_firstn.
    replace (Nat.min k max_len) with k by lia.
    right. split; [exact H|]. exists k. split; [lia|reflexivity].
Qed.

Lemma lstrip_by_same_length p s :
  length (lstrip_by p s) = length s -> lstrip_by p s = s.
Proof.
  intros H. destruct (lstrip_by_suffix p s) as [t Ht].
  rewrite Ht in H at 2. rewrite length_app in H.
  destruct t; [simpl in Ht; congruence|simpl in H; lia].
Qed.

(** A stripped text neither begins nor ends with whitespace. *)
Lemma strip_fixed_ends s :
  strip s = s -> lstrip s = s /\ lstrip_by isspace (rev s) = rev s.
Proof.
  intros H.
  assert (Hl : lstrip s = s).
  { apply lstrip_by_same_length. apply (f_equal (@length char)) in H.
    pose proof (rstrip_by_length isspace (lstrip s)) as H1.
    pose proof (lstrip_by_length isspace s) as H2.
    unfold strip, rstrip, lstrip in *. lia. }
  split; [exact Hl|].
  unfold strip in H. rewrite Hl in H. unfold rstrip, rstrip_by in H.
  apply (f_equal (@rev char)) in H. now rewrite rev_involutive in H.
Qed.

Lemma strip_of_ends s :
  lstrip s = s -> lstrip_by isspace (rev s) = rev s -> strip s = s.
Proof.
  intros H1 H2. unfold strip, rstrip, rstrip_by. rewrite H1, H2.
  apply rev_involutive.
Qed.

Lemma collapsed_app p q :
  collapsed p = true -> collapsed q = true ->
  match q with
  | [] => True
  | c :: _ => isspace c = false
  end ->
  collapsed (p ++ q) = true.
Proof.
  intros Hp Hq Hhead. induction p as [|c p IH]; [exact Hq|].
  cbn [app collapsed] in *. destruct (isspace c); [|now apply IH].
  apply andb_prop in Hp as [Hp Hr]. apply andb_prop in Hp as [Hc Hnext].
  rewrite Hc, (IH Hr). destruct p as [|c' p].
  - simpl. destruct q as [|c' q]; [reflexivity|]. now rewrite Hhead.
  - simpl in *. now rewrite Hnext.
Qed.

Lemma collapsed_whitespace_is_space s c :
  collapsed s = true -> In c s -> isspace c = true -> c = SPACE.
Proof.
  induction s as [|x s IH]; [contradiction|].
  cbn [collapsed]. intros H [->|Hin] Hc.
  - rewrite Hc in H. apply andb_prop in H as [H _]. apply andb_prop in H as [H _].
    now apply N.eqb_eq in H.
  - apply IH; [|exact Hin|exact Hc].
    destruct (isspace x); [|exact H]. now apply andb_prop in H as [_ H].
Qed.

Lemma collapsed_after_space s i c c' :
  collapsed s = true ->
  nth_error s i = Some c -> isspace c = true ->
  nth_error s (S i) = Some c' -> isspace c' = false.
Proof.
  revert i. induction s as [|x s IH]; intros i H Hi Hc Hn.
  - destruct i; discriminate.
  - cbn [collapsed] in H. destruct i as [|i].
    + injection Hi as ->. rewrite Hc in H.
      apply andb_prop in H as [H _]. apply andb_prop in H as [_ H].
      simpl in Hn. destruct s as [|y s]; [discriminate|].
      injection Hn as ->. now apply negb_true_iff in H.
    + simpl in Hi, Hn. apply (IH i); try assumption.
      destruct (isspace x); [|exact H]. now apply andb_prop in H as [_ H].
Qed.

Lemma truncate_strip text max_len :
  strip text = text -> strip (truncate text max_len) = truncate text max_len.
Proof.
  intros Hs. unfold truncate. destruct (length text <=? max_len); [exact Hs|].
  destruct (item0_rsplit1_firstn SPACE (slice_to max_len text)) as (k & _ & ->).
  unfold slice_to. rewrite firstn_firstn.
  destruct (strip_fixed_ends text Hs) as [Hl _].
  apply strip_of_ends.
  - apply lstrip_by_fixed.
    pose proof (lstrip_by_head isspace text) as Hh. fold (lstrip text) in Hh.
    rewrite Hl in Hh.
    destruct (Nat.min k max_len) as [|n]; [reflexivity|].
    destruct text as [|c text]; [reflexivity|exact Hh].
  - rewrite rev_app_distr. reflexivity.
Qed.

Lemma truncate_collapsed text max_len :
  collapsed text = true -> collapsed (truncate text max_len) = true.
Proof.
  intros Hc. unfold truncate. destruct (length text <=? max_len); [exact Hc|].
  destruct (item0_rsplit1_prefix SPACE (slice_to max_len text)) as [t Ht].
  apply collapsed_app; [|reflexivity|reflexivity].
  rewrite <- (firstn_skipn max_len text) in Hc. apply collapsed_prefix in Hc.
  unfold slice_to in Ht. rewrite Ht in Hc. now apply collapsed_prefix in Hc.
Qed.

(** X3: the summary of every article record has at most 203 characters,
    holds no whitespace but single spaces between other characters, and
    neither begins nor ends with whitespace. *)
Theorem summaries_are_short_and_single_spaced
  (e : env) (feed : feed_config) (item : entry) :
  length (summary (article_of_entry e feed item)) <= 203 /\
  collapsed (summary (article_of_entry e feed item)) = true /\
  strip (summary (article_of_entry e feed item)) =
    summary (article_of_entry e feed item).
Proof.
  rewrite summary_of_entry. split; [|split].
  - apply (truncate_length _ 200).
  - apply truncate_collapsed, strip_html_collapsed.
  - apply truncate_strip. rewrite strip_html_steps. apply strip_strip.
Qed.

(** X4: when the stripped text is longer than 200 characters, the summary
    is a non-empty prefix of it followed by the ellipsis; the prefix ends
    with a character that is not whitespace, and it ends just before a
    space of the text unless the first 200 characters hold no space, when
    it is these 200 characters. *)
Theorem long_summary_is_cut_after_a_word (raw : str) :
  200 < length (strip_html raw) ->
  exists k,
    1 <= k <= 200 /\
    truncate (strip_html raw) max_len_default =
      firstn k (strip_html raw) ++ lit "..." /\
    (exists c, nth_error (strip_html raw) (k - 1) = Some c /\ isspace c = false) /\
    (nth_error (strip_html raw) k = Some SPACE \/
     k = 200 /\ ~ In SPACE (firstn 200 (strip_html raw))).
Proof.
  set (t := strip_html raw). intros Hlen.
  assert (Hcol : collapsed t = true) by apply strip_html_collapsed.
  assert (Hstrip : strip t = t).
  { unfold t. rewrite strip_html_steps. apply strip_strip. }
  destruct (strip_fixed_ends t Hstrip) as [Hl _].
  pose proof (lstrip_by_head isspace t) as Hhead. fold (lstrip t) in Hhead.
  rewrite Hl in Hhead.
  assert (Hnth : forall i, i < length t -> exists c, nth_error t i = Some c).
  { intros i Hi. destruct (nth_error t i) as [c|] eqn:E; [now exists c|].
    apply nth_error_None in E. lia. }
  unfold max_len_default.
  destruct (rfind SPACE (slice_to 200 t)) as [k|] eqn:Hk.
  - pose proof (rfind_lt _ _ _ Hk) as Hk200.
    pose proof (rfind_Some _ _ _ Hk) as [Hat _].
    unfold slice_to in Hk200, Hat. rewrite length_firstn in Hk200.
    rewrite nth_error_firstn in Hat.
    destruct (Nat.ltb_spec k 200) as [_|]; [|lia].
    assert (Hk1 : 1 <= k).
    { destruct k as [|k]; [|lia]. destruct t as [|c0 t']; [discriminate Hat|].
      injection Hat as ->. discriminate Hhead. }
    exists k. split; [lia|]. split.
    + exact (truncate_at_last_space t 200 k Hlen Hk).
    + split; [|now left].
      destruct (Hnth (k - 1)) as [c Hc]; [lia|]. exists c. split; [exact Hc|].
      destruct (isspace c) eqn:Hsp; [|reflexivity].
      assert (E : isspace SPACE = false).
      { apply (collapsed_after_space t (k - 1) c SPACE Hcol Hc Hsp).
        now replace (S (k - 1)) with k by lia. }
      discriminate E.
  - exists 200. split; [lia|]. split.
    + rewrite truncate_long by exact Hlen. unfold rsplit1. now rewrite Hk.
    + apply rfind_None in Hk. split; [|right; split; [reflexivity|exact Hk]].
      destruct (Hnth 199) as [c Hc]; [lia|]. exists c. split; [exact Hc|].
      destruct (isspace c) eqn:Hsp; [|reflexivity].
      exfalso. apply Hk.
      assert (c = SPACE).
      { apply (collapsed_whitespace_is_space t c Hcol); [|exact Hsp].
        now apply nth_error_In in Hc. }
      subst c. unfold slice_to.
      assert (Hin : nth_error (firstn 200 t) 199 = Some SPACE).
      { rewrite nth_error_firstn. exact Hc. }
      now apply nth_error_In in Hin.
Qed.

Lemma long_summary_is_cut_after_a_word_witness :
  exists k,
    1 <= k <= 200 /\
    truncate (strip_html (concat (repeat (lit "<b>word</b> ") 60))) max_len_default =
      firstn k (strip_html (concat (repeat (lit "<b>word</b> ") 60))) ++ lit "..." /\
    (exists c,
       nth_error (strip_html (concat (repeat (lit "<b>word</b> ") 60))) (k - 1)
       = Some c /\ isspace c = false) /\
    (nth_error (strip_html (concat (repeat (lit "<b>word</b> ") 60))) k = Some SPACE \/
     k = 200 /\
     ~ In SPACE (firstn 200 (strip_html (concat (repeat (lit "<b>word</b> ") 60))))).
Proof.
  apply (long_summary_is_cut_after_a_word (concat (repeat (lit "<b>word</b> ") 60))).
  vm_compute. lia.
Defined.

(** X5: [strip_html] returns unchanged every text that holds no tag and no
    [&], whose whitespace is single spaces only, and that neither begins
    nor ends with whitespace. *)
Theorem strip_html_keeps_plain_text (text : str) :
  has_tag text = false -> ~ In 38%N text ->
  collapsed text = true -> strip text = text ->
  strip_html text = text.
Proof.
  intros Htag Hamp Hcol Hstrip. rewrite strip_html_steps.
  rewrite strip_tags_fixed by exact Htag.
  rewrite unescape_without_amp by exact Hamp.
  now rewrite collapse_fixed.
Qed.

Lemma strip_html_keeps_plain_text_witness :
  strip_html (lit "5 > 4 and 3 < 4, said Tom") = lit "5 > 4 and 3 < 4, said Tom".
Proof.
  apply (strip_html_keeps_plain_text (lit "5 > 4 and 3 < 4, said Tom")).
  - vm_compute. reflexivity.
  - vm_compute. intros H.
    repeat (destruct H as [H|H]; [discriminate H|]). exact H.
  - vm_compute. reflexivity.
  - vm_compute. reflexivity.
Defined.

(** ** Lengths of summaries *)

(** X6: [strip_html] never returns a text longer than its argument:
    removing tags, decoding references, collapsing whitespace and
    stripping each keep or reduce the length. *)
Theorem strip_html_never_lengthens (text : str) :
  length (Html.unescape text) <= length text /\
  length (strip_html text) <= length text.
Proof. split; [apply unescape_length|apply strip_html_length]. Qed.

(** X7: a raw summary of at most 200 characters is never truncated: the
    summary of the record is the stripped text, without ellipsis. *)
Theorem short_raw_summary_is_not_truncated
  (e : env) (feed : feed_config) (item : entry) :
  length (get_default (entry_summary item) []) <= 200 ->
  summary (article_of_entry e feed item) =
    strip_html (get_default (entry_summary item) []).
Proof.
  intros H. rewrite summary_of_entry. apply truncate_short.
  pose proof (strip_html_length (get_default (entry_summary item) [])).
  unfold max_len_default. lia.
Qed.

Lemma short_raw_summary_is_not_truncated_witness :
  let item := sample_entry (lit "one") None in
  let e := sample_env (lit "nng") [item] in
  summary (article_of_entry e nng item) =
    strip_html (get_default (entry_summary item) []).
Proof.
  apply (short_raw_summary_is_not_truncated
           (sample_env (lit "nng") [sample_entry (lit "one") None]) nng
           (sample_entry (lit "one") None)).
  vm_compute. lia.
Defined.

(** ** Records *)

(** X8: when [fetch_feed] returns, it returns at most [max_items]
    articles, and they are the records of the feed's first entries, in the
    feed's order; and it returns unless one of these entries makes it
    raise. *)
Theorem fetch_feed_takes_first_max_items
  (e : env) (feed : feed_config) (w : world) :
  (forall articles, fst (fetch_feed e feed w) = Returned articles ->
     length articles <= max_items feed /\
     forall entries, fetch_and_parse e feed = Parsed entries ->
       articles = map (article_of_entry e feed) (firstn (max_items feed) entries)) /\
  (feed_exception e feed = None ->
     fst (fetch_feed e feed w) = Returned (feed_articles e feed)) /\
  (forall exc, feed_exception e feed = Some exc ->
     fst (fetch_feed e feed w) = Raises exc).
Proof.
  rewrite fetch_feed_run. cbn [fst]. split; [|split].
  - intros articles. destruct (feed_exception e feed) as [exc|]; [discriminate|].
    intros H. replace articles with (feed_articles e feed) by congruence.
    unfold feed_articles.
    destruct (fetch_and_parse e feed) as [exc|entries].
    + split; [simpl; lia|discriminate].
    + split; [rewrite length_map, length_firstn; lia|].
      intros entries' H'. congruence.
  - now intros ->.
  - now intros exc ->.
Qed.

Lemma feed_articles_source e feed a :
  In a (feed_articles e feed) ->
  source_slug a = slug feed /\ source_name a = name feed /\
  source_icon a = icon feed /\ source_color a = color feed /\
  exists item, a = article_of_entry e feed item.
Proof.
  unfold feed_articles.
  destruct (fetch_and_parse e feed) as [exc|entries]; [contradiction|].
  intros Ha. apply in_map_iff in Ha as (item & <- & _).
  split; [|split; [|split; [|split]]]; try (now exists item);
    unfold article_of_entry; now destruct (or_else _ _).
Qed.

Lemma FEEDS_slugs_differ :
  forall f g, In f FEEDS -> In g FEEDS -> slug f = slug g -> f = g.
Proof.
  intros f g Hf Hg. unfold FEEDS in Hf, Hg.
  repeat (destruct Hf as [<-|Hf]); try contradiction;
    repeat (destruct Hg as [<-|Hg]); try contradiction;
    intros H; try reflexivity; vm_compute in H; discriminate H.
Qed.

(** X10: every aggregated article carries the slug, name, icon and colour
    of a feed of the registry, and of one only: no other feed has its
    slug. *)
Theorem aggregated_articles_belong_to_one_feed (e : env) :
  Forall (fun a => exists feed,
            In feed FEEDS /\
            source_slug a = slug feed /\ source_name a = name feed /\
            source_icon a = icon feed /\ source_color a = color feed /\
            forall other, In other FEEDS -> slug other = source_slug a ->
                          other = feed)
         (concatenated e FEEDS).
Proof.
  apply Forall_forall. intros a Ha. unfold concatenated in Ha.
  apply in_flat_map in Ha as (feed & Hfeed & Ha). exists feed.
  apply feed_articles_source in Ha as (Hs & Hn & Hi & Hc & _).
  repeat (split; [assumption|]).
  intros other Ho Hsl. apply FEEDS_slugs_differ; [exact Ho|exact Hfeed|].
  congruence.
Qed.

(** ** Runs *)

Lemma length_concatenated e feeds :
  length (concatenated e feeds) =
  list_sum (map (fun feed => length (feed_articles e feed)) feeds).
Proof.
  induction feeds as [|f r IH]; [reflexivity|].
  unfold concatenated in *. simpl. now rewrite length_app, IH.
Qed.

Lemma length_feed_articles e feed :
  length (feed_articles e feed) <= max_items feed.
Proof.
  unfold feed_articles. destruct (fetch_and_parse e feed); [simpl; lia|].
  rewrite length_map, length_firstn. lia.
Qed.

Lemma length_concatenated_bound e feeds :
  length (concatenated e feeds) <= list_sum (map max_items feeds).
Proof.
  rewrite length_concatenated. induction feeds as [|f r IH]; [simpl; lia|].
  simpl. pose proof (length_feed_articles e f). lia.
Qed.

(** X11: sorting keeps every article, so a page holds as many cards as
    the feeds delivered articles, at most [max_items] for each feed and at
    most 30 for the registry. *)
Theorem page_holds_at_most_30_articles (e : env) (feeds : list feed_config) :
  length (sort_articles (concatenated e feeds)) =
    list_sum (map (fun feed => length (feed_articles e feed)) feeds) /\
  length (sort_articles (concatenated e feeds)) <= list_sum (map max_items feeds) /\
  length (sort_articles (concatenated e FEEDS)) <= 30.
Proof.
  assert (H : forall l, length (sort_articles l) = length l).
  { intros l. apply Permutation_length, sort_reverse_perm. }
  rewrite !H. split; [apply length_concatenated|].
  split; [apply length_concatenated_bound|].
  apply (length_concatenated_bound e FEEDS).
Qed.

Lemma concatenated_nil e feeds :
  concatenated e feeds = [] <->
  forall feed, In feed feeds -> feed_articles e feed = [].
Proof.
  unfold concatenated. induction feeds as [|f r IH]; simpl.
  - split; [intros _ ? []|reflexivity].
  - split.
    + intros H. apply app_eq_nil in H as [Hf Hr].
      intros feed [<-|Hin]; [exact Hf|]. now apply (proj1 IH).
    + intros H. rewrite (H f) by now left. apply IH. intros feed Hin.
      apply H. now right.
Qed.

Lemma feed_articles_nil e feed :
  0 < max_items feed ->
  (feed_articles e feed = [] <->
   (exists exc, fetch_and_parse e feed = Raised exc) \/
   fetch_and_parse e feed = Parsed []).
Proof.
  intros Hmax. unfold feed_articles.
  destruct (fetch_and_parse e feed) as [exc|entries].
  - split; [intros _; left; now exists exc|reflexivity].
  - destruct entries as [|x l].
    + split; [now right|]. intros _. now rewrite firstn_nil.
    + split.
      * destruct (max_items feed); [lia|discriminate].
      * intros [[exc H]|H]; discriminate H.
Qed.

Lemma FEEDS_max_items_positive :
  forall feed, In feed FEEDS -> 0 < max_items feed.
Proof.
  intros feed H. unfold FEEDS in H.
  repeat (destruct H as [<-|H]; [simpl; lia|]). contradiction.
Qed.

Lemma main_exit_status e w :
  fst (main e w) =
  match aborting e FEEDS, concatenated e FEEDS with
  | None, _ :: _ => 0%Z
  | _, _ => 1%Z
  end.
Proof.
  rewrite main_run.
  destruct (aborting e FEEDS); [reflexivity|].
  now destruct (concatenated e FEEDS).
Qed.

Lemma first_exception_Some e entries :
  (exists exc, first_exception e entries = Some exc) <->
  exists item exc, In item entries /\ entry_exception e item = Some exc.
Proof.
  induction entries as [|x r IH]; simpl.
  - split; [intros [exc H]; discriminate|intros (item & exc & [] & _)].
  - destruct (entry_exception e x) as [exc|] eqn:E.
    + split; [|intros _; now exists exc].
      intros _. exists x, exc. split; [now left|exact E].
    + rewrite IH. split.
      * intros (item & exc & Hin & H). exists item, exc. split; [now right|exact H].
      * intros (item & exc & [<-|Hin] & H); [congruence|]. now exists item, exc.
Qed.

Lemma aborting_Some e feeds :
  (exists exc, aborting e feeds = Some exc) <->
  exists feed exc, In feed feeds /\ feed_exception e feed = Some exc.
Proof.
  induction feeds as [|f r IH]; simpl.
  - split; [intros [exc H]; discriminate|intros (feed & exc & [] & _)].
  - destruct (feed_exception e f) as [exc|] eqn:E.
    + split; [|intros _; now exists exc].
      intros _. exists f, exc. split; [now left|exact E].
    + rewrite IH. split.
      * intros (feed & exc & Hin & H). exists feed, exc. split; [now right|exact H].
      * intros (feed & exc & [<-|Hin] & H); [congruence|]. now exists feed, exc.
Qed.

(** X12: a run exits with status 0 exactly when no entry makes [fetch_feed]
    raise and some feed of the registry delivered an entry, and with status
    1 otherwise: when an entry makes [fetch_feed] raise, or when every feed
    either raised in its request or delivered no entry. An entry makes
    [fetch_feed] raise when it is among the first [max_items] of its feed
    and its date or its summary raises an exception. *)
Theorem run_fails_exactly_when_no_feed_delivers (e : env) (w : world) :
  (fst (main e w) = 0%Z <->
   aborting e FEEDS = None /\
   exists feed x l, In feed FEEDS /\ fetch_and_parse e feed = Parsed (x :: l)) /\
  (fst (main e w) = 1%Z <->
   (exists exc, aborting e FEEDS = Some exc) \/
   forall feed, In feed FEEDS ->
     (exists exc, fetch_and_parse e feed = Raised exc) \/
     fetch_and_parse e feed = Parsed []) /\
  ((exists exc, aborting e FEEDS = Some exc) <->
   exists feed entries item exc,
     In feed FEEDS /\ fetch_and_parse e feed = Parsed entries /\
     In item (firstn (max_items feed) entries) /\
     entry_exception e item = Some exc).
Proof.
  rewrite main_exit_status.
  assert (Hnil : concatenated e FEEDS = [] <->
                 forall feed, In feed FEEDS ->
                   (exists exc, fetch_and_parse e feed = Raised exc) \/
                   fetch_and_parse e feed = Parsed []).
  { rewrite concatenated_nil. split; intros H feed Hin.
    - apply feed_articles_nil; [now apply FEEDS_max_items_positive|now apply H].
    - apply feed_articles_nil; [now apply FEEDS_max_items_positive|now apply H]. }
  assert (Hsome : concatenated e FEEDS <> [] <->
                  exists feed x l, In feed FEEDS /\
                    fetch_and_parse e feed = Parsed (x :: l)).
  { split.
    - intros Hne. destruct (concatenated e FEEDS) as [|a r] eqn:E; [contradiction|].
      assert (Hin : In a (concatenated e FEEDS)) by (rewrite E; now left).
      unfold concatenated in Hin. apply in_flat_map in Hin as (feed & Hfeed & Ha).
      unfold feed_articles in Ha.
      destruct (fetch_and_parse e feed) as [exc|[|x l]] eqn:F.
      + contradiction.
      + rewrite firstn_nil in Ha. contradiction.
      + now exists feed, x, l.
    - intros (feed & x & l & Hfeed & F) E.
      destruct (proj1 Hnil E feed Hfeed) as [[exc H]|H]; congruence. }
  split; [|split].
  - rewrite <- Hsome.
    destruct (aborting e FEEDS) as [exc|].
    + split; [discriminate|intros [H _]; discriminate H].
    + destruct (concatenated e FEEDS) as [|a r].
      * split; [discriminate|intros [_ H]; now contradiction H].
      * split; [|reflexivity]. intros _. split; [reflexivity|discriminate].
  - rewrite <- Hnil.
    destruct (aborting e FEEDS) as [exc|].
    + split; [|reflexivity]. intros _. left. now exists exc.
    + destruct (concatenated e FEEDS) as [|a r].
      * split; [|reflexivity]. intros _. now right.
      * split; [discriminate|]. intros [[exc H]|H]; discriminate H.
  - rewrite aborting_Some. split.
    + intros (feed & exc & Hfeed & H). unfold feed_exception in H.
      destruct (fetch_and_parse e feed) as [msg|entries] eqn:F; [discriminate|].
      destruct (proj1 (first_exception_Some e _) (ex_intro _ exc H))
        as (item & exc' & Hin & Hexc).
      now exists feed, entries, item, exc'.
    + intros (feed & entries & item & exc & Hfeed & F & Hin & Hexc).
      destruct (proj2 (first_exception_Some e (firstn (max_items feed) entries)))
        as [exc' H]; [now exists item, exc|].
      exists feed, exc'. split; [exact Hfeed|].
      unfold feed_exception. now rewrite F.
Qed.

(** A run that an entry of the year 1 ends, and one that a reference of
    4301 digits ends. *)
Example run_ended_by_an_entry :
  let good := sample_entry (lit "one") (dated 2024 2 9) in
  let early := sample_entry (lit "early") (dated 1 1 1) in
  let long := {| entry_title := None; entry_link := None;
                 entry_summary := Some (lit "&#" ++ repeat 49%N 4301 ++ lit ";");
                 published_parsed := None; updated_parsed := None |} in
  let e := sample_env (lit "nng") [] in
  entry_exception e good = None /\
  entry_exception e early = Some ValueError /\
  entry_exception e long = Some ValueError /\
  entry_exception e (sample_entry (lit "leap") (dated 2023 2 29)) = Some ValueError /\
  entry_exception e (sample_entry (lit "huge") (dated 4294967296 1 1)) =
    Some OverflowError /\
  fst (main (sample_env_two (lit "import-ai") [good] (lit "nng") [early])
            no_output) = 1%Z /\
  fst (main (sample_env_two (lit "import-ai") [good] (lit "nng") [long])
            no_output) = 1%Z /\
  fst (main (sample_env_two (lit "import-ai") [good] (lit "nng") [good])
            no_output) = 0%Z.
Proof. vm_compute. repeat split; reflexivity. Qed.

(** X13: a run leaves every file other than [index.html] as it was, and
    only adds lines to the two streams. *)
Theorem run_touches_only_index_html (e : env) (w : world) (path : String.string) :
  path <> output_path ->
  files (snd (main e w)) path = files w path /\
  (exists lines, stdout (snd (main e w)) = stdout w ++ lines) /\
  (exists lines, stderr (snd (main e w)) = stderr w ++ lines).
Proof.
  intros Hp. rewrite main_run. cbv zeta.
  destruct (aborting e FEEDS) as [exc|]; [|destruct (concatenated e FEEDS) as [|a l]];
    cbn [snd files stdout stderr].
  - split; [reflexivity|]. split; eexists; [reflexivity|].
    rewrite <- app_assoc. reflexivity.
  - split; [reflexivity|]. split; eexists; [reflexivity|].
    rewrite <- app_assoc. reflexivity.
  - apply String.eqb_neq in Hp. rewrite Hp. split; [reflexivity|].
    split; eexists; [|reflexivity]. rewrite <- app_assoc. reflexivity.
Qed.

Lemma run_touches_only_index_html_witness :
  let e := sample_env (lit "nng") [sample_entry (lit "one") (dated 2024 2 9)] in
  let w := {| stdout := []; stderr := [];
              files := fun p => if String.eqb p "notes.txt" then Some (lit "kept")
                                else None |} in
  files (snd (main e w)) "notes.txt" = files w "notes.txt" /\
  (exists lines, stdout (snd (main e w)) = stdout w ++ lines) /\
  (exists lines, stderr (snd (main e w)) = stderr w ++ lines).
Proof.
  apply (run_touches_only_index_html
           (sample_env (lit "nng") [sample_entry (lit "one") (dated 2024 2 9)])
           {| stdout := []; stderr := [];
              files := fun p => if String.eqb p "notes.txt" then Some (lit "kept")
                                else None |}
           "notes.txt").
  vm_compute. discriminate.
Defined.

Lemma sort_reverse_sorted_fixed {A} (key : A -> Z) (l : list A) :
  StronglySorted (fun a b => (key b <= key a)%Z) l -> sort_reverse key l = l.
Proof.
  induction 1 as [|x r Hr IH Hx]; [reflexivity|].
  simpl. rewrite IH. destruct r as [|y r]; [reflexivity|].
  simpl. inversion Hx as [|? ? Hy _]; subst.
  destruct (Z.ltb_spec (key x) (key y)); [lia|reflexivity].
Qed.

(** X14: a sequence of articles that is in descending order of recency key
    is left as it is by the sort, so sorting twice is sorting once. *)
Theorem sorting_again_changes_nothing (l : list article) :
  (descending l -> sort_articles l = l) /\
  sort_articles (sort_articles l) = sort_articles l.
Proof.
  split; [apply sort_reverse_sorted_fixed|].
  apply sort_reverse_sorted_fixed, sort_reverse_sorted.
Qed.

(** ** What goes into a page *)

Lemma plain_app s t : plain (s ++ t) = plain s && plain t.
Proof. apply forallb_app. Qed.

Lemma plain_inert s : plain s = true -> inert s = true.
Proof.
  induction s as [|c s IH]; [reflexivity|].
  cbn [plain forallb inert contains existsb]. fold (plain s).
  intros H. apply andb_prop in H as [Hc Hs]. rewrite (IH Hs), andb_true_r.
  apply negb_true_iff in Hc.
  apply orb_false_iff in Hc as [H38 Hc]. rewrite Hc, H38. reflexivity.
Qed.

Lemma plain_digits u : plain (lit (DecimalString.NilEmpty.string_of_uint u)) = true.
Proof. induction u; simpl; auto. Qed.

Lemma plain_zero_padded width n : plain (Datetime.zero_padded width n) = true.
Proof.
  unfold Datetime.zero_padded. rewrite plain_app. apply andb_true_intro. split.
  - induction (width - _) as [|k IH]; [reflexivity|exact IH].
  - unfold DecimalString.NilZero.string_of_uint.
    destruct (N.to_uint (Z.to_N n)) eqn:E; try (rewrite <- E; apply plain_digits).
    reflexivity.
Qed.

Lemma plain_decimal n : plain (Datetime.decimal n) = true.
Proof.
  unfold Datetime.decimal, DecimalString.NilZero.string_of_uint.
  destruct (N.to_uint (Z.to_N n)) eqn:E; try (rewrite <- E; apply plain_digits).
  reflexivity.
Qed.

Lemma plain_strftime dt : plain (Datetime.strftime_Ymd dt) = true.
Proof.
  unfold Datetime.strftime_Ymd.
  now rewrite !plain_app, plain_decimal, !plain_zero_padded.
Qed.

Lemma plain_date e feed item : plain (date (article_of_entry e feed item)) = true.
Proof.
  unfold article_of_entry.
  destruct (or_else _ _) as [dt|]; [apply plain_strftime|reflexivity].
Qed.

Lemma FEEDS_plain :
  forall feed, In feed FEEDS ->
    plain (slug feed) = true /\ plain (color feed) = true /\
    plain (icon feed) = true.
Proof.
  intros feed H. unfold FEEDS in H.
  repeat (destruct H as [<-|H]; [vm_compute; auto|]). contradiction.
Qed.

(** X15: a card is its template, eleven texts that do not depend on the
    article, filled with ten strings of the article; and whatever the feeds
    deliver, each of the ten is inert for an aggregated article: the slug,
    the colour, the icon and the date hold none of the characters [&],
    [<], [>], the double quote and the apostrophe, and the other four are
    escaped. The markup of a card is the template's alone. *)
Theorem every_card_slot_is_inert (e : env) :
  (exists pieces, length pieces = 11 /\
     forall a, card a = fill pieces (card_slots a)) /\
  Forall (fun a => Forall (fun s => inert s = true) (card_slots a))
         (concatenated e FEEDS).
Proof.
  split.
  - unfold card, card_slots. cbv zeta.
    match goal with
    | |- exists pieces, _ /\ forall a,
           ?p0 ++ _ ++ ?p1 ++ _ ++ ?p2 ++ _ ++ ?p3 ++ _ ++ ?p4 ++ _ ++ ?p5
           ++ _ ++ ?p6 ++ _ ++ ?p7 ++ _ ++ ?p8 ++ _ ++ ?p9 ++ _ ++ ?p10 = _ =>
        exists [p0; p1; p2; p3; p4; p5; p6; p7; p8; p9; p10]
    end.
    split; [reflexivity|]. intros a. cbn [fill]. reflexivity.
  - apply Forall_forall. intros a Ha. unfold concatenated in Ha.
    apply in_flat_map in Ha as (feed & Hfeed & Ha).
    apply feed_articles_source in Ha as (Hs & Hn & Hi & Hc & item & Hitem).
    destruct (FEEDS_plain feed Hfeed) as (Ps & Pc & Pi).
    unfold card_slots. rewrite Hs, Hi, Hc.
    repeat constructor; try apply inert_escape; try (now apply plain_inert).
    all: apply plain_inert; rewrite Hitem; apply plain_date.
Qed.

(** The card of an article with markup in every field that a feed
    supplies. *)
Example card_of_hostile_entry :
  let a := article_of_entry (sample_env (lit "nng") []) nng
             {| entry_title := Some (lit "<b>T</b>");
                entry_link := Some (tpl "`><script>");
                entry_summary := Some (lit "&lt;i&gt;S&lt;/i&gt;");
                published_parsed := dated 999 1 2;
                updated_parsed := None |} in
  card_slots a =
    [lit "nng"; lit "#dc2626"; lit "#dc2626"; icon nng; lit "NN/g";
     lit "999-01-02"; lit "999-01-02"; lit "&quot;&gt;&lt;script&gt;";
     lit "&lt;b&gt;T&lt;/b&gt;"; lit "&lt;i&gt;S&lt;/i&gt;"] /\
  occurs (lit "<script>") (card a) = false.
Proof. vm_compute. split; reflexivity. Qed.




(** ** Entries that raise nothing *)

Lemma matches_length (match_at : str -> option nat) m :
  forall s, In m (Re.matches match_at s) -> length m <= length s.
Proof.
  intros s. induction s as [s IH] using str_length_ind.
  destruct s as [|c r]; [simp matches; intros []|].
  rewrite matches_cons. destruct (match_at (c :: r)) as [[|k]|].
  - intros H. apply IH in H; simpl in *; lia.
  - intros [<-|H].
    + rewrite length_firstn. lia.
    + apply IH in H; [|simpl; rewrite length_skipn; lia].
      rewrite length_skipn in H. simpl. lia.
  - intros H. apply IH in H; simpl in *; lia.
Qed.

(** [int] refuses a decimal reference only from 4301 digits on, and the
    reference has two characters more. *)
Lemma replace_charref_raises_long g :
  Html.replace_charref_raises g = true -> 4301 < length g.
Proof.
  unfold Html.replace_charref_raises. destruct g as [|c t]; [discriminate|].
  destruct (c =? 35)%N; [|discriminate].
  destruct t as [|x t']; [discriminate|].
  destruct ((x =? 120)%N || (x =? 88)%N); [discriminate|].
  unfold Html.int_raises, Html.int_max_str_digits, rstrip_chars.
  intros H. apply Nat.ltb_lt in H.
  pose proof (rstrip_by_length (fun c0 => contains c0 [59%N]) (x :: t')) as L.
  cbn [length] in *. unfold str, char in *. lia.
Qed.

Lemma unescape_raises_long s :
  Html.unescape_raises s = true -> 4302 < length s.
Proof.
  unfold Html.unescape_raises. intros H. apply andb_prop in H as [_ H].
  apply existsb_exists in H as (m & Hin & Hm).
  apply replace_charref_raises_long in Hm.
  apply matches_length in Hin. destruct m as [|c g]; simpl in *; lia.
Qed.

Lemma strip_html_raises_long text :
  strip_html_raises text = true -> 4302 < length text.
Proof.
  unfold strip_html_raises. intros H. apply unescape_raises_long in H.
  assert (L : length (Re.sub Re.match_tag (fun _ => []) text) <= length text).
  { apply sub_length. intros t _. simpl. lia. }
  unfold str, char in *. lia.
Qed.

Lemma days_in_month_table y m :
  (1 <= m <= 12)%Z -> Datetime.days_in_month y m = days_in_month y m.
Proof.
  intros Hm. unfold Datetime.days_in_month, days_in_month.
  assert (H : (m = 1 \/ m = 2 \/ m = 3 \/ m = 4 \/ m = 5 \/ m = 6 \/ m = 7
               \/ m = 8 \/ m = 9 \/ m = 10 \/ m = 11 \/ m = 12)%Z) by lia.
  clear Hm. repeat (destruct H as [H|H]); subst m;
    destruct (Datetime.is_leap y); reflexivity.
Qed.

Lemma days_in_month_le_31 y m : (days_in_month y m <= 31)%Z.
Proof.
  unfold days_in_month. destruct (m =? 2)%Z.
  - destruct (Datetime.is_leap y); lia.
  - destruct (_ || _); lia.
Qed.

(** A calendar date of the years 1 to 9999 is accepted by [datetime]. *)
Lemma valid_datetime_constructed dt :
  valid_datetime dt -> (1 <= Datetime.year dt <= 9999)%Z ->
  Datetime.constructor_overflows dt = false /\
  Datetime.constructor_raises dt = false.
Proof.
  intros (Hm & Hd & Hh & Hmi & Hs) Hy.
  pose proof (days_in_month_le_31 (Datetime.year dt) (Datetime.month dt)) as H31.
  split.
  - unfold Datetime.constructor_overflows, Datetime.c_int.
    apply negb_false_iff. cbn [forallb].
    repeat (apply andb_true_intro; split); try reflexivity;
      try (apply Z.leb_le; lia).
  - unfold Datetime.constructor_raises. apply negb_false_iff.
    rewrite days_in_month_table by exact Hm.
    repeat (apply andb_true_intro; split); apply Z.leb_le; lia.
Qed.

(** The seconds of a date of the years 2 to 9998 are a year and more away
    from both ends of the range of [datetime]. *)
Lemma seconds_since_epoch_inner dt :
  valid_datetime dt -> (2 <= Datetime.year dt <= 9998)%Z ->
  (Datetime.min_seconds + 365 * 86400 <= Datetime.seconds_since_epoch dt
   <= Datetime.max_seconds - 365 * 86400)%Z.
Proof.
  intros Hv Hy.
  set (first := {| Datetime.year := 1; Datetime.month := 12; Datetime.day := 31;
                   Datetime.hour := 23; Datetime.minute := 59;
                   Datetime.second := 59 |}).
  set (last := {| Datetime.year := 9999; Datetime.month := 1; Datetime.day := 1;
                  Datetime.hour := 0; Datetime.minute := 0;
                  Datetime.second := 0 |}).
  assert (Vf : valid_datetime first) by (vm_compute; repeat split; discriminate).
  assert (Vl : valid_datetime last) by (vm_compute; repeat split; discriminate).
  assert (E1 : earlier first dt).
  { destruct dt as [y m d h mi sec]. simpl in *. left. lia. }
  assert (E2 : earlier dt last).
  { destruct dt as [y m d h mi sec]. simpl in *. left. lia. }
  pose proof (seconds_since_epoch_mono first dt Vf Hv E1) as L1.
  pose proof (seconds_since_epoch_mono dt last Hv Vl E2) as L2.
  assert (F : Datetime.seconds_since_epoch first
              = (Datetime.min_seconds + 365 * 86400 - 1)%Z)
    by (vm_compute; reflexivity).
  assert (L : Datetime.seconds_since_epoch last
              = (Datetime.max_seconds - 365 * 86400 + 1)%Z)
    by (vm_compute; reflexivity).
  lia.
Qed.

Lemma ordinary_entry_raises_nothing e item offset :
  (forall t, utcoffset e t = offset) -> (-86400 <= offset <= 86400)%Z ->
  ordinary item -> entry_exception e item = None.
Proof.
  intros Hoff Hrange [Hdate Hlen]. unfold entry_exception.
  assert (Hs : strip_html_raises (get_default (entry_summary item) []) = false).
  { destruct (strip_html_raises _) eqn:E; [|reflexivity].
    apply strip_html_raises_long in E. unfold str, char in *. lia. }
  cbv zeta. rewrite Hs.
  destruct (or_else (published_parsed item) (updated_parsed item)) as [dt|];
    [|reflexivity].
  destruct (Hdate dt eq_refl) as [Hv Hy].
  destruct (valid_datetime_constructed dt Hv) as [H1 H2]; [lia|].
  pose proof (seconds_since_epoch_inner dt Hv Hy) as Hsec.
  unfold date_exception. rewrite H1, H2.
  unfold Datetime.timestamp_raises. cbv zeta. rewrite Hoff.
  replace (_ || _ || _) with false; [reflexivity|].
  symmetry. rewrite !orb_false_iff. repeat split; apply Z.ltb_ge; lia.
Qed.

Lemma first_exception_None e entries :
  (forall item, In item entries -> entry_exception e item = None) ->
  first_exception e entries = None.
Proof.
  induction entries as [|x r IH]; [reflexivity|]. intros H. simpl.
  rewrite (H x) by now left. apply IH. intros item Hin. apply H. now right.
Qed.

Lemma aborting_None e feeds :
  (forall feed, In feed feeds -> feed_exception e feed = None) ->
  aborting e feeds = None.
Proof.
  induction feeds as [|f r IH]; [reflexivity|]. intros H. simpl.
  rewrite (H f) by now left. apply IH. intros feed Hin. apply H. now right.
Qed.

(** X17: on a host whose offset from UTC is constant and a day at most, an
    entry raises nothing when its date, if it has one, is a calendar date of
    the years 2 to 9998 and its raw summary has at most 4302 characters;
    and when the first [max_items] entries of every feed are such, no
    exception ends the run: it exits with status 0 when a feed delivered an
    entry and prints the error otherwise. *)
Theorem ordinary_entries_never_end_the_run (e : env) (offset : Z) :
  (forall t, utcoffset e t = offset) -> (-86400 <= offset <= 86400)%Z ->
  (forall item, ordinary item -> entry_exception e item = None) /\
  ((forall feed entries item, In feed FEEDS ->
      fetch_and_parse e feed = Parsed entries ->
      In item (firstn (max_items feed) entries) -> ordinary item) ->
   aborting e FEEDS = None /\
   forall w,
     fst (fetch_all e FEEDS w) = Returned (concatenated e FEEDS) /\
     (concatenated e FEEDS <> [] -> fst (main e w) = 0%Z) /\
     (concatenated e FEEDS = [] ->
      fst (main e w) = 1%Z /\
      last (stderr (snd (main e w))) [] =
        lit "Error: No articles fetched from any source.")).
Proof.
  intros Hoff Hrange. split.
  - intros item. now apply ordinary_entry_raises_nothing with (offset := offset).
  - intros Hall.
    assert (Hrun : aborting e FEEDS = None).
    { apply aborting_None. intros feed Hfeed. unfold feed_exception.
      destruct (fetch_and_parse e feed) as [msg|entries] eqn:F; [reflexivity|].
      apply first_exception_None. intros item Hin.
      apply ordinary_entry_raises_nothing with (offset := offset); auto.
      now apply (Hall feed entries). }
    split; [exact Hrun|]. intros w. rewrite fetch_all_run, main_run, Hrun.
    split; [reflexivity|]. split.
    + intros Hne. destruct (concatenated e FEEDS); [contradiction|reflexivity].
    + intros ->. cbn [fst snd stderr]. split; [reflexivity|].
      apply last_last.
Qed.

Lemma ordinary_entries_never_end_the_run_witness :
  let item := sample_entry (lit "one") (dated 2024 2 9) in
  let e := sample_env (lit "nng") [item] in
  entry_exception e item = None /\ aborting e FEEDS = None /\
  fst (main e no_output) = 0%Z.
Proof.
  intros item e.
  assert (Ho : ordinary item).
  { split; [|vm_compute; lia].
    intros dt E. replace dt with
      {| Datetime.year := 2024; Datetime.month := 2; Datetime.day := 9;
         Datetime.hour := 0; Datetime.minute := 0; Datetime.second := 0 |}
      by (vm_compute in E; congruence).
    vm_compute. repeat split; discriminate. }
  destruct (ordinary_entries_never_end_the_run e 0 (fun _ => eq_refl))
    as [H1 H2]; [lia|].
  split; [now apply H1|].
  destruct H2 as [H2 H3].
  - intros feed entries x Hfeed F Hin.
    unfold FEEDS in Hfeed.
    repeat (destruct Hfeed as [<-|Hfeed];
            [try (exfalso; vm_compute in F; discriminate F)|]);
      try contradiction.
    change (Parsed [item] = Parsed entries) in F.
    assert (Hentries : entries = [item]) by congruence. subst entries.
    destruct Hin as [<-|[]]. exact Ho.
  - split; [exact H2|]. apply (H3 no_output). vm_compute. discriminate.
Defined.

(** The shortest summary that ends the run, and one of the same length that
    does not. *)
Example shortest_raising_summary :
  let decimal := lit "&#" ++ repeat 49%N 4301 in
  let hex := lit "&#x" ++ repeat 49%N 4300 in
  length decimal = 4303 /\ strip_html_raises decimal = true /\
  length hex = 4303 /\ strip_html_raises hex = false /\
  strip_html_raises (lit "&#" ++ repeat 49%N 4300) = false.
Proof. vm_compute. repeat split; reflexivity. Qed.
